(** * Strategic Accounts Ownership Explorer: the cascading filters of [app.py]

  A shallow embedding of the data path of [src/app.py]: the loader
  ([load_data], lines 49-68), the cascading candidate lists (lines 95-117),
  the row filters and the free-text search (lines 147-159), the ZIP to
  coordinate enrichment (lines 166-185), the map/table outputs (lines
  193-232) and the reset button (lines 75-90).

  Conventions of the model.
  - A Python [str] is a Rocq [string]; case mapping, white space and
    digits are the ASCII ones.  On text made of ASCII characters
    ([PyStr.ascii_text]) they are the ones of Python; the theorems whose
    statement depends on a character class assume such text.
  - A cell of a frame is a text value or the missing marker [NaN].  This is
    what a text (object dtype) column holds once [load_data] has run: line
    67 applies [.str.strip()] to every such column, which leaves text and
    turns every other entry into NaN.  Labels are text.  A numeric label,
    a numeric column and a column of other objects are not modelled (on
    those, lines 56, 64 and 67 can raise); statements about [load_data]
    are about sheets of text labels and text or missing cells.
  - A frame keeps its column labels and its rows in order.  A label is
    looked up by first occurrence, which is what [df[label]] returns when
    the labels are distinct; with a repeated label pandas returns a frame
    instead of a Series, so the theorems about look-ups by label assume
    [NoDup (columns df)].
  - Python exceptions are values of [exn]; fallible steps return [result].
  - Library calls whose result the script only consumes (the geocoder,
    [uuid4], the CSV encoder) are inputs of the model. *)

From Stdlib Require Import Ascii String NArith List.
From stdpp Require Import base option list sorting strings gmap.

(** ** Python [str] methods used by the script

  The character classes and the case mappings are those of Python on the
  characters of ASCII.  Python's own also reach other code points
  ([strip] removes U+0085 and U+00A0, [\d] accepts every decimal digit,
  [upper] and [re.IGNORECASE] map every cased letter); [ascii_text] below
  marks the text on which the two agree. *)
Module PyStr.

Definition code (c : ascii) : N := N_of_ascii c.

(** [str.isspace] on one ASCII character: TAB..CR, FS..US and the space. *)
Definition is_space (c : ascii) : bool :=
  let n := code c in
  ((9 <=? n) && (n <=? 13) || (28 <=? n) && (n <=? 31) || (n =? 32))%N.

(** The digits of [\d] among the ASCII characters: 0 to 9. *)
Definition is_digit (c : ascii) : bool :=
  let n := code c in ((48 <=? n) && (n <=? 57))%N.

Definition is_upper (c : ascii) : bool :=
  let n := code c in ((65 <=? n) && (n <=? 90))%N.

Definition is_lower (c : ascii) : bool :=
  let n := code c in ((97 <=? n) && (n <=? 122))%N.

Definition is_alnum (c : ascii) : bool :=
  is_digit c || is_upper c || is_lower c.

Definition lower_char (c : ascii) : ascii :=
  if is_upper c then ascii_of_N (code c + 32) else c.

Definition upper_char (c : ascii) : ascii :=
  if is_lower c then ascii_of_N (code c - 32) else c.

Fixpoint map_chars (f : ascii -> ascii) (s : string) : string :=
  match s with
  | EmptyString => EmptyString
  | String c s' => String (f c) (map_chars f s')
  end.

(** [s.lower()] and [s.upper()]. *)
Definition lower : string -> string := map_chars lower_char.
Definition upper : string -> string := map_chars upper_char.

Fixpoint lstrip (s : string) : string :=
  match s with
  | EmptyString => EmptyString
  | String c s' => if is_space c then lstrip s' else s
  end.

Fixpoint rstrip (s : string) : string :=
  match s with
  | EmptyString => EmptyString
  | String c s' =>
      match rstrip s' with
      | EmptyString => if is_space c then EmptyString else String c EmptyString
      | r => String c r
      end
  end.

(** [s.strip()]: leading and trailing white space removed. *)
Definition strip (s : string) : string := rstrip (lstrip s).

(** Truthiness of a [str]: non-empty. *)
Definition truthy (s : string) : bool :=
  match s with EmptyString => false | _ => true end.

(** [s.isascii()]: every character is below U+0080.  On such text the
    classes and the case mappings above are those of [str] and of [re]
    on [str] patterns. *)
Definition is_ascii (c : ascii) : bool := (code c <? 128)%N.

Fixpoint ascii_text (s : string) : bool :=
  match s with
  | EmptyString => true
  | String c s' => is_ascii c && ascii_text s'
  end.

End PyStr.

(** ** The fragment of Python's [re] used by the script

  Patterns are compiled to [regex] terms and run by derivatives.  The flag
  [ic] is [re.IGNORECASE]. *)
Module Re.

Inductive regex : Type :=
| Void                      (* matches nothing *)
| Eps                       (* matches the empty string *)
| Lit (c : ascii)           (* one literal character *)
| Any                       (* [.]: any character but a newline *)
| Digit                     (* [\d] *)
| Cat (r1 r2 : regex)
| Alt (r1 r2 : regex)
| Star (r : regex).

(** A literal word, [r{n}], [r+] and [r?]. *)
Fixpoint lits (s : string) : regex :=
  match s with
  | EmptyString => Eps
  | String c s' => Cat (Lit c) (lits s')
  end.

Fixpoint rep (n : nat) (r : regex) : regex :=
  match n with
  | O => Eps
  | S n' => Cat r (rep n' r)
  end.

Definition plus (r : regex) : regex := Cat r (Star r).
Definition opt (r : regex) : regex := Alt r Eps.

Definition newline : ascii := "010"%char.

(** Does the one-character pattern accept character [a]?  Under
    [re.IGNORECASE] an ASCII letter accepts, among ASCII characters, itself
    and its other case. *)
Definition char_eq (ic : bool) (c a : ascii) : bool :=
  if ic then bool_decide (PyStr.lower_char c = PyStr.lower_char a)
  else bool_decide (c = a).

Fixpoint nullable (r : regex) : bool :=
  match r with
  | Void | Lit _ | Any | Digit => false
  | Eps | Star _ => true
  | Cat r1 r2 => nullable r1 && nullable r2
  | Alt r1 r2 => nullable r1 || nullable r2
  end.

Fixpoint deriv (ic : bool) (a : ascii) (r : regex) : regex :=
  match r with
  | Void | Eps => Void
  | Lit c => if char_eq ic c a then Eps else Void
  | Any => if bool_decide (a = newline) then Void else Eps
  | Digit => if PyStr.is_digit a then Eps else Void
  | Cat r1 r2 =>
      if nullable r1
      then Alt (Cat (deriv ic a r1) r2) (deriv ic a r2)
      else Cat (deriv ic a r1) r2
  | Alt r1 r2 => Alt (deriv ic a r1) (deriv ic a r2)
  | Star r1 => Cat (deriv ic a r1) (Star r1)
  end.

(** [re.fullmatch]: the whole of [s] is matched by [r]. *)
Fixpoint fullmatch (ic : bool) (r : regex) (s : string) : bool :=
  match s with
  | EmptyString => nullable r
  | String a s' => fullmatch ic (deriv ic a r) s'
  end.

(** The longest prefix of [s] matched by [r], if any.  For a pattern
    whose matches all have one length (such as [\d{5}]) this is the text
    [re.match] returns. *)
Fixpoint match_prefix (ic : bool) (r : regex) (s : string) : option string :=
  match s with
  | EmptyString => if nullable r then Some EmptyString else None
  | String a s' =>
      match match_prefix ic (deriv ic a r) s' with
      | Some m => Some (String a m)
      | None => if nullable r then Some EmptyString else None
      end
  end.

(** [re.search]: the match at the leftmost position where one exists. *)
Fixpoint search (ic : bool) (r : regex) (s : string) : option string :=
  match match_prefix ic r s with
  | Some m => Some m
  | None =>
      match s with
      | EmptyString => None
      | String _ s' => search ic r s'
      end
  end.

(** The characters [re.escape] puts a backslash before (CPython 3.7 and
    later): [()[]{}?*+-|^$\.&~#], space, TAB, LF, CR, VT and FF. *)
Definition escaped_chars : list ascii :=
  list_ascii_of_string "()[]{}?*+-|^$\.&~# "
    ++ ["009"; "010"; "013"; "011"; "012"]%char.

Definition is_escaped (c : ascii) : bool := bool_decide (c ∈ escaped_chars).

Fixpoint escape (s : string) : string :=
  match s with
  | EmptyString => EmptyString
  | String c s' =>
      if is_escaped c then String "\"%char (String c (escape s'))
      else String c (escape s')
  end.

(** Tokens of a pattern string. *)
Inductive token : Type :=
| TAtom (r : regex)
| TStar
| TPlus
| TOpt
| TBar.

(** Characters with a meaning of their own in a pattern. *)
Definition meta_chars : list ascii := list_ascii_of_string ".^$*+?{}[]\|()".

(** The lexer of the pattern fragment: literals, backslash escapes of
    non-alphanumeric characters, [\d], [.], the postfix operators and
    [|].  Groups, classes, anchors and counted repetition are outside the
    fragment ([None]); so are the other backslash-letter classes. *)
Fixpoint lex (s : string) : option (list token) :=
  match s with
  | EmptyString => Some []
  | String c s' =>
      if bool_decide (c = "\"%char) then
        match s' with
        | EmptyString => None
        | String e s'' =>
            if bool_decide (e = "d"%char) then cons (TAtom Digit) <$> lex s''
            else if PyStr.is_alnum e then None
            else cons (TAtom (Lit e)) <$> lex s''
        end
      else if bool_decide (c = "."%char) then cons (TAtom Any) <$> lex s'
      else if bool_decide (c = "*"%char) then cons TStar <$> lex s'
      else if bool_decide (c = "+"%char) then cons TPlus <$> lex s'
      else if bool_decide (c = "?"%char) then cons TOpt <$> lex s'
      else if bool_decide (c = "|"%char) then cons TBar <$> lex s'
      else if bool_decide (c ∈ meta_chars) then None
      else cons (TAtom (Lit c)) <$> lex s'
  end.

(** One branch (no [|]): atoms with their postfix operators, in sequence. *)
Fixpoint parse_branch (ts : list token) : option regex :=
  match ts with
  | [] => Some Eps
  | TAtom r :: TStar :: ts' => Cat (Star r) <$> parse_branch ts'
  | TAtom r :: TPlus :: ts' => Cat (plus r) <$> parse_branch ts'
  | TAtom r :: TOpt :: ts' => Cat (opt r) <$> parse_branch ts'
  | TAtom r :: ts' => Cat r <$> parse_branch ts'
  | _ => None
  end.

(** Split a token list at the [|] tokens. *)
Fixpoint branches (ts : list token) : list (list token) :=
  match ts with
  | [] => [[]]
  | TBar :: ts' => [] :: branches ts'
  | t :: ts' =>
      match branches ts' with
      | b :: bs => (t :: b) :: bs
      | [] => [[t]]
      end
  end.

Fixpoint parse_alt (bs : list (list token)) : option regex :=
  match bs with
  | [] => None
  | [b] => parse_branch b
  | b :: bs' =>
      r1 ← parse_branch b; r2 ← parse_alt bs'; Some (Alt r1 r2)
  end.

(** The tokens of a pattern made of literal characters only. *)
Fixpoint lit_tokens (s : string) : list token :=
  match s with
  | EmptyString => []
  | String c s' => TAtom (Lit c) :: lit_tokens s'
  end.

(** [re.compile] on the fragment. *)
Definition compile (pattern : string) : option regex :=
  ts ← lex pattern; parse_alt (branches ts).

(** The words a pattern denotes, as the [re] documentation describes
    them; the matcher above is checked against this relation. *)
Inductive matches (ic : bool) : regex -> string -> Prop :=
| matches_eps : matches ic Eps EmptyString
| matches_lit c a :
    char_eq ic c a = true -> matches ic (Lit c) (String a EmptyString)
| matches_any a :
    a <> newline -> matches ic Any (String a EmptyString)
| matches_digit a :
    PyStr.is_digit a = true -> matches ic Digit (String a EmptyString)
| matches_cat r1 r2 s1 s2 :
    matches ic r1 s1 -> matches ic r2 s2 -> matches ic (Cat r1 r2) (s1 +:+ s2)
| matches_alt_l r1 r2 s : matches ic r1 s -> matches ic (Alt r1 r2) s
| matches_alt_r r1 r2 s : matches ic r2 s -> matches ic (Alt r1 r2) s
| matches_star_nil r : matches ic (Star r) EmptyString
| matches_star_cons r s1 s2 :
    matches ic r s1 -> matches ic (Star r) s2 -> matches ic (Star r) (s1 +:+ s2).

(** [t] occurs in [s]. *)
Definition substring_of (t s : string) : Prop :=
  exists pre post, s = pre +:+ t +:+ post.

(** [t] occurs in [s] when case is ignored: a stretch of [s] has the
    same lower-cased text as [t]. *)
Definition icontains (t s : string) : Prop :=
  exists pre m post, s = pre +:+ m +:+ post /\ PyStr.lower m = PyStr.lower t.

(** The same as a computation: [lower t] is a prefix of [lower] of some
    suffix of [s]. *)
Fixpoint is_prefix (t s : string) : bool :=
  match t, s with
  | EmptyString, _ => true
  | String c t', String a s' => bool_decide (c = a) && is_prefix t' s'
  | String _ _, EmptyString => false
  end.

Fixpoint occurs (t s : string) : bool :=
  is_prefix t s ||
  match s with
  | EmptyString => false
  | String _ s' => occurs t s'
  end.

Definition icontainsb (t s : string) : bool :=
  occurs (PyStr.lower t) (PyStr.lower s).

Fixpoint all_digits (s : string) : bool :=
  match s with
  | EmptyString => true
  | String c s' => PyStr.is_digit c && all_digits s'
  end.

(** A run of five digits. *)
Definition five_digits (m : string) : Prop :=
  String.length m = 5 /\ all_digits m = true.

End Re.


(** ** The fragment of pandas used by the script *)
Module Pd.

(** A cell: text, or the missing marker. *)
Inductive cell : Type :=
| NaN
| Str (s : string).

Global Instance cell_eq_dec : EqDecision cell.
Proof. solve_decision. Defined.

(** Python exceptions the modelled code can raise. *)
Inductive exn : Type :=
| KeyError (label : string)      (* [df[label]] on an absent label *)
| ReError (pattern : string).    (* pattern outside the fragment of [Re] *)

Inductive result (A : Type) : Type :=
| Ok (a : A)
| Raise (e : exn).
Global Arguments Ok {A} a.
Global Arguments Raise {A} e.

Global Instance result_ret : MRet result := fun A a => Ok a.
Global Instance result_bind : MBind result := fun A B f m =>
  match m with
  | Ok a => f a
  | Raise e => Raise e
  end.
Global Instance result_fmap : FMap result := fun A B f m =>
  match m with
  | Ok a => Ok (f a)
  | Raise e => Raise e
  end.

Abbreviation row := (list cell).
Abbreviation Series := (list cell).

Record DataFrame : Type := mkDataFrame {
  columns : list string;
  rows : list row
}.

(** [label in df.columns]. *)
Definition has_col (label : string) (df : DataFrame) : bool :=
  bool_decide (label ∈ columns df).

(** Position of a label among the columns. *)
Definition col_pos (label : string) (cols : list string) : option nat :=
  fst <$> list_find (fun c => c = label) cols.

(** The cell of a row at a position (NaN past the end of a short row). *)
Definition cell_at (i : nat) (r : row) : cell := default NaN (r !! i).

(** [df[label]] on a frame with distinct labels: the column as a Series,
    or [KeyError].  (With a repeated label pandas returns a frame, and the
    Series methods the script calls on it raise [AttributeError]; the
    theorems about look-ups assume [NoDup (columns df)].) *)
Definition getitem (df : DataFrame) (label : string) : result Series :=
  match col_pos label (columns df) with
  | Some i => Ok (cell_at i <$> rows df)
  | None => Raise (KeyError label)
  end.

(** [df[label] = values] for a label that is present. *)
Definition setitem (df : DataFrame) (label : string) (values : Series)
  : DataFrame :=
  match col_pos label (columns df) with
  | Some i =>
      mkDataFrame (columns df)
        (zip_with (fun r v => <[i := v]> r) (rows df) values)
  | None => df
  end.

(** [df.rename(columns={old: new})]: every label [old] becomes [new]. *)
Definition relabel (old new : string) (c : string) : string :=
  if bool_decide (c = old) then new else c.

Definition rename (old new : string) (df : DataFrame) : DataFrame :=
  mkDataFrame (relabel old new <$> columns df) (rows df).

(** [df[mask]]: the rows whose mask entry is [True], in order. *)
Fixpoint mask_rows (rs : list row) (mask : list bool) : list row :=
  match rs, mask with
  | r :: rs', b :: mask' =>
      if b then r :: mask_rows rs' mask' else mask_rows rs' mask'
  | _, _ => []
  end.

Definition loc (df : DataFrame) (mask : list bool) : DataFrame :=
  mkDataFrame (columns df) (mask_rows (rows df) mask).

(** [df.empty]: one of the axes has length 0. *)
Definition empty (df : DataFrame) : bool :=
  bool_decide (rows df = []) || bool_decide (columns df = []).

(** [str(x)] of a cell, as [.astype(str)] computes it. *)
Definition astype_str (c : cell) : string :=
  match c with
  | NaN => "nan"
  | Str s => s
  end.

(** [s.dropna()], keeping the text values. *)
Definition dropna (s : Series) : list string :=
  omap (fun c => match c with Str v => Some v | NaN => None end) s.

(** [.unique()]: the distinct values in order of first appearance. *)
Fixpoint unique_from (seen l : list string) : list string :=
  match l with
  | [] => []
  | x :: l' =>
      if bool_decide (x ∈ seen) then unique_from seen l'
      else x :: unique_from (x :: seen) l'
  end.

Definition unique (l : list string) : list string := unique_from [] l.

(** [sorted(...)] on a list of [str]: ascending by code point. *)
Definition sorted (l : list string) : list string := merge_sort String.le l.

(** [s.isin(values)], one cell and the whole Series. *)
Definition isin1 (values : list string) (c : cell) : bool :=
  match c with
  | Str v => bool_decide (v ∈ values)
  | NaN => false
  end.

Definition isin (s : Series) (values : list string) : list bool :=
  isin1 values <$> s.

(** The idiom [df[df[label].isin(values)]]. *)
Definition where_isin (df : DataFrame) (label : string)
    (values : list string) : result DataFrame :=
  s ← getitem df label; Ok (loc df (isin s values)).

(** [.str.strip()] on one cell of a text column. *)
Definition str_strip (c : cell) : cell :=
  match c with
  | NaN => NaN
  | Str s => Str (PyStr.strip s)
  end.

(** [.str.extract(pattern, expand=False)] for a pattern that is one
    group: the text of the first match, NaN without a match. *)
Definition str_extract (group : Re.regex) (c : cell) : cell :=
  match c with
  | NaN => NaN
  | Str s =>
      match Re.search false group s with
      | Some m => Str m
      | None => NaN
      end
  end.

(** [.fillna(value)]. *)
Definition fillna (value : string) (c : cell) : cell :=
  match c with
  | NaN => Str value
  | _ => c
  end.

(** [.str.contains(pat, case=False, na=False)] on one text value. *)
Definition str_contains (pat : string) (s : string) : result bool :=
  match Re.compile pat with
  | Some r => Ok (bool_decide (is_Some (Re.search true r s)))
  | None => Raise (ReError pat)
  end.

(** [frame.any(axis=1)] for a frame of [n] rows given by its columns. *)
Definition any_axis1 (n : nat) (cols : list (list bool)) : list bool :=
  (fun i => existsb (fun col => default false (col !! i)) cols) <$> seq 0 n.

(** The Series of every column, by position. *)
Definition column_series (df : DataFrame) : list Series :=
  (fun j => cell_at j <$> rows df) <$> seq 0 (length (columns df)).

(** Python truthiness of a list. *)
Definition truthy {A} (l : list A) : bool :=
  match l with [] => false | _ => true end.

End Pd.

Import Pd.

(** ** [load_data] (lines 49-68) *)
Module Loader.

(** The pattern [r"(\d{5})"] of line 59: one group, five digits. *)
Definition zip_pattern : Re.regex := Re.rep 5 Re.Digit.

(** The pattern [r"customer|account|company"] of line 64. *)
Definition customer_pattern : Re.regex :=
  Re.Alt (Re.lits "customer") (Re.Alt (Re.lits "account") (Re.lits "company")).

Definition zip_names : list string := ["zip"; "zipcode"; "postal"; "postal_code"].

(** Lines 56-57: the first column whose lower-cased label is a ZIP name,
    else ["Zip"] when that label is present, else [None]. *)
Definition zip_col (df : DataFrame) : option string :=
  match List.filter (fun c => bool_decide (PyStr.lower c ∈ zip_names)) (columns df) with
  | c :: _ => Some c
  | [] => if has_col "Zip" df then Some "Zip" else None
  end.

(** Line 52: [df.columns = df.columns.str.strip()]. *)
Definition strip_columns (df : DataFrame) : DataFrame :=
  mkDataFrame (PyStr.strip <$> columns df) (rows df).

(** The Series expressions of lines 54 and 59, on one cell. *)
Definition state_text (c : cell) : cell :=
  Str (PyStr.upper (PyStr.strip (astype_str c))).

Definition zip_text (c : cell) : cell :=
  fillna "" (str_extract zip_pattern (Str (astype_str c))).

(** Lines 53-54. *)
Definition normalize_state (df : DataFrame) : result DataFrame :=
  if has_col "State" df then
    s ← getitem df "State";
    Ok (setitem df "State" (state_text <$> s))
  else Ok df.

(** Lines 56-60. *)
Definition normalize_zip (df : DataFrame) : result DataFrame :=
  match zip_col df with
  | Some zc =>
      if PyStr.truthy zc then
        s ← getitem df zc;
        let df1 := setitem df zc (zip_text <$> s) in
        Ok (rename zc "Zip" df1)
      else Ok df
  | None => Ok df
  end.

(** Lines 62-66: without a ["Customer"] column, the first column whose
    label matches the customer pattern (case ignored) takes that name. *)
Definition normalize_customer (df : DataFrame) : DataFrame :=
  if has_col "Customer" df then df
  else
    match List.filter
            (fun c => bool_decide (is_Some (Re.search true customer_pattern c)))
            (columns df) with
    | c :: _ => rename c "Customer" df
    | [] => df
    end.

(** Line 67: every text column stripped. *)
Definition strip_cells (df : DataFrame) : DataFrame :=
  mkDataFrame (columns df) ((fun r : row => str_strip <$> r) <$> rows df).

(** [load_data], applied to the frame [pd.read_excel] returned. *)
Definition load_data (raw : DataFrame) : result DataFrame :=
  let df := strip_columns raw in
  df ← normalize_state df;
  df ← normalize_zip df;
  let df := normalize_customer df in
  Ok (strip_cells df).

(** The same steps read row by row: a column assignment rewrites one
    cell of every row. *)
Definition set_cell (g : cell -> cell) (i : nat) (r : row) : row :=
  <[i := g (cell_at i r)]> r.

Definition state_rows (df : DataFrame) : list row :=
  match col_pos "State" (columns df) with
  | Some s => set_cell state_text s <$> rows df
  | None => rows df
  end.

Definition zip_frame (df : DataFrame) : DataFrame :=
  match zip_col df with
  | Some zc =>
      match col_pos zc (columns df) with
      | Some z => rename zc "Zip" (mkDataFrame (columns df) (set_cell zip_text z <$> rows df))
      | None => df
      end
  | None => df
  end.

(** The test of line 56 on one label. *)
Definition zip_like (c : string) : bool := bool_decide (PyStr.lower c ∈ zip_names).

(** [load_data] read as one relabelling of the columns and one rewriting
    of every row, both determined by the stripped labels. *)
Definition zip_pos (cols : list string) : option nat :=
  zc ← zip_col (mkDataFrame cols []); col_pos zc cols.

Definition load_columns (cols : list string) : list string :=
  columns (normalize_customer (zip_frame (mkDataFrame cols []))).

Definition load_row (cols : list string) (r : row) : row :=
  let r1 := match col_pos "State" cols with
            | Some s => set_cell state_text s r
            | None => r
            end in
  let r2 := match zip_pos cols with
            | Some z => set_cell zip_text z r1
            | None => r1
            end in
  str_strip <$> r2.

End Loader.

(** ** The script body: candidates, filters, search (lines 95-159) *)
Module App.

(** What the sidebar widgets returned in this run. *)
Record selection : Type := mkSelection {
  customer_choice : list string;
  sam_choice : list string;
  state_choice : list string;
  zip_choice : list string;
  search_text : string
}.

(** [sorted(s.dropna().unique())]. *)
Definition sorted_values (s : Series) : list string :=
  sorted (unique (dropna s)).

(** Line 95. *)
Definition customers (df : DataFrame) : result (list string) :=
  if has_col "Customer" df then s ← getitem df "Customer"; Ok (sorted_values s)
  else Ok [].

(** Lines 98-102. *)
Definition sam_vals (df : DataFrame) (S : selection) : result (list string) :=
  if truthy (customer_choice S) && has_col "Customer" df && has_col "WSC_SAM" df then
    sam_subset ← where_isin df "Customer" (customer_choice S);
    s ← getitem sam_subset "WSC_SAM";
    Ok (sorted_values s)
  else if has_col "WSC_SAM" df then
    s ← getitem df "WSC_SAM"; Ok (sorted_values s)
  else Ok [].

(** Lines 105-109. *)
Definition state_subset (df : DataFrame) (S : selection) : result DataFrame :=
  let state_subset := df in
  state_subset ←
    (if truthy (customer_choice S)
     then where_isin state_subset "Customer" (customer_choice S)
     else Ok state_subset);
  if truthy (sam_choice S) && has_col "WSC_SAM" state_subset
  then where_isin state_subset "WSC_SAM" (sam_choice S)
  else Ok state_subset.

(** Line 110. *)
Definition state_vals (df : DataFrame) (S : selection) : result (list string) :=
  state_subset ← state_subset df S;
  s ← getitem state_subset "State";
  Ok (sorted_values s).

(** Lines 113-115. *)
Definition zip_subset (df : DataFrame) (S : selection) : result DataFrame :=
  zip_subset ← state_subset df S;
  if truthy (state_choice S)
  then where_isin zip_subset "State" (state_choice S)
  else Ok zip_subset.

(** Line 116. *)
Definition zip_vals (df : DataFrame) (S : selection) : result (list string) :=
  zip_subset ← zip_subset df S;
  s ← getitem zip_subset "Zip";
  Ok (sorted_values s).

(** Lines 147-155: the four dimension filters. *)
Definition dimension_filters (df : DataFrame) (S : selection) : result DataFrame :=
  let filtered := df in
  filtered ←
    (if truthy (customer_choice S)
     then where_isin filtered "Customer" (customer_choice S)
     else Ok filtered);
  filtered ←
    (if truthy (sam_choice S) && has_col "WSC_SAM" filtered
     then where_isin filtered "WSC_SAM" (sam_choice S)
     else Ok filtered);
  filtered ←
    (if truthy (state_choice S)
     then where_isin filtered "State" (state_choice S)
     else Ok filtered);
  if truthy (zip_choice S)
  then where_isin filtered "Zip" (zip_choice S)
  else Ok filtered.

(** The lambda of line 158 on one column:
    [col.astype(str).str.contains(patt, case=False, na=False)]. *)
Definition column_contains (patt : string) (col : Series) : result (list bool) :=
  mapM (fun c => str_contains patt (astype_str c)) col.

(** Lines 156-159. *)
Definition search_filter (filtered : DataFrame) (text : string) : result DataFrame :=
  if PyStr.truthy text then
    let patt := Re.escape text in
    hits ← mapM (column_contains patt) (column_series filtered);
    let mask := any_axis1 (length (rows filtered)) hits in
    Ok (loc filtered mask)
  else Ok filtered.

(** [filtered] as line 161 sees it. *)
Definition filtered (df : DataFrame) (S : selection) : result DataFrame :=
  f ← dimension_filters df S; search_filter f (search_text S).

(** The script from line 95 to line 159, top to bottom: an exception in
    an earlier statement stops the run. *)
Record sidebar : Type := mkSidebar {
  customer_options : list string;
  sam_options : list string;
  state_options : list string;
  zip_options : list string;
  result_rows : DataFrame
}.

Definition run (df : DataFrame) (S : selection) : result sidebar :=
  cs ← customers df;
  ss ← sam_vals df S;
  sts ← state_vals df S;
  zs ← zip_vals df S;
  f ← filtered df S;
  Ok (mkSidebar cs ss sts zs f).

End App.

(** ** Coordinates, map and table (lines 166-232) *)
Module Geo.
Section geo.

(** A latitude or longitude as the geocoder reports it (a float). *)
Variable coord : Type.

(** One entry of [zip_map]: [None] is a NaN coordinate. *)
Record place : Type := mkPlace {
  latitude : option coord;
  longitude : option coord
}.

(** [geocode_zips] (lines 166-171): the pgeocode query on the ZIP column,
    turned into a dictionary keyed by postal code. *)
Variable geocode_zips : Series -> gmap string place.

(** [DataFrame.to_csv(index=False).encode("utf-8")]. *)
Variable to_csv : DataFrame -> string.

(** Line 173. *)
Definition zip_map (filtered : DataFrame) : result (gmap string place) :=
  if negb (empty filtered)
  then zips ← getitem filtered "Zip"; Ok (geocode_zips zips)
  else Ok ∅.

(** The frame [geo]: the input frame with the columns [lat] and [lon]
    added; [None] is [pd.NA] (or a NaN float). *)
Record geo_frame : Type := mkGeo {
  base : DataFrame;
  lat : list (option coord);
  lon : list (option coord)
}.

(** Lines 178-183, one pass of the loop body. *)
Definition coords_of (zm : gmap string place) (z : string)
  : option coord * option coord :=
  match zm !! z with
  | Some rec =>
      match latitude rec with
      | Some la => (Some la, longitude rec)
      | None => (None, None)
      end
  | None => (None, None)
  end.

(** [attach_coords] (lines 174-184). *)
Definition attach_coords (zm : gmap string place) (df_in : DataFrame)
  : result geo_frame :=
  if empty df_in then
    let n := length (rows df_in) in
    Ok (mkGeo df_in (replicate n None) (replicate n None))
  else
    zips ← getitem df_in "Zip";
    let cs := (fun c => coords_of zm (astype_str c)) <$> zips in
    Ok (mkGeo df_in (fst <$> cs) (snd <$> cs)).

(** The geocoder resolved a ZIP: the dictionary has an entry for it whose
    latitude is a number. *)
Definition resolved (zm : gmap string place) (z : string) : Prop :=
  exists p x, zm !! z = Some p /\ latitude p = Some x.

(** The geocoder located a ZIP: its entry has the latitude [x] and the
    longitude [y]. *)
Definition located (zm : gmap string place) (z : string) (x y : coord) : Prop :=
  exists p, zm !! z = Some p /\ latitude p = Some x /\ longitude p = Some y.

(** [geo.dropna(subset=["lat","lon"])]: the rows with both coordinates. *)
Fixpoint with_coords (rs : list row) (lats lons : list (option coord))
  : list (row * coord * coord) :=
  match rs, lats, lons with
  | r :: rs', la :: lats', lo :: lons' =>
      match la, lo with
      | Some x, Some y => (r, x, y) :: with_coords rs' lats' lons'
      | _, _ => with_coords rs' lats' lons'
      end
  | _, _, _ => []
  end.

Definition map_layer (geo : geo_frame) : list (row * coord * coord) :=
  with_coords (rows (base geo)) (lat geo) (lon geo).

Inductive map_view : Type := PinMap | Heatmap.

(** What the map section puts on the page. *)
Inductive map_output : Type :=
| Figure (view : map_view) (points : list (row * coord * coord))
| Info (message : string).

(** Lines 193-214. *)
Definition map_section (view : map_view) (geo : geo_frame) : map_output :=
  let has_coords := bool_decide (0 < length (map_layer geo)) in
  if has_coords then Figure view (map_layer geo)
  else Info "No mappable locations for current filters.".

(** Lines 125-137: the stakeholder columns, in dictionary order. *)
Definition stakeholder_columns : list string :=
  ["WSC_SAM"; "WSC_VP_Sales"; "WSC_RM"; "WSC_Title"; "WSC_Contact";
   "Siding_Specialist"; "Regional / Market VP/SVP";
   "Area Manager / District Manager / Market Manager";
   "General Manager / MP"; "Email"; "Phone"].

(** Lines 138-142; [checked] is what each checkbox returned. *)
Definition selected_stakeholders (df : DataFrame) (checked : string -> bool)
  : list string :=
  List.filter (fun c => has_col c df && checked c) stakeholder_columns.

(** The loops of lines 221-226. *)
Definition add_present (df : DataFrame) (names cols : list string) : list string :=
  fold_left
    (fun acc c =>
       if has_col c df && negb (bool_decide (c ∈ acc)) then acc ++ [c] else acc)
    names cols.

Definition cols_to_show (df : DataFrame) (checked : string -> bool) : list string :=
  add_present df ["City"; "Address"; "Branch"; "Region"; "Division"]
    (add_present df (selected_stakeholders df checked)
       ["Customer"; "WSC_SAM"; "State"; "Zip"]).

(** [df[cols]] for a list of labels, on a frame with distinct labels: one
    column per label.  (pandas returns every column that carries a
    repeated label.) *)
Definition select_columns (df : DataFrame) (cols : list string) : result DataFrame :=
  ps ← mapM (fun c => match col_pos c (columns df) with
                      | Some i => Ok i
                      | None => Raise (KeyError c)
                      end) cols;
  Ok (mkDataFrame cols ((fun r : row => (fun i => cell_at i r) <$> ps) <$> rows df)).

(** Line 227. *)
Definition filtered_to_display (df filtered : DataFrame)
    (checked : string -> bool) : result DataFrame :=
  let cols := cols_to_show df checked in
  if forallb (fun c => has_col c filtered) cols
  then select_columns filtered cols
  else Ok filtered.

(** The outputs of one run of the script below line 161. *)
Record page : Type := mkPage {
  shown : nat;               (* the count of line 161 *)
  map_widget : map_output;
  table : DataFrame;         (* [st.dataframe] *)
  csv_bytes : string         (* the download button's data *)
}.

Definition render (df filtered : DataFrame) (view : map_view)
    (checked : string -> bool) : result page :=
  zm ← zip_map filtered;
  geo ← attach_coords zm filtered;
  shown_table ← filtered_to_display df filtered checked;
  Ok (mkPage (length (rows filtered)) (map_section view geo)
             shown_table (to_csv shown_table)).

End geo.

Global Arguments mkPlace {coord} _ _.
Global Arguments latitude {coord} _.
Global Arguments longitude {coord} _.
Global Arguments zip_map {coord} _ _.
Global Arguments mkGeo {coord} _ _ _.
Global Arguments base {coord} _.
Global Arguments lat {coord} _.
Global Arguments lon {coord} _.
Global Arguments coords_of {coord} _ _.
Global Arguments attach_coords {coord} _ _.
Global Arguments resolved {coord} _ _.
Global Arguments located {coord} _ _ _ _.
Global Arguments with_coords {coord} _ _ _.
Global Arguments map_layer {coord} _.
Global Arguments Figure {coord} _ _.
Global Arguments Info {coord} _.
Global Arguments map_section {coord} _ _.
Global Arguments mkPage {coord} _ _ _ _.
Global Arguments shown {coord} _.
Global Arguments map_widget {coord} _.
Global Arguments table {coord} _.
Global Arguments csv_bytes {coord} _.
Global Arguments render {coord} _ _ _ _ _ _.

End Geo.

(** ** Session state, caches and the reset button (lines 49, 75-90, 166) *)
Module Session.
Section session.

(** The value a cached call of [geocode_zips] stored. *)
Variable zipmap : Type.

(** A value held in [st.session_state]. *)
Inductive value : Type :=
| VList (l : list string)
| VText (s : string)
| VBool (b : bool).

(** The Streamlit runtime as the script sees it: the session state and the
    two function caches registered with [@st.cache_data] (lines 49 and
    166).  The geocode cache is keyed by the argument of the call. *)
Record runtime : Type := mkRuntime {
  session_state : gmap string value;
  load_data_cache : option DataFrame;
  geocode_zips_cache : list (Series * zipmap)
}.

(** [st.session_state.clear()]. *)
Definition session_clear (rt : runtime) : runtime :=
  mkRuntime ∅ (load_data_cache rt) (geocode_zips_cache rt).

(** [st.cache_data.clear()]: empties the cache of every function
    decorated with [@st.cache_data]. *)
Definition cache_data_clear (rt : runtime) : runtime :=
  mkRuntime (session_state rt) None [].

(** [st.session_state[key] = v]. *)
Definition session_set (key : string) (v : value) (rt : runtime) : runtime :=
  mkRuntime (<[key := v]> (session_state rt))
            (load_data_cache rt) (geocode_zips_cache rt).

(** Lines 75-76; [u] is [str(uuid.uuid4())]. *)
Definition init_suffix (u : string) (rt : runtime) : runtime :=
  match session_state rt !! "widget_suffix" with
  | Some _ => rt
  | None => session_set "widget_suffix" (VText u) rt
  end.

(** Lines 82-87, the body run when the reset button was pressed; the
    rerun starts the script again on the runtime returned. *)
Definition reset_button (u : string) (rt : runtime) : runtime :=
  let rt := session_clear rt in
  let rt := cache_data_clear rt in
  session_set "widget_suffix" (VText u) rt.

(** Line 90. *)
Definition suffix (rt : runtime) : string :=
  match session_state rt !! "widget_suffix" with
  | Some (VText s) => s
  | _ => ""
  end.

(** A keyed widget returns the value the session holds under its key, and
    its default when there is none. *)
Definition multiselect (key : string) (rt : runtime) : list string :=
  match session_state rt !! key with
  | Some (VList l) => l
  | _ => []
  end.

Definition text_input (key : string) (rt : runtime) : string :=
  match session_state rt !! key with
  | Some (VText s) => s
  | _ => ""
  end.

Definition checkbox (key : string) (rt : runtime) : bool :=
  match session_state rt !! key with
  | Some (VBool b) => b
  | _ => false
  end.

(** Lines 96, 103, 111, 117, 119: the widgets, keyed with the suffix. *)
Definition read_selection (rt : runtime) : App.selection :=
  let sfx := suffix rt in
  App.mkSelection
    (multiselect ("cust_" +:+ sfx) rt)
    (multiselect ("sam_" +:+ sfx) rt)
    (multiselect ("state_" +:+ sfx) rt)
    (multiselect ("zip_" +:+ sfx) rt)
    (text_input ("search_" +:+ sfx) rt).

(** Line 141: the checkbox of one stakeholder column. *)
Definition slicer_checked (rt : runtime) (col_name : string) : bool :=
  checkbox ("slicer_" +:+ col_name +:+ "_" +:+ suffix rt) rt.

End session.
End Session.

(** ** The vocabulary of the specification *)
Module Spec.
Import App.

(** The four filter dimensions. *)
Inductive dimension : Type := Customer | SAM | State | Zip.

Global Instance dimension_eq_dec : EqDecision dimension.
Proof. solve_decision. Defined.

Definition dimensions : list dimension := [Customer; SAM; State; Zip].

(** The column of a dimension. *)
Definition label (d : dimension) : string :=
  match d with
  | Customer => "Customer"
  | SAM => "WSC_SAM"
  | State => "State"
  | Zip => "Zip"
  end.

(** The selection set of a dimension, and its replacement. *)
Definition choice (S : selection) (d : dimension) : list string :=
  match d with
  | Customer => customer_choice S
  | SAM => sam_choice S
  | State => state_choice S
  | Zip => zip_choice S
  end.

Definition set_choice (d : dimension) (vs : list string) (S : selection) : selection :=
  match d with
  | Customer => mkSelection vs (sam_choice S) (state_choice S) (zip_choice S) (search_text S)
  | SAM => mkSelection (customer_choice S) vs (state_choice S) (zip_choice S) (search_text S)
  | State => mkSelection (customer_choice S) (sam_choice S) vs (zip_choice S) (search_text S)
  | Zip => mkSelection (customer_choice S) (sam_choice S) (state_choice S) vs (search_text S)
  end.

(** The candidate list the script offers for a dimension. *)
Definition candidates (df : DataFrame) (S : selection) (d : dimension)
  : result (list string) :=
  match d with
  | Customer => customers df
  | SAM => sam_vals df S
  | State => state_vals df S
  | Zip => zip_vals df S
  end.

(** The dimensions earlier in the order Customer, SAM, State, Zip. *)
Definition upstream (d : dimension) : list dimension :=
  match d with
  | Customer => []
  | SAM => [Customer]
  | State => [Customer; SAM]
  | Zip => [Customer; SAM; State]
  end.

(** Every dimension but [d]. *)
Definition others (d : dimension) : list dimension :=
  List.filter (fun d' => bool_decide (d' <> d)) dimensions.

(** The value of a row in the column of a dimension. *)
Definition value (df : DataFrame) (d : dimension) (r : row) : cell :=
  match col_pos (label d) (columns df) with
  | Some i => cell_at i r
  | None => NaN
  end.

(** A row meets the selection of a dimension: the set is empty (no
    constraint), or the row's value is one of its members. *)
Definition meets (df : DataFrame) (S : selection) (r : row) (d : dimension) : bool :=
  negb (truthy (choice S d)) || isin1 (choice S d) (value df d r).

(** The rows of [df] that meet the selections of the dimensions [ds]. *)
Definition restrict (ds : list dimension) (df : DataFrame) (S : selection)
  : list row :=
  List.filter (fun r => forallb (meets df S r) ds) (rows df).

(** [filteredRows(S)] in the words of the specification. *)
Definition filteredRows (df : DataFrame) (S : selection) : list row :=
  restrict dimensions df S.

(** [l] is the sorted, duplicate-free list of the non-null values of
    dimension [d] among the rows restricted by the dimensions [ds]. *)
Definition candidate_list (ds : list dimension) (df : DataFrame)
    (S : selection) (d : dimension) (l : list string) : Prop :=
  Sorted String.le l /\ NoDup l /\
  forall v, v ∈ l <-> exists r, r ∈ restrict ds df S /\ value df d r = Str v.

(** All four dimension columns are present. *)
Definition has_dimensions (df : DataFrame) : Prop :=
  forall d, has_col (label d) df = true.

(** Every dimension with a selection has its column. *)
Definition selectable (df : DataFrame) (S : selection) : Prop :=
  forall d, choice S d <> [] -> has_col (label d) df = true.

(** Every row has one cell per column. *)
Definition well_formed (df : DataFrame) : Prop :=
  Forall (fun r : row => length r = length (columns df)) (rows df).

(** The labels and the text cells of a frame are ASCII text. *)
Definition ascii_cell (c : cell) : bool :=
  match c with
  | NaN => true
  | Str v => PyStr.ascii_text v
  end.

Definition ascii_frame (df : DataFrame) : bool :=
  forallb PyStr.ascii_text (columns df) && forallb (forallb ascii_cell) (rows df).

(** The search of section 4.3 on one row of a frame with [n] columns. *)
Definition row_matches (n : nat) (text : string) (r : row) : Prop :=
  exists j, j < n /\ Re.icontains text (astype_str (cell_at j r)).

Definition row_matchesb (n : nat) (text : string) (r : row) : bool :=
  existsb (fun j => Re.icontainsb text (astype_str (cell_at j r))) (seq 0 n).

(** [z] is the first run of five digits in [s], or empty when [s] has
    no such run. *)
Definition first_five_digits (s z : string) : Prop :=
  (z = "" /\ forall pre m post, s = pre +:+ m +:+ post -> ~ Re.five_digits m) \/
  (Re.five_digits z /\
   exists pre post,
     s = pre +:+ z +:+ post /\
     forall pre' m post',
       s = pre' +:+ m +:+ post' -> Re.five_digits m ->
       String.length pre <= String.length pre').

End Spec.

(** ** The scenario of the specification, as data *)
Module Scenario.

(** The sheet as read: a padded header, a padded state, a ZIP+4 and a
    row without a state. *)
Definition raw : DataFrame :=
  mkDataFrame ["Customer"; "WSC_SAM"; "State "; "ZipCode"]
    [[Str "Acme"; Str "Ann"; Str "wi "; Str "54401-1"];
     [Str "Acme"; Str "Bob"; Str "WI"; Str "54402"];
     [Str "Beta"; Str "Cy"; NaN; Str "55401"]].

(** A normalized frame with the four dimension columns. *)
Definition accounts : DataFrame :=
  mkDataFrame ["Customer"; "WSC_SAM"; "State"; "Zip"]
    [[Str "Acme"; Str "Ann"; Str "WI"; Str "54401"];
     [Str "Acme"; Str "Bob"; Str "WI"; Str "54402"];
     [Str "Beta"; Str "Cy"; Str "MN"; Str "55401"]].

(** A sheet without a State column. *)
Definition stateless : DataFrame :=
  mkDataFrame ["Customer"; "WSC_SAM"; "Zip"]
    [[Str "Acme"; Str "Ann"; Str "54401"]].

Definition nothing_chosen : App.selection := App.mkSelection [] [] [] [] "".
Definition acme : App.selection := App.mkSelection ["Acme"] [] [] [] "".
Definition acme_beta : App.selection := App.mkSelection ["Acme"; "Beta"] [] [] [] "".
Definition wisconsin : App.selection := App.mkSelection [] [] ["WI"] [] "".
Definition dotted : App.selection := App.mkSelection [] [] [] [] "a.c".

(** A geocoder that knows one ZIP (coordinates as whole degrees). *)
Definition one_zip (_ : list cell) : gmap string (Geo.place nat) :=
  {[ "54401" := Geo.mkPlace (Some 44) (Some 89) ]}.

(** A runtime in which a customer is selected, a checkbox is ticked and
    both caches are filled. *)
Definition busy : Session.runtime nat :=
  Session.mkRuntime nat
    {[ "widget_suffix" := Session.VText "k1";
       "cust_k1" := Session.VList ["Acme"];
       "slicer_Email_k1" := Session.VBool true ]}
    (Some accounts)
    [([Str "54401"], 7)].

End Scenario.

(** * Facts about the string and pattern fragment *)
Section string_facts.

Lemma app_nil_l (s : string) : "" +:+ s = s.
Proof. reflexivity. Qed.

Lemma app_cons (a : ascii) (s t : string) :
  String a s +:+ t = String a (s +:+ t).
Proof. reflexivity. Qed.

Lemma app_nil_r (s : string) : s +:+ "" = s.
Proof. induction s as [|a s IH]; [done|]. by rewrite app_cons, IH. Qed.

Lemma app_assoc_s (s t u : string) : (s +:+ t) +:+ u = s +:+ t +:+ u.
Proof. induction s as [|a s IH]; [done|]. by rewrite !app_cons, IH. Qed.

Lemma app_eq_nil (s t : string) : s +:+ t = "" -> s = "" /\ t = "".
Proof. destruct s; [done|]. rewrite app_cons. discriminate. Qed.

Lemma app_eq_cons (s t : string) (a : ascii) (u : string) :
  s +:+ t = String a u ->
  (s = "" /\ t = String a u) \/ (exists s', s = String a s' /\ u = s' +:+ t).
Proof.
  destruct s as [|b s]; [by left|].
  rewrite app_cons. intros [= -> <-]. right. by exists s.
Qed.

Lemma length_app_s (s t : string) :
  String.length (s +:+ t) = String.length s + String.length t.
Proof. induction s as [|a s IH]; [done|]. rewrite app_cons. simpl. by rewrite IH. Qed.

Lemma map_chars_app f (s t : string) :
  PyStr.map_chars f (s +:+ t) = PyStr.map_chars f s +:+ PyStr.map_chars f t.
Proof. induction s as [|a s IH]; [done|]. rewrite app_cons. simpl. by rewrite IH, app_cons. Qed.

Lemma map_chars_length f (s : string) :
  String.length (PyStr.map_chars f s) = String.length s.
Proof. induction s as [|a s IH]; [done|]. simpl. by rewrite IH. Qed.

End string_facts.

Section regex_facts.
Import Re.
Variable ic : bool.

Lemma nullable_matches (r : regex) : nullable r = true <-> matches ic r "".
Proof.
  split.
  - induction r; simpl; intros H; try discriminate.
    + constructor.
    + apply andb_true_iff in H as [H1 H2].
      change "" with ("" +:+ ""). constructor; auto.
    + apply orb_true_iff in H as [H|H]; [apply matches_alt_l|apply matches_alt_r]; auto.
    + constructor.
  - intros H. remember "" as s eqn:Hs.
    induction H; simpl; try discriminate; auto.
    + apply app_eq_nil in Hs as [-> ->]. rewrite IHmatches1, IHmatches2; auto.
    + rewrite IHmatches; auto.
    + rewrite IHmatches; auto. apply orb_true_r.
Qed.

Lemma deriv_matches (a : ascii) (r : regex) (s : string) :
  matches ic (deriv ic a r) s <-> matches ic r (String a s).
Proof.
  split.
  - revert s. induction r; simpl; intros s H.
    + inversion H.
    + inversion H.
    + destruct (char_eq ic c a) eqn:E; inversion H; subst. by constructor.
    + case_bool_decide; inversion H; subst. by constructor.
    + destruct (PyStr.is_digit a) eqn:E; inversion H; subst. by constructor.
    + destruct (nullable r1) eqn:E.
      * inversion H; subst.
        -- inversion H3; subst. rewrite <- app_cons. constructor; auto.
        -- change (String a s) with ("" +:+ String a s).
           constructor; [by apply nullable_matches | auto].
      * inversion H; subst. rewrite <- app_cons. constructor; auto.
    + inversion H; subst; [apply matches_alt_l|apply matches_alt_r]; auto.
    + inversion H; subst. rewrite <- app_cons. constructor; auto.
  - intros H. remember (String a s) as w eqn:Hw. revert s Hw.
    induction H; intros w Hw; simpl; try discriminate.
    + injection Hw as -> <-. rewrite H. constructor.
    + injection Hw as -> <-. rewrite bool_decide_eq_false_2 by done. constructor.
    + injection Hw as -> <-. rewrite H. constructor.
    + apply app_eq_cons in Hw as [[-> ->]|(s' & -> & ->)].
      * apply nullable_matches in H. rewrite H. apply matches_alt_r; auto.
      * destruct (nullable r1); [apply matches_alt_l|]; constructor; auto.
    + apply matches_alt_l; auto.
    + apply matches_alt_r; auto.
    + apply app_eq_cons in Hw as [[-> ->]|(s' & -> & ->)]; [auto|].
      constructor; auto.
Qed.

Lemma fullmatch_matches (r : regex) (s : string) :
  fullmatch ic r s = true <-> matches ic r s.
Proof.
  revert r. induction s as [|a s IH]; intros r; simpl.
  - apply nullable_matches.
  - rewrite IH. apply deriv_matches.
Qed.

Lemma match_prefix_Some (r : regex) (s m : string) :
  match_prefix ic r s = Some m ->
  exists rest, s = m +:+ rest /\ matches ic r m.
Proof.
  revert r m. induction s as [|a s IH]; intros r m; simpl.
  - destruct (nullable r) eqn:E; [|done]. intros [= <-].
    exists "". split; [done|]. by apply nullable_matches.
  - destruct (match_prefix ic (deriv ic a r) s) as [m'|] eqn:E.
    + intros [= <-]. apply IH in E as (rest & -> & Hm).
      exists rest. split; [done|]. by apply deriv_matches.
    + destruct (nullable r) eqn:En; [|done]. intros [= <-].
      exists (String a s). split; [done|]. by apply nullable_matches.
Qed.

Lemma match_prefix_None (r : regex) (s : string) :
  match_prefix ic r s = None ->
  forall m rest, s = m +:+ rest -> ~ matches ic r m.
Proof.
  revert r. induction s as [|a s IH]; intros r; simpl.
  - destruct (nullable r) eqn:E; [done|]. intros _ m rest Hs Hm.
    symmetry in Hs. apply app_eq_nil in Hs as [-> _].
    apply nullable_matches in Hm. congruence.
  - destruct (match_prefix ic (deriv ic a r) s) as [m'|] eqn:E; [done|].
    destruct (nullable r) eqn:En; [done|]. intros _ m rest Hs Hm.
    symmetry in Hs. apply app_eq_cons in Hs as [[-> _]|(m1 & -> & ->)].
    + apply nullable_matches in Hm. congruence.
    + apply deriv_matches in Hm. by eapply IH.
Qed.

(** [search] returns a match, and no match starts further left. *)
Lemma search_Some (r : regex) (s m : string) :
  search ic r s = Some m ->
  exists pre post,
    s = pre +:+ m +:+ post /\ matches ic r m /\
    forall pre' m' post',
      s = pre' +:+ m' +:+ post' -> matches ic r m' ->
      String.length pre <= String.length pre'.
Proof.
  revert m. induction s as [|a s IH]; intros m; simpl.
  - destruct (nullable r) eqn:E; [|done]. intros [= <-].
    exists "", "". split; [done|]. split; [by apply nullable_matches|].
    simpl. lia.
  - destruct (match_prefix ic (deriv ic a r) s) as [m'|] eqn:E.
    + intros [= <-]. apply match_prefix_Some in E as (rest & -> & Hm).
      exists "", rest. split; [done|]. split; [by apply deriv_matches|].
      simpl. lia.
    + destruct (nullable r) eqn:En.
      { intros [= <-]. exists "", (String a s).
        split; [done|]. split; [by apply nullable_matches|]. simpl. lia. }
      intros Hs. apply IH in Hs as (pre & post & -> & Hm & Hleft).
      exists (String a pre), post. split; [done|]. split; [done|].
      intros pre' m1 post' Heq Hm1.
      destruct pre' as [|b pre'].
      * exfalso. rewrite app_nil_l in Heq.
        assert (Hnone : match_prefix ic r (String a (pre +:+ m +:+ post)) = None).
        { simpl. by rewrite E, En. }
        eapply match_prefix_None in Hnone; [by apply Hnone|]. exact Heq.
      * rewrite app_cons in Heq. injection Heq as <- Heq.
        simpl. apply le_n_S. by eapply Hleft.
Qed.

Lemma search_None (r : regex) (s : string) :
  search ic r s = None ->
  forall pre m post, s = pre +:+ m +:+ post -> ~ matches ic r m.
Proof.
  induction s as [|a s IH]; intros Hs pre m post Heq Hm.
  - simpl in Hs. destruct (nullable r) eqn:E; [done|].
    symmetry in Heq. apply app_eq_nil in Heq as [_ Heq].
    apply app_eq_nil in Heq as [-> _].
    apply nullable_matches in Hm. congruence.
  - cbn [search] in Hs.
    destruct (match_prefix ic r (String a s)) as [m'|] eqn:E; [done|].
    destruct pre as [|b pre].
    + rewrite app_nil_l in Heq. eapply match_prefix_None in E; [by apply E|done].
    + rewrite app_cons in Heq. injection Heq as <- Heq. by eapply IH.
Qed.

Lemma search_is_Some (r : regex) (s : string) :
  is_Some (search ic r s) <->
  exists pre m post, s = pre +:+ m +:+ post /\ matches ic r m.
Proof.
  split.
  - intros [m Hm]. apply search_Some in Hm as (pre & post & ? & ? & _). eauto.
  - intros (pre & m & post & Heq & Hm).
    destruct (search ic r s) eqn:E; [done|].
    exfalso. by eapply search_None.
Qed.

End regex_facts.

Section literal_patterns.
Import Re.

Lemma matches_eps_inv ic (m : string) : matches ic Eps m <-> m = "".
Proof. split; [by inversion 1|intros ->; constructor]. Qed.

Lemma matches_cat_one ic (r1 r2 : regex) (m : string) :
  (forall w, matches ic r1 w -> exists a, w = String a "") ->
  matches ic (Cat r1 r2) m <->
  exists a m', m = String a m' /\ matches ic r1 (String a "") /\ matches ic r2 m'.
Proof.
  intros Hone. split.
  - inversion 1 as [| | | |? ? s1 s2 H1 H2| | | |]; subst.
    destruct (Hone _ H1) as [a ->]. by exists a, s2.
  - intros (a & m' & -> & H1 & H2).
    change (String a m') with (String a "" +:+ m'). by constructor.
Qed.

Lemma matches_lit_inv ic (c : ascii) (w : string) :
  matches ic (Lit c) w <-> exists a, w = String a "" /\ char_eq ic c a = true.
Proof.
  split; [inversion 1; subst; eauto|intros (a & -> & ?); by constructor].
Qed.

Lemma matches_digit_inv ic (w : string) :
  matches ic Digit w <-> exists a, w = String a "" /\ PyStr.is_digit a = true.
Proof.
  split; [inversion 1; subst; eauto|intros (a & -> & ?); by constructor].
Qed.

(** With case ignored, a literal word matches the texts that lower-case
    to the same string. *)
Lemma matches_lits (t m : string) :
  matches true (lits t) m <-> PyStr.lower m = PyStr.lower t.
Proof.
  revert m. induction t as [|c t IH]; intros m; simpl.
  - rewrite matches_eps_inv. unfold PyStr.lower.
    destruct m; simpl; split; congruence.
  - rewrite matches_cat_one.
    2:{ intros w Hw. apply matches_lit_inv in Hw as (a & -> & _). eauto. }
    split.
    + intros (a & m' & -> & H1 & H2). apply matches_lit_inv in H1 as (b & [= <-] & Hc).
      apply IH in H2. unfold PyStr.lower in *. simpl. rewrite H2. f_equal.
      unfold char_eq in Hc. by apply bool_decide_eq_true in Hc.
    + destruct m as [|a m']; [discriminate|]. unfold PyStr.lower. simpl.
      intros [= Ha Hm]. exists a, m'. split; [done|]. split.
      * apply matches_lit_inv. exists a. split; [done|].
        unfold char_eq. by apply bool_decide_eq_true.
      * by apply IH.
Qed.

(** [\d{n}] matches the words of [n] digits. *)
Lemma matches_rep_digit ic (n : nat) (m : string) :
  matches ic (rep n Digit) m <-> String.length m = n /\ all_digits m = true.
Proof.
  revert m. induction n as [|n IH]; intros m; simpl.
  - rewrite matches_eps_inv. destruct m; simpl; split; try done. by intros [? _].
  - rewrite matches_cat_one.
    2:{ intros w Hw. apply matches_digit_inv in Hw as (a & -> & _). eauto. }
    split.
    + intros (a & m' & -> & H1 & H2). apply matches_digit_inv in H1 as (b & [= <-] & Hd).
      apply IH in H2 as [<- H2]. simpl. by rewrite Hd, H2.
    + destruct m as [|a m']; simpl; [by intros [? _]|].
      intros [[= Hl] [Hd Hm]%andb_true_iff]. exists a, m'. split; [done|]. split.
      * apply matches_digit_inv. eauto.
      * apply IH. done.
Qed.

Lemma is_prefix_spec (t s : string) :
  is_prefix t s = true <-> exists post, s = t +:+ post.
Proof.
  revert s. induction t as [|c t IH]; intros s; simpl.
  - split; [eauto|done].
  - destruct s as [|a s].
    + split; [done|]. intros [post Hp]. rewrite app_cons in Hp. discriminate.
    + rewrite andb_true_iff, bool_decide_eq_true, IH. split.
      * intros [-> [post ->]]. by exists post.
      * intros [post Hp]. rewrite app_cons in Hp. injection Hp as -> ->. eauto.
Qed.

Lemma occurs_spec (t s : string) : occurs t s = true <-> substring_of t s.
Proof.
  unfold substring_of. induction s as [|a s IH]; cbn [occurs].
  - rewrite orb_false_r, is_prefix_spec. split.
    + intros [post ->]. by exists "", post.
    + intros (pre & post & Hs). symmetry in Hs.
      apply app_eq_nil in Hs as [-> Hs]. exists post. by rewrite Hs.
  - rewrite orb_true_iff, is_prefix_spec, IH. split.
    + intros [[post ->]|(pre & post & ->)]; [by exists "", post|].
      by exists (String a pre), post.
    + intros ([|b pre] & post & Hs).
      * left. by exists post.
      * right. rewrite app_cons in Hs. injection Hs as <- ->. eauto.
Qed.

Lemma map_chars_eq_app f (s u v : string) :
  PyStr.map_chars f s = u +:+ v ->
  exists s1 s2, s = s1 +:+ s2 /\ PyStr.map_chars f s1 = u /\ PyStr.map_chars f s2 = v.
Proof.
  revert s. induction u as [|a u IH]; intros s Hs.
  - by exists "", s.
  - destruct s as [|b s]; [done|]. rewrite app_cons in Hs. simpl in Hs.
    injection Hs as <- Hs. apply IH in Hs as (s1 & s2 & -> & <- & <-).
    by exists (String b s1), s2.
Qed.

(** Ignoring case, [t] occurs in [s] exactly when [lower t] is a
    substring of [lower s]. *)
Lemma icontains_lower (t s : string) :
  icontains t s <-> substring_of (PyStr.lower t) (PyStr.lower s).
Proof.
  unfold icontains, substring_of, PyStr.lower. split.
  - intros (pre & m & post & -> & Hm).
    exists (PyStr.map_chars PyStr.lower_char pre), (PyStr.map_chars PyStr.lower_char post).
    by rewrite !map_chars_app, Hm.
  - intros (pre & post & Hs).
    apply map_chars_eq_app in Hs as (s1 & s23 & -> & <- & Hs).
    apply map_chars_eq_app in Hs as (s2 & s3 & -> & Hm & <-).
    by exists s1, s2, s3.
Qed.

Lemma icontainsb_spec (t s : string) : icontainsb t s = true <-> icontains t s.
Proof. unfold icontainsb. by rewrite occurs_spec, icontains_lower. Qed.

(** Searching for a literal word, case ignored, finds it exactly where
    the text contains it. *)
Lemma search_lits (t s : string) :
  bool_decide (is_Some (search true (lits t) s)) = icontainsb t s.
Proof.
  apply eq_true_iff_eq.
  rewrite bool_decide_eq_true, search_is_Some, icontainsb_spec.
  unfold icontains. by setoid_rewrite matches_lits.
Qed.

End literal_patterns.

Section escape_facts.
Import Re.

Lemma escaped_not_alnum (c : ascii) :
  is_escaped c = true -> PyStr.is_alnum c = false /\ c <> "d"%char.
Proof.
  unfold is_escaped. intros H%bool_decide_eq_true. revert c H.
  apply Forall_forall. apply (bool_decide_unpack _). by vm_compute.
Qed.

Lemma meta_is_escaped (c : ascii) :
  c ∈ "\"%char :: meta_chars -> is_escaped c = true.
Proof.
  revert c. apply Forall_forall. apply (bool_decide_unpack _). by vm_compute.
Qed.

Lemma lex_escape (t : string) : lex (escape t) = Some (lit_tokens t).
Proof.
  induction t as [|c t IH]; [done|]. cbn [escape].
  destruct (is_escaped c) eqn:Hc.
  - cbn [lex]. rewrite bool_decide_eq_true_2 by done.
    destruct (escaped_not_alnum c Hc) as [Hal Hd].
    rewrite bool_decide_eq_false_2 by done. rewrite Hal, IH. done.
  - assert (Hmeta : forall x, x ∈ "\"%char :: meta_chars -> c <> x).
    { intros x Hx ->. apply meta_is_escaped in Hx. congruence. }
    cbn [lex].
    rewrite !bool_decide_eq_false_2.
    + by rewrite IH.
    + intros Hin. eapply Hmeta; [|done]. by right.
    + apply Hmeta. by vm_compute; set_solver.
    + apply Hmeta. by vm_compute; set_solver.
    + apply Hmeta. by vm_compute; set_solver.
    + apply Hmeta. by vm_compute; set_solver.
    + apply Hmeta. by vm_compute; set_solver.
    + apply Hmeta. by vm_compute; set_solver.
Qed.

Lemma branches_lit_tokens (t : string) : branches (lit_tokens t) = [lit_tokens t].
Proof. induction t as [|c t IH]; [done|]. simpl. by rewrite IH. Qed.

Lemma parse_branch_atom (r : regex) (t : string) :
  parse_branch (TAtom r :: lit_tokens t) = Cat r <$> parse_branch (lit_tokens t).
Proof. by destruct t. Qed.

Lemma parse_branch_lit_tokens (t : string) :
  parse_branch (lit_tokens t) = Some (lits t).
Proof.
  induction t as [|c t IH]; [done|].
  change (lit_tokens (String c t)) with (TAtom (Lit c) :: lit_tokens t).
  by rewrite parse_branch_atom, IH.
Qed.

(** An escaped text compiles to the literal word: none of its characters
    is read as an operator. *)
Lemma compile_escape (t : string) : compile (escape t) = Some (lits t).
Proof.
  unfold compile. rewrite lex_escape. simpl.
  rewrite branches_lit_tokens. simpl. apply parse_branch_lit_tokens.
Qed.

(** The pattern of line 64, compiled from its source text. *)
Example compile_customer_pattern :
  compile "customer|account|company" = Some Loader.customer_pattern.
Proof. reflexivity. Qed.

(** Unescaped, a dot is an operator: ["a.c"] finds "abc"; escaped, it
    does not. *)
Example dot_is_an_operator :
  (r ← compile "a.c"; search true r "xABCx") = Some "ABC" /\
  (r ← compile (escape "a.c"); search true r "xABCx") = None /\
  (r ← compile (escape "a.c"); search true r "xA.Cx") = Some "A.C".
Proof. repeat split; reflexivity. Qed.

Lemma str_contains_escape (t s : string) :
  str_contains (escape t) s = Ok (icontainsb t s).
Proof. unfold str_contains. by rewrite compile_escape, search_lits. Qed.

End escape_facts.

(** * Facts about the frame operations *)
Section frame_facts.

Lemma col_pos_Some (label : string) (cols : list string) (i : nat) :
  col_pos label cols = Some i ->
  cols !! i = Some label /\ forall j, j < i -> cols !! j <> Some label.
Proof.
  unfold col_pos. destruct (list_find _ cols) as [[k c]|] eqn:E; [|done].
  intros [= <-]. apply list_find_Some in E as (Hk & -> & Hbefore).
  split; [done|]. intros j Hj Hl. by eapply Hbefore.
Qed.

Lemma has_col_pos (label : string) (df : DataFrame) :
  has_col label df = true -> exists i, col_pos label (columns df) = Some i.
Proof.
  unfold has_col, col_pos. intros H%bool_decide_eq_true.
  destruct (list_find_elem_of (fun c => c = label) (columns df) label H eq_refl)
    as [[i c] ->].
  by exists i.
Qed.

Lemma col_pos_has_col (label : string) (df : DataFrame) (i : nat) :
  col_pos label (columns df) = Some i -> has_col label df = true.
Proof.
  intros [H _]%col_pos_Some. apply bool_decide_eq_true.
  by eapply list_elem_of_lookup_2.
Qed.

Lemma col_pos_None (label : string) (df : DataFrame) :
  has_col label df = false -> col_pos label (columns df) = None.
Proof.
  intros H. destruct (col_pos label (columns df)) as [i|] eqn:E; [|done].
  apply col_pos_has_col in E. congruence.
Qed.

Lemma getitem_ok (df : DataFrame) (label : string) (i : nat) :
  col_pos label (columns df) = Some i ->
  getitem df label = Ok (cell_at i <$> rows df).
Proof. unfold getitem. by intros ->. Qed.

Lemma getitem_missing (df : DataFrame) (label : string) :
  has_col label df = false -> getitem df label = Raise (KeyError label).
Proof. intros H%col_pos_None. unfold getitem. by rewrite H. Qed.

Lemma mask_rows_fmap (f : row -> bool) (rs : list row) :
  mask_rows rs (f <$> rs) = List.filter f rs.
Proof.
  induction rs as [|r rs IH]; [done|]. csimpl.
  rewrite IH. by destruct (f r).
Qed.

Lemma where_isin_ok (df : DataFrame) (label : string) (vs : list string) (i : nat) :
  col_pos label (columns df) = Some i ->
  where_isin df label vs =
    Ok (mkDataFrame (columns df)
          (List.filter (fun r => isin1 vs (cell_at i r)) (rows df))).
Proof.
  intros H. unfold where_isin. rewrite (getitem_ok _ _ _ H). simpl.
  unfold loc, isin. rewrite <- list_fmap_compose.
  by rewrite (mask_rows_fmap (fun r => isin1 vs (cell_at i r))).
Qed.

Lemma where_isin_missing (df : DataFrame) (label : string) (vs : list string) :
  has_col label df = false -> where_isin df label vs = Raise (KeyError label).
Proof. intros H. unfold where_isin. by rewrite getitem_missing. Qed.

Lemma filter_filter {A} (p q : A -> bool) (l : list A) :
  List.filter q (List.filter p l) = List.filter (fun x => p x && q x) l.
Proof.
  induction l as [|x l IH]; [done|]. simpl.
  destruct (p x); simpl; [destruct (q x)|]; by rewrite IH.
Qed.

Lemma filter_ext_in {A} (p q : A -> bool) (l : list A) :
  (forall x, x ∈ l -> p x = q x) -> List.filter p l = List.filter q l.
Proof.
  intros H. apply List.filter_ext_in. intros x Hx. apply H.
  by apply list_elem_of_In.
Qed.

Lemma filter_true {A} (l : list A) : List.filter (fun _ => true) l = l.
Proof. induction l as [|x l IH]; [done|]. simpl. by rewrite IH. Qed.

Lemma filter_sublist {A} (p : A -> bool) (l : list A) :
  List.filter p l `sublist_of` l.
Proof.
  induction l as [|x l IH]; [constructor|]. simpl.
  destruct (p x); by constructor.
Qed.

Lemma filter_length_mono {A} (p q : A -> bool) (l : list A) :
  (forall x, p x = true -> q x = true) ->
  length (List.filter p l) <= length (List.filter q l).
Proof.
  intros H. induction l as [|x l IH]; [done|]. simpl.
  destruct (p x) eqn:Hp.
  - rewrite (H x Hp). simpl. lia.
  - destruct (q x); simpl; lia.
Qed.

Lemma elem_of_filter_bool {A} (p : A -> bool) (l : list A) (x : A) :
  x ∈ List.filter p l <-> x ∈ l /\ p x = true.
Proof. rewrite !list_elem_of_In. apply List.filter_In. Qed.

(** [unique] keeps exactly the values of the list, each once. *)
Lemma elem_of_unique_from (seen l : list string) (x : string) :
  x ∈ unique_from seen l <-> x ∈ l /\ x ∉ seen.
Proof.
  revert seen. induction l as [|y l IH]; intros seen; simpl.
  - rewrite elem_of_nil. tauto.
  - case_bool_decide as Hy.
    + rewrite IH, elem_of_cons. split; [tauto|].
      intros [[->|Hx] Hn]; [done|tauto].
    + rewrite !elem_of_cons, IH, not_elem_of_cons.
      destruct (decide (x = y)) as [->|Hne]; tauto.
Qed.

Lemma NoDup_unique_from (seen l : list string) : NoDup (unique_from seen l).
Proof.
  revert seen. induction l as [|y l IH]; intros seen; simpl; [constructor|].
  case_bool_decide; [done|]. constructor; [|done].
  rewrite elem_of_unique_from, not_elem_of_cons. tauto.
Qed.

Lemma elem_of_unique (l : list string) (x : string) : x ∈ unique l <-> x ∈ l.
Proof.
  unfold unique. rewrite elem_of_unique_from. split; [tauto|].
  intros Hx. split; [done|]. apply not_elem_of_nil.
Qed.

Lemma NoDup_unique (l : list string) : NoDup (unique l).
Proof. apply NoDup_unique_from. Qed.

Lemma elem_of_dropna (s : list cell) (v : string) : v ∈ dropna s <-> Str v ∈ s.
Proof.
  unfold dropna. rewrite list_elem_of_omap. split.
  - intros ([|w] & Hin & Heq); [done|]. by injection Heq as ->.
  - intros H. by exists (Str v).
Qed.

(** [sorted(s.dropna().unique())] is ascending, without duplicates, and
    holds the text values of the Series. *)
Lemma sorted_values_spec (s : list cell) :
  Sorted String.le (App.sorted_values s) /\ NoDup (App.sorted_values s) /\
  forall v, v ∈ App.sorted_values s <-> Str v ∈ s.
Proof.
  unfold App.sorted_values, sorted. split; [|split].
  - apply Sorted_merge_sort. apply _.
  - rewrite merge_sort_Permutation. apply NoDup_unique.
  - intros v. rewrite merge_sort_Permutation, elem_of_unique. apply elem_of_dropna.
Qed.

(** Two ascending duplicate-free lists with the same members are equal. *)
Lemma sorted_nodup_unique (l1 l2 : list string) :
  Sorted String.le l1 -> NoDup l1 -> Sorted String.le l2 -> NoDup l2 ->
  (forall v, v ∈ l1 <-> v ∈ l2) -> l1 = l2.
Proof.
  intros S1 N1 S2 N2 H. apply (Sorted_unique String.le); [done..|].
  by apply NoDup_Permutation.
Qed.

Lemma mapM_ok {A B} (f : A -> result B) (g : A -> B) (l : list A) :
  (forall x, x ∈ l -> f x = Ok (g x)) -> mapM f l = Ok (g <$> l).
Proof.
  induction l as [|x l IH]; intros H; [done|]. simpl.
  rewrite (H x) by set_solver. simpl.
  rewrite IH by set_solver. done.
Qed.

End frame_facts.

(** * The cascade: what each filter step computes *)
Section cascade_facts.
Import App Spec.

Lemma frame_eta (f : DataFrame) : mkDataFrame (columns f) (rows f) = f.
Proof. by destruct f. Qed.

Lemma truthy_nil {A} (l : list A) : truthy l = false <-> l = [].
Proof. by destruct l. Qed.

Lemma truthy_cons {A} (l : list A) : truthy l = true <-> l <> [].
Proof. by destruct l. Qed.

Lemma value_at (df : DataFrame) (d : dimension) (i : nat) (r : row) :
  col_pos (label d) (columns df) = Some i -> value df d r = cell_at i r.
Proof. unfold value. by intros ->. Qed.

(** One step [if choice: f = f[f[label].isin(choice)]] keeps the rows
    that meet the selection of that dimension. *)
Lemma filter_step (df : DataFrame) (S : selection) (d : dimension) (rs : list row) :
  (choice S d <> [] -> has_col (label d) df = true) ->
  (if truthy (choice S d)
   then where_isin (mkDataFrame (columns df) rs) (label d) (choice S d)
   else Ok (mkDataFrame (columns df) rs))
  = Ok (mkDataFrame (columns df) (List.filter (fun r => meets df S r d) rs)).
Proof.
  intros Hcol. unfold meets. destruct (truthy (choice S d)) eqn:Ht.
  - apply truthy_cons in Ht. destruct (has_col_pos _ _ (Hcol Ht)) as [i Hi].
    rewrite (where_isin_ok (mkDataFrame (columns df) rs) _ _ i Hi). simpl.
    do 2 f_equal. apply filter_ext_in. intros r _.
    by rewrite (value_at _ _ _ _ Hi).
  - simpl. by rewrite filter_true.
Qed.

(** The same step with the extra guard [label in f.columns]: without the
    column the step is skipped. *)
Lemma guarded_step (df : DataFrame) (S : selection) (d : dimension) (rs : list row) :
  (if truthy (choice S d) && has_col (label d) (mkDataFrame (columns df) rs)
   then where_isin (mkDataFrame (columns df) rs) (label d) (choice S d)
   else Ok (mkDataFrame (columns df) rs))
  = Ok (mkDataFrame (columns df)
          (List.filter (fun r => negb (has_col (label d) df) || meets df S r d) rs)).
Proof.
  change (has_col (label d) (mkDataFrame (columns df) rs)) with (has_col (label d) df).
  destruct (has_col (label d) df) eqn:Hc.
  - rewrite andb_true_r. simpl. by apply filter_step.
  - rewrite andb_false_r. simpl. by rewrite filter_true.
Qed.

Lemma guarded_step_present (df : DataFrame) (S : selection) (d : dimension) (rs : list row) :
  (choice S d <> [] -> has_col (label d) df = true) ->
  (if truthy (choice S d) && has_col (label d) (mkDataFrame (columns df) rs)
   then where_isin (mkDataFrame (columns df) rs) (label d) (choice S d)
   else Ok (mkDataFrame (columns df) rs))
  = Ok (mkDataFrame (columns df) (List.filter (fun r => meets df S r d) rs)).
Proof.
  intros Hcol. rewrite guarded_step. do 2 f_equal.
  apply filter_ext_in. intros r _. unfold meets.
  destruct (truthy (choice S d)) eqn:Ht; [|simpl; apply orb_true_r].
  apply truthy_cons in Ht. by rewrite (Hcol Ht).
Qed.

(** Rewrite with a step lemma, stated through [choice] and [label]. *)
Ltac step lem :=
  let H := fresh in
  pose proof lem as H; cbn [choice label columns] in H;
  rewrite H; clear H; cbn [mbind result_bind].

Lemma state_subset_ok (df : DataFrame) (S : selection) :
  (customer_choice S <> [] -> has_col "Customer" df = true) ->
  (sam_choice S <> [] -> has_col "WSC_SAM" df = true) ->
  state_subset df S = Ok (mkDataFrame (columns df) (restrict [Customer; SAM] df S)).
Proof.
  intros Hc Hs. unfold state_subset. destruct df as [cols rs].
  step (filter_step (mkDataFrame cols rs) S Customer rs Hc).
  step (guarded_step_present (mkDataFrame cols rs) S SAM
          (List.filter (fun r => meets (mkDataFrame cols rs) S r Customer) rs) Hs).
  unfold restrict. rewrite filter_filter. do 2 f_equal.
  apply filter_ext_in. intros r _. simpl. by rewrite andb_true_r.
Qed.

Lemma zip_subset_ok (df : DataFrame) (S : selection) :
  (customer_choice S <> [] -> has_col "Customer" df = true) ->
  (sam_choice S <> [] -> has_col "WSC_SAM" df = true) ->
  (state_choice S <> [] -> has_col "State" df = true) ->
  zip_subset df S = Ok (mkDataFrame (columns df) (restrict [Customer; SAM; State] df S)).
Proof.
  intros Hc Hs Hst. unfold zip_subset. rewrite state_subset_ok by done.
  cbn [mbind result_bind].
  step (filter_step df S State (restrict [Customer; SAM] df S) Hst).
  unfold restrict. rewrite filter_filter. do 2 f_equal.
  apply filter_ext_in. intros r _. simpl. rewrite !andb_true_r.
  by rewrite andb_assoc.
Qed.

(** Lines 147-155 compute the rows that meet all four selections. *)
Lemma dimension_filters_ok (df : DataFrame) (S : selection) :
  selectable df S ->
  dimension_filters df S = Ok (mkDataFrame (columns df) (filteredRows df S)).
Proof.
  intros Hsel. unfold dimension_filters. destruct df as [cols rs].
  let df := constr:(mkDataFrame cols rs) in
  step (filter_step df S Customer rs (Hsel Customer));
  step (guarded_step_present df S SAM
          (List.filter (fun r => meets df S r Customer) rs) (Hsel SAM));
  step (filter_step df S State
          (List.filter (fun r => meets df S r SAM)
             (List.filter (fun r => meets df S r Customer) rs)) (Hsel State));
  step (filter_step df S Zip
          (List.filter (fun r => meets df S r State)
             (List.filter (fun r => meets df S r SAM)
                (List.filter (fun r => meets df S r Customer) rs))) (Hsel Zip)).
  unfold filteredRows, restrict. rewrite !filter_filter. do 2 f_equal.
  apply filter_ext_in. intros r _. simpl. rewrite !andb_true_r.
  by rewrite !andb_assoc.
Qed.

Lemma meets_spec (df : DataFrame) (S : selection) (r : row) (d : dimension) :
  meets df S r d = true <->
  choice S d = [] \/ exists v, value df d r = Str v /\ v ∈ choice S d.
Proof.
  unfold meets. rewrite orb_true_iff, negb_true_iff, truthy_nil.
  apply or_iff_compat_l. unfold isin1.
  destruct (value df d r) as [|v].
  - split; [done|]. by intros (v & ? & _).
  - rewrite bool_decide_eq_true. split; [eauto|]. by intros (w & [= ->] & ?).
Qed.

Lemma elem_of_restrict (ds : list dimension) (df : DataFrame) (S : selection) (r : row) :
  r ∈ restrict ds df S <->
  r ∈ rows df /\
  forall d, d ∈ ds -> choice S d = [] \/ exists v, value df d r = Str v /\ v ∈ choice S d.
Proof.
  unfold restrict. rewrite elem_of_filter_bool, forallb_forall.
  apply and_iff_compat_l. split.
  - intros H d Hd. apply meets_spec, H. by apply list_elem_of_In.
  - intros H d Hd. apply meets_spec, H. by apply list_elem_of_In.
Qed.

End cascade_facts.

(** * The search step *)
Section search_facts.
Import App Spec.

Lemma existsb_fmap {A B} (p : B -> bool) (h : A -> B) (l : list A) :
  existsb p (h <$> l) = existsb (fun x => p (h x)) l.
Proof. induction l as [|x l IH]; [done|]. csimpl. by rewrite IH. Qed.

Lemma existsb_ext_all {A} (p q : A -> bool) (l : list A) :
  (forall x, p x = q x) -> existsb p l = existsb q l.
Proof. intros H. induction l as [|x l IH]; [done|]. simpl. by rewrite H, IH. Qed.

Lemma column_contains_escape (text : string) (col : list cell) :
  column_contains (Re.escape text) col
  = Ok ((fun c => Re.icontainsb text (astype_str c)) <$> col).
Proof.
  unfold column_contains. apply mapM_ok. intros c _. apply str_contains_escape.
Qed.

(** The mask of line 158, built column by column and reduced along the
    rows, is the row-wise test. *)
Lemma search_mask (f : DataFrame) (text : string) :
  any_axis1 (length (rows f))
    ((fun col : list cell => (fun c => Re.icontainsb text (astype_str c)) <$> col)
       <$> column_series f)
  = row_matchesb (length (columns f)) text <$> rows f.
Proof.
  unfold any_axis1, column_series, row_matchesb. apply list_eq. intros i.
  rewrite !list_lookup_fmap.
  destruct (rows f !! i) as [r|] eqn:Hr.
  - rewrite lookup_seq_lt by (by eapply lookup_lt_Some). simpl. f_equal.
    rewrite !existsb_fmap. apply existsb_ext_all. intros j.
    by rewrite !list_lookup_fmap, Hr.
  - rewrite lookup_seq_ge by (by apply lookup_ge_None). done.
Qed.

Lemma search_filter_ok (f : DataFrame) (text : string) :
  text <> "" ->
  search_filter f text
  = Ok (mkDataFrame (columns f)
          (List.filter (row_matchesb (length (columns f)) text) (rows f))).
Proof.
  intros Ht. unfold search_filter.
  destruct text as [|a text]; [done|]. cbn [PyStr.truthy].
  erewrite mapM_ok; [|intros col _; apply column_contains_escape].
  cbn [mbind result_bind]. unfold loc. by rewrite search_mask, mask_rows_fmap.
Qed.

Lemma search_filter_empty (f : DataFrame) : search_filter f "" = Ok f.
Proof. done. Qed.

Lemma row_matchesb_spec (n : nat) (text : string) (r : row) :
  row_matchesb n text r = true <-> row_matches n text r.
Proof.
  unfold row_matchesb, row_matches. rewrite existsb_exists. split.
  - intros (j & Hj%in_seq & Hc). exists j. split; [lia|]. by apply icontainsb_spec.
  - intros (j & Hj & Hc). exists j. split; [apply in_seq; lia|]. by apply icontainsb_spec.
Qed.

(** [filtered] under the hypotheses that keep the column look-ups
    defined: the rows meeting the four selections, then the search. *)
Lemma filtered_ok (df : DataFrame) (S : selection) :
  selectable df S ->
  exists keep : row -> bool,
    filtered df S
    = Ok (mkDataFrame (columns df) (List.filter keep (filteredRows df S))) /\
    (search_text S = "" -> keep = fun _ => true) /\
    (search_text S <> "" -> keep = row_matchesb (length (columns df)) (search_text S)).
Proof.
  intros Hsel. unfold filtered. rewrite dimension_filters_ok by done.
  cbn [mbind result_bind].
  destruct (decide (search_text S = "")) as [He|Hne].
  - exists (fun _ => true). rewrite He, search_filter_empty, filter_true. done.
  - exists (row_matchesb (length (columns df)) (search_text S)).
    rewrite search_filter_ok by done. done.
Qed.

End search_facts.

(** * The claims about the filter engine *)
Section filter_claims.
Import App Spec.

Lemma has_dimensions_selectable (df : DataFrame) (S : selection) :
  has_dimensions df -> selectable df S.
Proof. intros H d _. apply H. Qed.

Lemma candidate_list_of_rows (ds : list dimension) (df : DataFrame)
    (S : selection) (d : dimension) (i : nat) :
  col_pos (label d) (columns df) = Some i ->
  candidate_list ds df S d (sorted_values (cell_at i <$> restrict ds df S)).
Proof.
  intros Hi. destruct (sorted_values_spec (cell_at i <$> restrict ds df S))
    as (Hs & Hn & Hm).
  split; [done|]. split; [done|]. intros v. rewrite Hm, list_elem_of_fmap.
  split.
  - intros (r & Hv & Hr). exists r. by rewrite (value_at _ _ _ _ Hi).
  - intros (r & Hr & Hv). exists r. by rewrite (value_at _ _ _ _ Hi) in Hv.
Qed.

Lemma candidate_list_unique (ds : list dimension) (df : DataFrame)
    (S : selection) (d : dimension) (l1 l2 : list string) :
  candidate_list ds df S d l1 -> candidate_list ds df S d l2 -> l1 = l2.
Proof.
  intros (S1 & N1 & M1) (S2 & N2 & M2).
  apply sorted_nodup_unique; [done..|]. intros v. by rewrite M1, M2.
Qed.

Lemma restrict_nil (df : DataFrame) (S : selection) : restrict [] df S = rows df.
Proof. unfold restrict. simpl. apply filter_true. Qed.

Lemma candidates_ok (df : DataFrame) (S : selection) (d : dimension) (i : nat) :
  has_dimensions df ->
  col_pos (label d) (columns df) = Some i ->
  candidates df S d = Ok (sorted_values (cell_at i <$> restrict (upstream d) df S)).
Proof.
  intros Hd Hi.
  pose proof (Hd Customer) as HC. pose proof (Hd SAM) as HS.
  pose proof (Hd State) as HSt. cbn [label] in HC, HS, HSt.
  destruct d; cbn [candidates upstream label] in *.
  - unfold customers. rewrite HC.
    rewrite (getitem_ok _ _ _ Hi). simpl. by rewrite restrict_nil.
  - unfold sam_vals. rewrite HC, HS, !andb_true_r.
    pose proof (filter_step df S Customer (rows df) (fun _ => HC)) as Hstep.
    cbn [choice label] in Hstep. rewrite frame_eta in Hstep.
    assert (Hr : restrict [Customer] df S
                 = List.filter (fun r => meets df S r Customer) (rows df)).
    { unfold restrict. apply filter_ext_in. intros r _. simpl. apply andb_true_r. }
    rewrite Hr. destruct (truthy (customer_choice S)).
    + rewrite Hstep. cbn [mbind result_bind].
      by rewrite (getitem_ok (mkDataFrame (columns df) _) _ _ Hi).
    + injection Hstep as Hstep. apply (f_equal rows) in Hstep. simpl in Hstep.
      rewrite <- Hstep. by rewrite (getitem_ok _ _ _ Hi).
  - unfold state_vals. rewrite state_subset_ok by done.
    cbn [mbind result_bind].
    by rewrite (getitem_ok (mkDataFrame (columns df) _) _ _ Hi).
  - unfold zip_vals. rewrite zip_subset_ok by done.
    cbn [mbind result_bind].
    by rewrite (getitem_ok (mkDataFrame (columns df) _) _ _ Hi).
Qed.

End filter_claims.

Section engine_theorems.
Import App Spec Scenario.

Lemma accounts_has_dimensions : has_dimensions accounts.
Proof. intros []; reflexivity. Qed.

Lemma accounts_distinct_labels : NoDup (columns accounts).
Proof. apply (bool_decide_unpack _). by vm_compute. Qed.

(** C1, as amended.  With distinct column labels and the four dimension
    columns present, the list
    offered for a dimension is the ascending, duplicate-free list of the
    non-null values of its column among the rows that meet the selections
    of the dimensions upstream of it (Customer, then SAM, then State, then
    Zip); an empty upstream selection restricts nothing.  The list is the
    only one with these properties. *)
Theorem C1_candidates_upstream (df : DataFrame) (S : selection) (d : dimension) :
  NoDup (columns df) ->
  has_dimensions df ->
  exists l,
    candidates df S d = Ok l /\
    candidate_list (upstream d) df S d l /\
    forall l', candidate_list (upstream d) df S d l' -> l' = l.
Proof.
  intros _ Hd. destruct (has_col_pos _ _ (Hd d)) as [i Hi].
  exists (sorted_values (cell_at i <$> restrict (upstream d) df S)).
  split; [by apply candidates_ok|].
  split; [by apply candidate_list_of_rows|].
  intros l' Hl'. eapply candidate_list_unique; [exact Hl'|].
  by apply candidate_list_of_rows.
Qed.

Lemma C1_candidates_upstream_witness :
  NoDup (columns accounts) /\
  has_dimensions accounts /\
  exists l,
    candidates accounts acme SAM = Ok l /\
    candidate_list (upstream SAM) accounts acme SAM l /\
    forall l', candidate_list (upstream SAM) accounts acme SAM l' -> l' = l.
Proof.
  split; [exact accounts_distinct_labels|].
  split; [exact accounts_has_dimensions|].
  exact (C1_candidates_upstream accounts acme SAM
           accounts_distinct_labels accounts_has_dimensions).
Defined.

(** C1 as stated fails: the Customer list is not restricted by the
    selections of the other dimensions.  With only the State "WI" chosen
    the script still offers the customer "Beta", which has no row in that
    state. *)
Lemma C1_counterexample :
  ~ (forall (df : DataFrame) (S : selection) (d : dimension),
       NoDup (columns df) ->
       has_dimensions df ->
       exists l, candidates df S d = Ok l /\ candidate_list (others d) df S d l).
Proof.
  intros H.
  destruct (H accounts wisconsin Customer accounts_distinct_labels
              accounts_has_dimensions)
    as (l & Hl & _ & _ & Hmem).
  vm_compute in Hl. injection Hl as <-.
  destruct (Hmem "Beta") as [Hfwd _].
  destruct Hfwd as (r & Hr & Hv).
  { apply list_elem_of_In. simpl. auto. }
  apply list_elem_of_In in Hr. vm_compute in Hr.
  destruct Hr as [<-|[<-|[]]]; vm_compute in Hv; discriminate.
Qed.

(** C2.  The four filter steps of lines 147-155 return exactly the rows
    of the frame, in order, that meet every dimension's selection: a
    dimension with an empty selection constrains nothing, one with a
    non-empty selection keeps the rows whose value is a member of it, and
    the four constraints are conjoined. *)
Theorem C2_filtered_rows_exact (df : DataFrame) (S : selection) :
  selectable df S ->
  dimension_filters df S = Ok (mkDataFrame (columns df) (filteredRows df S)) /\
  filteredRows df S
  = List.filter
      (fun r => meets df S r Customer && meets df S r SAM
                && meets df S r State && meets df S r Zip) (rows df) /\
  forall r d,
    meets df S r d = true <->
    choice S d = [] \/ exists v, value df d r = Str v /\ v ∈ choice S d.
Proof.
  intros Hsel. split; [by apply dimension_filters_ok|]. split.
  - unfold filteredRows, restrict. apply filter_ext_in. intros r _. simpl.
    by rewrite andb_true_r, !andb_assoc.
  - intros r d. apply meets_spec.
Qed.

Lemma C2_filtered_rows_exact_witness :
  selectable accounts acme /\
  dimension_filters accounts acme
  = Ok (mkDataFrame (columns accounts) (filteredRows accounts acme)).
Proof.
  assert (Hsel : selectable accounts acme) by (intros [] _; reflexivity).
  split; [exact Hsel|].
  exact (proj1 (C2_filtered_rows_exact accounts acme Hsel)).
Defined.

Lemma choice_set_choice (d d' : dimension) (vs : list string) (S : selection) :
  choice (set_choice d vs S) d' = if decide (d = d') then vs else choice S d'.
Proof. by destruct d, d'. Qed.

Lemma search_text_set_choice (d : dimension) (vs : list string) (S : selection) :
  search_text (set_choice d vs S) = search_text S.
Proof. by destruct d. Qed.

Lemma filtered_count (df : DataFrame) (S : selection) :
  has_dimensions df ->
  exists f,
    filtered df S = Ok f /\
    exists keep : string -> row -> bool,
      forall S', has_dimensions df ->
        filtered df S'
        = Ok (mkDataFrame (columns df)
                (List.filter (keep (search_text S')) (filteredRows df S'))).
Proof.
  intros Hd.
  set (keep := fun text : string =>
         if decide (text = "") then (fun _ : row => true)
         else row_matchesb (length (columns df)) text).
  assert (Hall : forall S', has_dimensions df ->
            filtered df S'
            = Ok (mkDataFrame (columns df)
                    (List.filter (keep (search_text S')) (filteredRows df S')))).
  { intros S' _.
    destruct (filtered_ok df S' (has_dimensions_selectable _ _ Hd))
      as (k & Hk & He & Hne).
    rewrite Hk. unfold keep. destruct (decide (search_text S' = "")) as [E|E].
    - by rewrite (He E).
    - by rewrite (Hne E). }
  eexists. split; [apply (Hall S Hd)|]. by exists keep.
Qed.

(** C3, as amended.  Constraining a dimension that had no selection never
    adds rows to the result; once a dimension has a selection, adding
    values to it never removes rows (a row is kept when its value is any
    member of the set). *)
Theorem C3_constraint_monotone (df : DataFrame) (S : selection)
    (d : dimension) (more : list string) :
  has_dimensions df ->
  exists f f',
    filtered df S = Ok f /\
    filtered df (set_choice d (choice S d ++ more) S) = Ok f' /\
    (choice S d = [] -> length (rows f') <= length (rows f)) /\
    (choice S d <> [] -> length (rows f) <= length (rows f')).
Proof.
  intros Hd. destruct (filtered_count df S Hd) as (f0 & _ & keep & Hk).
  set (S' := set_choice d (choice S d ++ more) S).
  do 2 eexists. split; [apply (Hk S Hd)|]. split; [apply (Hk S' Hd)|].
  cbn [rows]. unfold S' at 1 3. rewrite search_text_set_choice.
  unfold filteredRows, restrict. rewrite !filter_filter.
  assert (Hother : forall r d', d' <> d -> meets df S' r d' = meets df S r d').
  { intros r d' Hne. unfold meets, S'. rewrite choice_set_choice.
    by destruct (decide (d = d')); [congruence|]. }
  split; intros Hc; apply filter_length_mono; intros r;
    rewrite !andb_true_iff, !forallb_forall; intros [Hall Hkeep];
    (split; [|done]); intros d' Hin; specialize (Hall d' Hin);
    destruct (decide (d' = d)) as [->|Hne];
    try (by rewrite <- Hother); try (by rewrite Hother).
  - unfold meets. rewrite Hc. done.
  - revert Hall. unfold meets, S'. rewrite choice_set_choice.
    destruct (decide (d = d)); [|done].
    destruct (choice S d) as [|c cs] eqn:Ec; [done|]. simpl.
    destruct (value df d r) as [|v]; simpl; [done|].
    rewrite !bool_decide_eq_true. intros Hv.
    change (v ∈ (c :: cs) ++ more). apply elem_of_app. by left.
Qed.

Lemma C3_constraint_monotone_witness :
  has_dimensions accounts /\
  exists f f',
    filtered accounts acme = Ok f /\
    filtered accounts (set_choice Customer (choice acme Customer ++ ["Beta"]) acme)
    = Ok f' /\
    (choice acme Customer = [] -> length (rows f') <= length (rows f)) /\
    (choice acme Customer <> [] -> length (rows f) <= length (rows f')).
Proof.
  split; [exact accounts_has_dimensions|].
  apply (C3_constraint_monotone accounts acme Customer ["Beta"]).
  exact accounts_has_dimensions.
Defined.

(** C3 as stated fails: adding "Beta" to the Customer selection {"Acme"}
    takes the result from two rows to three. *)
Lemma C3_counterexample :
  ~ (forall (df : DataFrame) (S : selection) (d : dimension) (v : string)
            (f f' : DataFrame),
       filtered df S = Ok f ->
       filtered df (set_choice d (choice S d ++ [v]) S) = Ok f' ->
       length (rows f') <= length (rows f)).
Proof.
  intros H.
  specialize (H accounts acme Customer "Beta" _ _ eq_refl eq_refl).
  vm_compute in H. lia.
Qed.

End engine_theorems.

Section search_theorems.
Import App Spec Scenario.



(** C9.  The rows [filtered] returns are a subsequence of the rows of the
    frame: the filters and the search remove rows and never reorder the
    ones they keep. *)
Theorem C9_order_preserved (df : DataFrame) (S : selection) :
  selectable df S ->
  exists f,
    filtered df S = Ok f /\
    columns f = columns df /\
    rows f `sublist_of` rows df.
Proof.
  intros Hsel. destruct (filtered_ok df S Hsel) as (keep & Hf & _).
  eexists. split; [exact Hf|]. split; [done|]. simpl.
  etrans; [apply filter_sublist|]. apply filter_sublist.
Qed.

Lemma C9_order_preserved_witness :
  selectable accounts acme_beta /\
  exists f,
    filtered accounts acme_beta = Ok f /\
    columns f = columns accounts /\
    rows f `sublist_of` rows accounts.
Proof.
  assert (Hsel : selectable accounts acme_beta) by (intros [] _; reflexivity).
  split; [exact Hsel|]. exact (C9_order_preserved accounts acme_beta Hsel).
Defined.

End search_theorems.

(** * The loader *)
Section loader_facts.
Import Loader Spec.

Lemma setitem_update (df : DataFrame) (label : string) (i : nat) (g : cell -> cell) :
  col_pos label (columns df) = Some i ->
  setitem df label (g <$> (cell_at i <$> rows df))
  = mkDataFrame (columns df) (set_cell g i <$> rows df).
Proof.
  intros Hi. unfold setitem. rewrite Hi. f_equal.
  rewrite <- list_fmap_compose, zip_with_fmap_r, zip_with_diag. done.
Qed.

Lemma zip_col_Some (df : DataFrame) (zc : string) :
  zip_col df = Some zc ->
  zc ∈ columns df /\ (PyStr.lower zc ∈ zip_names \/ zc = "Zip").
Proof.
  unfold zip_col.
  destruct (List.filter _ (columns df)) as [|c cs] eqn:E.
  - destruct (has_col "Zip" df) eqn:Hz; [|done]. intros [= <-].
    split; [by apply bool_decide_eq_true in Hz|by right].
  - intros [= <-].
    assert (Hin : c ∈ List.filter
              (fun c => bool_decide (PyStr.lower c ∈ zip_names)) (columns df))
      by (rewrite E; left).
    apply elem_of_filter_bool in Hin as [Hin Hl]. split; [done|].
    left. by apply bool_decide_eq_true in Hl.
Qed.

Lemma zip_col_truthy (df : DataFrame) (zc : string) :
  zip_col df = Some zc -> PyStr.truthy zc = true /\ zc <> "State".
Proof.
  intros [_ [Hl| ->]]%zip_col_Some; [|done].
  split.
  - destruct zc; [|done]. exfalso. revert Hl. by apply (bool_decide_unpack _).
  - intros ->. revert Hl. by apply (bool_decide_unpack _).
Qed.

Lemma zip_col_same_columns (a b : DataFrame) :
  columns a = columns b -> zip_col a = zip_col b.
Proof. unfold zip_col, has_col. by intros ->. Qed.

Lemma normalize_state_ok (df : DataFrame) :
  normalize_state df = Ok (mkDataFrame (columns df) (state_rows df)).
Proof.
  unfold normalize_state, state_rows. destruct (has_col "State" df) eqn:Hs.
  - destruct (has_col_pos _ _ Hs) as [s Hp]. rewrite Hp.
    rewrite (getitem_ok _ _ _ Hp). cbn [mbind result_bind].
    by rewrite setitem_update.
  - rewrite (col_pos_None _ _ Hs). by destruct df.
Qed.

Lemma normalize_zip_ok (df : DataFrame) : normalize_zip df = Ok (zip_frame df).
Proof.
  unfold normalize_zip, zip_frame. destruct (zip_col df) as [zc|] eqn:Hz; [|done].
  destruct (zip_col_truthy _ _ Hz) as [-> _].
  destruct (zip_col_Some _ _ Hz) as [Hin _].
  destruct (has_col_pos zc df) as [z Hp]; [by apply bool_decide_eq_true|].
  rewrite Hp, (getitem_ok _ _ _ Hp). cbn [mbind result_bind].
  by rewrite setitem_update.
Qed.

(** [load_data] never raises, and is the composition of its steps. *)
Lemma load_data_ok (raw : DataFrame) :
  load_data raw
  = Ok (strip_cells (normalize_customer
          (zip_frame (mkDataFrame (PyStr.strip <$> columns raw)
                        (state_rows (strip_columns raw)))))).
Proof.
  unfold load_data. rewrite normalize_state_ok. cbn [mbind result_bind].
  by rewrite normalize_zip_ok.
Qed.

End loader_facts.

Section loader_columns.
Import Loader Spec.

Lemma col_pos_cons (l c : string) (cols : list string) :
  col_pos l (c :: cols) = if decide (c = l) then Some 0 else S <$> col_pos l cols.
Proof.
  unfold col_pos. simpl. destruct (decide (c = l)); [done|].
  by destruct (list_find _ cols) as [[]|].
Qed.

Lemma col_pos_relabel (l old new : string) (cols : list string) :
  l <> old -> l <> new ->
  col_pos l (relabel old new <$> cols) = col_pos l cols.
Proof.
  intros Ho Hn. induction cols as [|c cols IH]; [done|]. csimpl.
  rewrite !col_pos_cons, IH. unfold relabel.
  case_bool_decide; repeat case_decide; congruence.
Qed.

Lemma lookup_relabel (old new : string) (cols : list string) (i : nat) (l : string) :
  cols !! i = Some l -> (relabel old new <$> cols) !! i = Some (relabel old new l).
Proof. intros H. by rewrite list_lookup_fmap, H. Qed.

Lemma normalize_customer_rows (df : DataFrame) :
  rows (normalize_customer df) = rows df.
Proof.
  unfold normalize_customer. destruct (has_col "Customer" df); [done|].
  by destruct (List.filter _ (columns df)).
Qed.

(** The Customer renaming touches only a label the customer pattern
    matches. *)
Lemma normalize_customer_columns (df : DataFrame) :
  columns (normalize_customer df) = columns df \/
  exists c, bool_decide (is_Some (Re.search true customer_pattern c)) = true /\
            columns (normalize_customer df) = relabel c "Customer" <$> columns df.
Proof.
  unfold normalize_customer. destruct (has_col "Customer" df); [by left|].
  destruct (List.filter _ (columns df)) as [|c cs] eqn:E; [by left|].
  right. exists c. split; [|done].
  assert (Hin : c ∈ List.filter
            (fun c => bool_decide (is_Some (Re.search true customer_pattern c)))
            (columns df)) by (rewrite E; left).
  by apply elem_of_filter_bool in Hin as [_ Hc].
Qed.

Lemma normalize_customer_keeps (df : DataFrame) (l : string) :
  Re.search true customer_pattern l = None -> l <> "Customer" ->
  col_pos l (columns (normalize_customer df)) = col_pos l (columns df) /\
  forall i, columns df !! i = Some l ->
            columns (normalize_customer df) !! i = Some l.
Proof.
  intros Hl Hne. destruct (normalize_customer_columns df) as [->|(c & Hc & ->)]; [done|].
  assert (l <> c).
  { intros ->. rewrite Hl in Hc. by vm_compute in Hc. }
  split; [by apply col_pos_relabel|].
  intros i Hi. rewrite (lookup_relabel _ _ _ _ _ Hi). unfold relabel.
  by rewrite bool_decide_eq_false_2.
Qed.

Lemma cell_at_fmap (g : cell -> cell) (i : nat) (r : row) :
  g NaN = NaN -> cell_at i (g <$> r) = g (cell_at i r).
Proof.
  intros Hg. unfold cell_at. rewrite list_lookup_fmap.
  by destruct (r !! i).
Qed.

Lemma cell_at_set_cell (g : cell -> cell) (i : nat) (r : row) :
  i < length r -> cell_at i (set_cell g i r) = g (cell_at i r).
Proof.
  intros Hi. unfold cell_at at 1, set_cell. by rewrite list_lookup_insert_eq.
Qed.

Lemma cell_at_set_cell_ne (g : cell -> cell) (i j : nat) (r : row) :
  i <> j -> cell_at j (set_cell g i r) = cell_at j r.
Proof.
  intros Hi. unfold cell_at, set_cell. by rewrite list_lookup_insert_ne.
Qed.

Lemma length_set_cell (g : cell -> cell) (i : nat) (r : row) :
  length (set_cell g i r) = length r.
Proof. apply length_insert. Qed.

Lemma strip_digits (z : string) : Re.all_digits z = true -> PyStr.strip z = z.
Proof.
  intros Hz. unfold PyStr.strip.
  assert (Hns : forall c, PyStr.is_digit c = true -> PyStr.is_space c = false).
  { intros c. unfold PyStr.is_digit, PyStr.is_space. cbv zeta.
    intros [H1%N.leb_le H2%N.leb_le]%andb_true_iff.
    rewrite !orb_false_iff, !andb_false_iff, !N.leb_gt, N.eqb_neq. lia. }
  assert (Hl : PyStr.lstrip z = z).
  { destruct z as [|c z]; [done|]. simpl in *.
    apply andb_true_iff in Hz as [Hc _]. by rewrite (Hns c Hc). }
  rewrite Hl. induction z as [|c z IH]; [done|]. simpl in *.
  apply andb_true_iff in Hz as [Hc Hz]. rewrite IH; [|done|].
  - rewrite (Hns c Hc). by destruct z.
  - destruct z as [|c' z]; [done|]. simpl in *.
    apply andb_true_iff in Hz as [Hc' _]. by rewrite (Hns c' Hc').
Qed.

(** The value line 59 computes: the first run of five digits, or the
    empty string. *)
Lemma zip_text_spec (c : cell) :
  exists z, zip_text c = Str z /\ first_five_digits (astype_str c) z /\
            PyStr.strip z = z.
Proof.
  unfold zip_text, str_extract, zip_pattern.
  destruct (Re.search false (Re.rep 5 Re.Digit) (astype_str c)) as [m|] eqn:E.
  - exists m. split; [done|].
    apply search_Some in E as (pre & post & Hs & Hm & Hleft).
    apply matches_rep_digit in Hm. split.
    + right. split; [done|]. exists pre, post. split; [done|].
      intros pre' m' post' Hs' Hm'. eapply Hleft; [done|].
      by apply matches_rep_digit.
    + apply strip_digits, Hm.
  - exists "". split; [done|]. split; [|done]. left. split; [done|].
    intros pre m post Hs Hm. eapply search_None; [done..|].
    by apply matches_rep_digit.
Qed.

End loader_columns.

Section loader_theorems.
Import Loader Spec Scenario.

Lemma zip_col_found (df : DataFrame) (c : string) :
  c ∈ columns df -> PyStr.lower c ∈ zip_names \/ c = "Zip" ->
  exists zc, zip_col df = Some zc.
Proof.
  intros Hin Hc. unfold zip_col.
  destruct (List.filter _ (columns df)) as [|c' cs] eqn:E; [|eauto].
  destruct Hc as [Hl| ->].
  - assert (Hf : c ∈ List.filter
              (fun c => bool_decide (PyStr.lower c ∈ zip_names)) (columns df)).
    { apply elem_of_filter_bool. split; [done|]. by apply bool_decide_eq_true. }
    rewrite E in Hf. by apply not_elem_of_nil in Hf.
  - unfold has_col. rewrite bool_decide_eq_true_2 by done. eauto.
Qed.

(** The rows [load_data] returns, when the sheet has a State column at
    position [s] and its ZIP column at position [z]. *)
Lemma load_data_rows (raw : DataFrame) (zc : string) (z : nat) :
  zip_col (strip_columns raw) = Some zc ->
  col_pos zc (PyStr.strip <$> columns raw) = Some z ->
  exists df,
    load_data raw = Ok df /\
    columns df
    = columns (normalize_customer
                 (mkDataFrame (relabel zc "Zip" <$> (PyStr.strip <$> columns raw)) [])) /\
    rows df
    = (fun r : row => str_strip <$> r)
        <$> (set_cell zip_text z <$> state_rows (strip_columns raw)).
Proof.
  intros Hz Hp. eexists. split; [apply load_data_ok|].
  unfold zip_frame.
  rewrite (zip_col_same_columns _ (strip_columns raw)) by done.
  rewrite Hz. cbn [columns]. rewrite Hp.
  unfold strip_cells. cbn [columns rows]. rewrite normalize_customer_rows.
  split; [|done]. unfold normalize_customer, has_col, rename. cbn [columns].
  fold (relabel zc "Zip"). case_bool_decide; [done|].
  by destruct (List.filter _ _).
Qed.


Lemma raw_well_formed : well_formed raw.
Proof. repeat constructor. Qed.

Lemma raw_distinct_labels : NoDup (PyStr.strip <$> columns raw).
Proof. apply (bool_decide_unpack _). by vm_compute. Qed.


(** The scenario of the specification: the padded state is trimmed and
    upper-cased, the ZIP+4 keeps its first five digits, and the missing
    state becomes the text NAN. *)
Example load_scenario :
  load_data raw
  = Ok (mkDataFrame ["Customer"; "WSC_SAM"; "State"; "Zip"]
          [[Str "Acme"; Str "Ann"; Str "WI"; Str "54401"];
           [Str "Acme"; Str "Bob"; Str "WI"; Str "54402"];
           [Str "Beta"; Str "Cy"; Str "NAN"; Str "55401"]]).
Proof. reflexivity. Qed.

End loader_theorems.

Section state_theorems.
Import Loader App Spec Scenario.

(** The rows and the State label of the loaded frame, whatever the ZIP
    column is. *)
Lemma load_data_state (raw : DataFrame) (s : nat) :
  well_formed raw ->
  col_pos "State" (PyStr.strip <$> columns raw) = Some s ->
  exists df,
    load_data raw = Ok df /\
    col_pos "State" (columns df) = Some s /\
    length (rows df) = length (rows raw) /\
    forall k r, rows raw !! k = Some r ->
      exists r', rows df !! k = Some r' /\
                 cell_at s r' = str_strip (state_text (cell_at s r)).
Proof.
  intros Hwf Hs. eexists. split; [apply load_data_ok|].
  destruct (col_pos_Some _ _ _ Hs) as [Hsl _].
  set (df1 := mkDataFrame (PyStr.strip <$> columns raw) (state_rows (strip_columns raw))).
  assert (Hrows1 : rows df1 = set_cell state_text s <$> rows raw).
  { unfold df1, state_rows. cbn [rows columns strip_columns]. by rewrite Hs. }
  assert (Hz : exists g : row -> row,
             col_pos "State" (columns (zip_frame df1)) = Some s /\
             rows (zip_frame df1) = g <$> rows df1 /\
             forall r1, cell_at s (g r1) = cell_at s r1).
  { unfold zip_frame. destruct (zip_col df1) as [zc|] eqn:Hzc.
    - destruct (zip_col_truthy _ _ Hzc) as [_ HzS].
      destruct (col_pos zc (columns df1)) as [z|] eqn:Hp.
      + exists (set_cell zip_text z). cbn [rename columns rows].
        split; [|split; [done|]].
        * fold (relabel zc "Zip"). rewrite col_pos_relabel; [done|congruence|done].
        * intros r1. apply cell_at_set_cell_ne. intros ->.
          apply col_pos_Some in Hp as [Hp _]. cbn [columns df1] in Hp. congruence.
      + exists id. split; [done|]. split; [by rewrite list_fmap_id|done].
    - exists id. split; [done|]. split; [by rewrite list_fmap_id|done]. }
  destruct Hz as (g & Hcol & Hrows & Hg).
  unfold strip_cells. cbn [columns rows].
  split; [|split].
  - by rewrite (proj1 (normalize_customer_keeps (zip_frame df1) "State"
                         ltac:(by vm_compute) ltac:(done))).
  - by rewrite normalize_customer_rows, Hrows, Hrows1, !length_fmap.
  - intros k r Hk. rewrite normalize_customer_rows, Hrows, Hrows1.
    exists (str_strip <$> g (set_cell state_text s r)).
    split; [by rewrite !list_lookup_fmap, Hk|].
    rewrite cell_at_fmap by done. rewrite Hg, cell_at_set_cell; [done|].
    apply list_elem_of_lookup_2 in Hk as Hr.
    unfold well_formed in Hwf. rewrite Forall_forall in Hwf.
    rewrite (Hwf r Hr). apply lookup_lt_Some in Hsl.
    by rewrite length_fmap in Hsl.
Qed.



End state_theorems.

(** * Coordinates, map and table *)
Section geo_facts.
Import Geo.
Context {coord : Type}.
Implicit Types (zm : gmap string (place coord)) (r : row).

Lemma coords_of_unresolved zm (z : string) :
  ~ resolved zm z -> coords_of zm z = (None, None).
Proof.
  intros Hn. unfold coords_of. destruct (zm !! z) as [p|] eqn:Hp; [|done].
  destruct (latitude p) as [x|] eqn:Hx; [|done].
  exfalso. apply Hn. by exists p, x.
Qed.

Lemma coords_of_both zm (z : string) (x y : coord) :
  coords_of zm z = (Some x, Some y) -> resolved zm z.
Proof.
  unfold coords_of. destruct (zm !! z) as [p|] eqn:Hp; [|done].
  destruct (latitude p) as [x'|] eqn:Hx; [|done].
  intros _. by exists p, x'.
Qed.

Lemma with_coords_fmap (h : row -> option coord * option coord)
    (rs : list row) (r : row) (x y : coord) :
  (r, x, y) ∈ with_coords rs (fst <$> (h <$> rs)) (snd <$> (h <$> rs)) ->
  r ∈ rs /\ h r = (Some x, Some y).
Proof.
  induction rs as [|r0 rs IH]; csimpl; [by intros ?%not_elem_of_nil|].
  destruct (h r0) as [[x0|] [y0|]] eqn:Hh; csimpl; rewrite ?elem_of_cons;
    try (intros H; destruct (IH H); by auto).
  intros [[= -> -> ->]|H]; [by auto|]. destruct (IH H); by auto.
Qed.

Lemma with_coords_none (rs : list row) (n : nat) :
  with_coords rs (replicate n (@None coord)) (replicate n None) = [].
Proof. revert n. induction rs as [|r rs IH]; intros [|n]; simpl; auto. Qed.

Lemma select_columns_rows (f : DataFrame) (cols : list string) :
  forallb (fun c => has_col c f) cols = true ->
  exists t (proj : row -> row),
    select_columns f cols = Ok t /\ columns t = cols /\ rows t = proj <$> rows f.
Proof.
  intros Hall. unfold select_columns.
  assert (Hps : exists ps,
            mapM (fun c => match col_pos c (columns f) with
                           | Some i => Ok i
                           | None => Raise (KeyError c)
                           end) cols = Ok ps).
  { induction cols as [|c cols IH]; [by exists []|]. simpl in Hall.
    apply andb_true_iff in Hall as [Hc Hall]. destruct (IH Hall) as [ps Hps].
    destruct (has_col_pos _ _ Hc) as [i Hi].
    exists (i :: ps). simpl. rewrite Hi. simpl. by rewrite Hps. }
  destruct Hps as [ps ->]. simpl.
  eexists _, (fun r : row => (fun i => cell_at i r) <$> ps). done.
Qed.

Lemma filtered_to_display_rows (df f : DataFrame) (checked : string -> bool) :
  exists t (proj : row -> row),
    filtered_to_display df f checked = Ok t /\ rows t = proj <$> rows f.
Proof.
  unfold filtered_to_display.
  destruct (forallb _ (cols_to_show df checked)) eqn:Hall.
  - destruct (select_columns_rows f _ Hall) as (t & proj & Ht & _ & Hr). eauto.
  - exists f, id. by rewrite list_fmap_id.
Qed.

End geo_facts.

(** * The reset button *)
Section session_theorems.
Import Session.
Context {zipmap : Type}.
Implicit Types (rt : runtime zipmap).

Lemma reset_session_state rt (u : string) :
  session_state _ (reset_button _ u rt) = {[ "widget_suffix" := VText u ]}.
Proof. unfold reset_button, session_set, cache_data_clear, session_clear. simpl. done. Qed.

Lemma reset_suffix rt (u : string) : suffix _ (reset_button _ u rt) = u.
Proof.
  unfold suffix. rewrite reset_session_state. by rewrite lookup_singleton_eq.
Qed.

(** After the reset only the key ["widget_suffix"] is set, and no widget
    uses that key. *)
Lemma reset_lookup_widget rt (u : string) (a : ascii) (rest : string) :
  a <> "w"%char ->
  session_state _ (reset_button _ u rt) !! String a rest = None.
Proof.
  intros Ha. rewrite reset_session_state. apply lookup_singleton_ne.
  intros [= <-]. done.
Qed.

(** C8, as amended.  The reset action leaves every one of the four
    selection sets empty, the search text empty and every stakeholder
    checkbox unchecked, and it empties both caches registered with
    [st.cache_data]: the Dataset cache and the geocode cache. *)
Theorem C8_reset_clears_selection_and_caches rt (u : string) :
  read_selection _ (reset_button _ u rt) = App.mkSelection [] [] [] [] "" /\
  (forall col_name, slicer_checked _ (reset_button _ u rt) col_name = false) /\
  load_data_cache _ (reset_button _ u rt) = None /\
  geocode_zips_cache _ (reset_button _ u rt) = [].
Proof.
  split; [|split; [|done]].
  - unfold read_selection, multiselect, text_input. rewrite reset_suffix.
    rewrite !app_cons. by rewrite !reset_lookup_widget.
  - intros col_name. unfold slicer_checked, checkbox.
    rewrite !app_cons. by rewrite reset_lookup_widget.
Qed.

End session_theorems.

Section session_counterexample.
Import Session Scenario.

Example busy_before_reset :
  App.customer_choice (read_selection _ busy) = ["Acme"] /\
  slicer_checked _ busy "Email" = true.
Proof. split; reflexivity. Qed.

(** C8 as stated fails: the reset empties the geocode cache too. *)
Lemma C8_counterexample :
  ~ (forall (rt : runtime nat) (u : string),
       read_selection _ (reset_button _ u rt) = App.mkSelection [] [] [] [] "" /\
       (forall col_name, slicer_checked _ (reset_button _ u rt) col_name = false) /\
       load_data_cache _ (reset_button _ u rt) = None /\
       geocode_zips_cache _ (reset_button _ u rt) = geocode_zips_cache _ rt).
Proof.
  intros H. destruct (H busy "k2") as (_ & _ & _ & Hgeo). discriminate Hgeo.
Qed.

End session_counterexample.

(** * Missing dimension columns *)
Section missing_columns.
Import App Spec Scenario.

(** Lines 95 and 102 guard the look-up: without the column the list is
    empty. *)
Lemma customers_missing (df : DataFrame) :
  has_col "Customer" df = false -> customers df = Ok [].
Proof. unfold customers. by intros ->. Qed.

Lemma sam_vals_missing (df : DataFrame) (S : selection) :
  has_col "WSC_SAM" df = false -> sam_vals df S = Ok [].
Proof. unfold sam_vals. intros ->. by rewrite andb_false_r. Qed.

(** Lines 110 and 116 have no such guard. *)
Lemma state_vals_missing (df : DataFrame) (S : selection) :
  has_col "State" df = false ->
  (customer_choice S <> [] -> has_col "Customer" df = true) ->
  (sam_choice S <> [] -> has_col "WSC_SAM" df = true) ->
  state_vals df S = Raise (KeyError "State").
Proof.
  intros Hs Hc Hsam. unfold state_vals. rewrite state_subset_ok by done.
  cbn [mbind result_bind]. by rewrite getitem_missing.
Qed.

Lemma zip_vals_missing (df : DataFrame) (S : selection) :
  has_col "Zip" df = false ->
  (customer_choice S <> [] -> has_col "Customer" df = true) ->
  (sam_choice S <> [] -> has_col "WSC_SAM" df = true) ->
  (state_choice S <> [] -> has_col "State" df = true) ->
  zip_vals df S = Raise (KeyError "Zip").
Proof.
  intros Hz Hc Hsam Hst. unfold zip_vals. rewrite zip_subset_ok by done.
  cbn [mbind result_bind]. by rewrite getitem_missing.
Qed.

(** C6, at the failing input.  A sheet with the columns Customer, WSC_SAM
    and Zip and no State column loads without error, and then the script
    stops at line 110 with [KeyError('State')]: the State candidate list
    is not the empty list the claim promises, and the filters are never
    reached. *)
Theorem C6_missing_state_raises :
  Loader.load_data stateless = Ok stateless /\
  has_col "State" stateless = false /\
  candidates stateless nothing_chosen State = Raise (KeyError "State") /\
  run stateless nothing_chosen = Raise (KeyError "State").
Proof. repeat split; reflexivity. Qed.

End missing_columns.

(** * Further properties of the cascade *)
Section cascade_properties.
Import App Spec Scenario.

Lemma filter_sublist_impl {A} (p q : A -> bool) (l : list A) :
  (forall x, p x = true -> q x = true) ->
  List.filter p l `sublist_of` List.filter q l.
Proof.
  intros H. induction l as [|x l IH]; [constructor|]. simpl.
  destruct (p x) eqn:Hp.
  - rewrite (H x Hp). by constructor.
  - destruct (q x); [by constructor|done].
Qed.

Lemma upstream_dimensions (d d' : dimension) : d' ∈ upstream d -> d' ∈ dimensions.
Proof.
  intros H. apply list_elem_of_In in H. apply list_elem_of_In.
  destruct d; simpl in *; tauto.
Qed.

Lemma restrict_weaken (ds ds' : list dimension) (df : DataFrame) (S : selection) (r : row) :
  (forall d, d ∈ ds' -> d ∈ ds) -> r ∈ restrict ds df S -> r ∈ restrict ds' df S.
Proof. intros Hsub. rewrite !elem_of_restrict. intros [Hr H]. split; auto. Qed.

(** The list offered for a dimension reads only the selections upstream
    of it: two selections that agree there get the same list (or the same
    exception), whatever they hold downstream. *)
Theorem X1_candidates_ignore_downstream (df : DataFrame) (S S' : selection)
    (d : dimension) :
  (forall d', d' ∈ upstream d -> choice S d' = choice S' d') ->
  candidates df S d = candidates df S' d.
Proof.
  intros H. destruct d; cbn [candidates].
  - done.
  - assert (HC := H Customer ltac:(by left)). cbn [choice] in HC.
    unfold sam_vals. by rewrite HC.
  - assert (HC := H Customer ltac:(by left)).
    assert (HS := H SAM ltac:(by right; left)). cbn [choice] in HC, HS.
    unfold state_vals, state_subset. by rewrite HC, HS.
  - assert (HC := H Customer ltac:(by left)).
    assert (HS := H SAM ltac:(by right; left)).
    assert (HSt := H State ltac:(by right; right; left)). cbn [choice] in HC, HS, HSt.
    unfold zip_vals, zip_subset, state_subset. by rewrite HC, HS, HSt.
Qed.

Lemma X1_candidates_ignore_downstream_witness :
  (forall d', d' ∈ upstream SAM -> choice acme d' = choice (set_choice Zip ["54401"] acme) d') /\
  candidates accounts acme SAM = candidates accounts (set_choice Zip ["54401"] acme) SAM.
Proof.
  assert (H : forall d', d' ∈ upstream SAM ->
                choice acme d' = choice (set_choice Zip ["54401"] acme) d').
  { intros d' Hd. apply list_elem_of_In in Hd. simpl in Hd.
    destruct Hd as [<-|[]]. reflexivity. }
  split; [exact H|].
  exact (X1_candidates_ignore_downstream accounts acme _ SAM H).
Defined.

(** Every value the result shows was on offer: with distinct column
    labels and the four dimension columns present, the value of a filtered row in a dimension's column, when
    it is not null, is a member of the list offered for that dimension. *)
Theorem X2_result_values_are_offered (df : DataFrame) (S : selection) (d : dimension) :
  NoDup (columns df) ->
  has_dimensions df ->
  exists f l,
    filtered df S = Ok f /\ candidates df S d = Ok l /\
    forall r v, r ∈ rows f -> value df d r = Str v -> v ∈ l.
Proof.
  intros _ Hd. destruct (has_col_pos _ _ (Hd d)) as [i Hi].
  destruct (filtered_ok df S (has_dimensions_selectable _ _ Hd)) as (keep & Hf & _).
  do 2 eexists. split; [exact Hf|]. split; [by apply candidates_ok|].
  intros r v Hr Hv. cbn [rows] in Hr.
  apply elem_of_filter_bool in Hr as [Hr _].
  apply sorted_values_spec, list_elem_of_fmap. exists r.
  split; [by rewrite <- (value_at _ _ _ _ Hi)|].
  eapply restrict_weaken; [|exact Hr]. apply upstream_dimensions.
Qed.

Lemma X2_result_values_are_offered_witness :
  NoDup (columns accounts) /\
  has_dimensions accounts /\
  exists f l,
    filtered accounts acme = Ok f /\ candidates accounts acme Zip = Ok l /\
    forall r v, r ∈ rows f -> value accounts Zip r = Str v -> v ∈ l.
Proof.
  split; [exact accounts_distinct_labels|].
  split; [exact accounts_has_dimensions|].
  exact (X2_result_values_are_offered accounts acme Zip
           accounts_distinct_labels accounts_has_dimensions).
Defined.

(** Selecting upstream only ever shortens a list: on a frame with
    distinct column labels and the four dimension columns, every value
    offered for a dimension under some selection is also offered when
    nothing is selected upstream. *)
Theorem X3_candidates_shrink (df : DataFrame) (S S0 : selection) (d : dimension) :
  NoDup (columns df) ->
  has_dimensions df ->
  (forall d', d' ∈ upstream d -> choice S0 d' = []) ->
  exists l l0,
    candidates df S d = Ok l /\ candidates df S0 d = Ok l0 /\
    forall v, v ∈ l -> v ∈ l0.
Proof.
  intros _ Hd H0. destruct (has_col_pos _ _ (Hd d)) as [i Hi].
  do 2 eexists. split; [by apply candidates_ok|]. split; [by apply candidates_ok|].
  intros v. rewrite !(proj2 (proj2 (sorted_values_spec _))), !list_elem_of_fmap.
  intros (r & Hv & Hr). exists r. split; [done|].
  apply elem_of_restrict in Hr as [Hr _]. apply elem_of_restrict.
  split; [done|]. intros d' Hd'. left. by apply H0.
Qed.

Lemma X3_candidates_shrink_witness :
  NoDup (columns accounts) /\
  has_dimensions accounts /\
  (forall d', d' ∈ upstream State -> choice nothing_chosen d' = []) /\
  exists l l0,
    candidates accounts acme State = Ok l /\
    candidates accounts nothing_chosen State = Ok l0 /\
    forall v, v ∈ l -> v ∈ l0.
Proof.
  assert (H0 : forall d', d' ∈ upstream State -> choice nothing_chosen d' = []).
  { intros [] _; reflexivity. }
  split; [exact accounts_distinct_labels|].
  split; [exact accounts_has_dimensions|]. split; [exact H0|].
  exact (X3_candidates_shrink accounts acme nothing_chosen State
           accounts_distinct_labels accounts_has_dimensions H0).
Defined.

End cascade_properties.

Section selection_properties.
Import App Spec Scenario.

Lemma truthy_same_members (a a' : list string) :
  (forall v, v ∈ a <-> v ∈ a') -> truthy a = truthy a'.
Proof.
  intros H. destruct a as [|x a], a' as [|y a']; try done.
  - exfalso. eapply not_elem_of_nil, H. by left.
  - exfalso. eapply not_elem_of_nil, H. by left.
Qed.

Lemma where_isin_same_members (f : DataFrame) (l : string) (a a' : list string) :
  (forall v, v ∈ a <-> v ∈ a') -> where_isin f l a = where_isin f l a'.
Proof.
  intros H. unfold where_isin. destruct (getitem f l) as [s|e]; [|done]. simpl.
  do 2 f_equal. unfold isin. apply list_fmap_ext. intros _ [|v] _; [done|].
  simpl. apply bool_decide_ext, H.
Qed.

Lemma bind_ext {A B} (m : result A) (k k' : A -> result B) :
  (forall x, k x = k' x) -> (m ≫= k) = (m ≫= k').
Proof. intros H. destruct m; simpl; auto. Qed.

(** A selection acts as a set: two selections with the same members in
    every dimension (in any order, with or without repeats) and the same
    search text give the same candidate lists and the same rows, or stop
    with the same exception. *)
Theorem X4_selection_is_a_set (df : DataFrame) (S S' : selection) :
  (forall d v, v ∈ choice S d <-> v ∈ choice S' d) ->
  search_text S = search_text S' ->
  run df S = run df S'.
Proof.
  intros H Ht.
  pose proof (H Customer) as HC. pose proof (H SAM) as HS.
  pose proof (H State) as HSt. pose proof (H Zip) as HZ.
  cbn [choice] in HC, HS, HSt, HZ.
  assert (Hsub : state_subset df S = state_subset df S').
  { unfold state_subset.
    rewrite (truthy_same_members _ _ HC), (where_isin_same_members df _ _ _ HC).
    apply bind_ext. intros f.
    by rewrite (truthy_same_members _ _ HS), (where_isin_same_members f _ _ _ HS). }
  assert (Hzsub : zip_subset df S = zip_subset df S').
  { unfold zip_subset. rewrite Hsub. apply bind_ext. intros f.
    by rewrite (truthy_same_members _ _ HSt), (where_isin_same_members f _ _ _ HSt). }
  assert (Hdim : dimension_filters df S = dimension_filters df S').
  { unfold dimension_filters.
    rewrite (truthy_same_members _ _ HC), (where_isin_same_members df _ _ _ HC).
    apply bind_ext. intros f1.
    rewrite (truthy_same_members _ _ HS), (where_isin_same_members f1 _ _ _ HS).
    apply bind_ext. intros f2.
    rewrite (truthy_same_members _ _ HSt), (where_isin_same_members f2 _ _ _ HSt).
    apply bind_ext. intros f3.
    by rewrite (truthy_same_members _ _ HZ), (where_isin_same_members f3 _ _ _ HZ). }
  unfold run, sam_vals, state_vals, zip_vals, filtered.
  rewrite Hsub, Hzsub, Hdim, Ht.
  by rewrite (truthy_same_members _ _ HC), (where_isin_same_members df _ _ _ HC).
Qed.

Lemma X4_selection_is_a_set_witness :
  (forall d v, v ∈ choice acme_beta d <->
               v ∈ choice (mkSelection ["Beta"; "Acme"; "Beta"] [] [] [] "") d) /\
  search_text acme_beta = search_text (mkSelection ["Beta"; "Acme"; "Beta"] [] [] [] "") /\
  run accounts acme_beta = run accounts (mkSelection ["Beta"; "Acme"; "Beta"] [] [] [] "").
Proof.
  assert (H : forall d v, v ∈ choice acme_beta d <->
                v ∈ choice (mkSelection ["Beta"; "Acme"; "Beta"] [] [] [] "") d).
  { intros [] v; cbn [choice acme_beta customer_choice sam_choice state_choice zip_choice];
      [|done..]. rewrite !elem_of_cons. tauto. }
  split; [exact H|]. split; [reflexivity|].
  exact (X4_selection_is_a_set accounts acme_beta _ H eq_refl).
Defined.

Lemma customers_total (df : DataFrame) :
  exists cs, customers df = Ok cs /\ (has_col "Customer" df = false -> cs = []).
Proof.
  unfold customers. destruct (has_col "Customer" df) eqn:E; [|by exists []].
  destruct (has_col_pos _ _ E) as [i Hi]. rewrite (getitem_ok _ _ _ Hi). simpl.
  eexists. split; [done|]. done.
Qed.

Lemma sam_vals_total (df : DataFrame) (S : selection) :
  exists ss, sam_vals df S = Ok ss /\ (has_col "WSC_SAM" df = false -> ss = []).
Proof.
  unfold sam_vals. destruct (has_col "WSC_SAM" df) eqn:E.
  - destruct (has_col_pos _ _ E) as [i Hi]. rewrite andb_true_r.
    destruct (truthy (customer_choice S) && has_col "Customer" df) eqn:Ec.
    + apply andb_true_iff in Ec as [_ Ec]. destruct (has_col_pos _ _ Ec) as [c Hc].
      rewrite (where_isin_ok _ _ _ _ Hc). cbn [mbind result_bind].
      rewrite (getitem_ok (mkDataFrame (columns df) _) _ _ Hi). simpl.
      eexists. split; [done|]. done.
    + rewrite (getitem_ok _ _ _ Hi). simpl. eexists. split; [done|]. done.
  - rewrite andb_false_r. by exists [].
Qed.

(** Lines 105-109 return a frame with the columns of the Dataset as soon
    as no customer is selected on an absent Customer column; an absent
    WSC_SAM column only skips its step. *)
Lemma state_subset_total (df : DataFrame) (S : selection) :
  (customer_choice S <> [] -> has_col "Customer" df = true) ->
  exists rs, state_subset df S = Ok (mkDataFrame (columns df) rs).
Proof.
  intros HC. unfold state_subset. destruct df as [cols rs].
  pose proof (filter_step (mkDataFrame cols rs) S Customer rs HC) as H1.
  cbn [choice label columns] in H1. rewrite H1. cbn [mbind result_bind].
  pose proof (guarded_step (mkDataFrame cols rs) S SAM
                (List.filter (fun r => meets (mkDataFrame cols rs) S r Customer) rs)) as H2.
  cbn [choice label columns] in H2. rewrite H2. eauto.
Qed.

Lemma zip_subset_total (df : DataFrame) (S : selection) :
  (customer_choice S <> [] -> has_col "Customer" df = true) ->
  has_col "State" df = true ->
  exists rs, zip_subset df S = Ok (mkDataFrame (columns df) rs).
Proof.
  intros HC HSt. destruct (state_subset_total df S HC) as [rs1 Hsub].
  unfold zip_subset. rewrite Hsub. cbn [mbind result_bind].
  pose proof (filter_step df S State rs1 (fun _ => HSt)) as H3.
  cbn [choice label] in H3. rewrite H3. eauto.
Qed.

(** The dimension columns the script can do without.  On a frame with
    distinct column labels, with the State and Zip columns present, and no
    customer selected unless there is a Customer column, the script body
    runs to the end for every selection and every search text; an absent
    Customer or WSC_SAM column just leaves its list empty. *)
Theorem X5_customer_and_sam_are_optional (df : DataFrame) (S : selection) :
  NoDup (columns df) ->
  has_col "State" df = true ->
  has_col "Zip" df = true ->
  (customer_choice S <> [] -> has_col "Customer" df = true) ->
  exists sb,
    run df S = Ok sb /\
    columns (result_rows sb) = columns df /\
    (has_col "Customer" df = false -> customer_options sb = []) /\
    (has_col "WSC_SAM" df = false -> sam_options sb = []).
Proof.
  intros _ HSt HZ HC.
  destruct (has_col_pos _ _ HSt) as [st Hst]. destruct (has_col_pos _ _ HZ) as [z Hz].
  destruct (customers_total df) as (cs & Hcs & Hcs0).
  destruct (sam_vals_total df S) as (ss & Hss & Hss0).
  destruct (state_subset_total df S HC) as [rs1 Hsub].
  destruct (zip_subset_total df S HC HSt) as [rs2 Hzsub].
  assert (Hdim : exists rs, dimension_filters df S = Ok (mkDataFrame (columns df) rs)).
  { unfold dimension_filters. destruct df as [cols rs].
    pose proof (filter_step (mkDataFrame cols rs) S Customer rs HC) as H1.
    cbn [choice label columns] in H1. rewrite H1. cbn [mbind result_bind].
    pose proof (guarded_step (mkDataFrame cols rs) S SAM
                  (List.filter (fun r => meets (mkDataFrame cols rs) S r Customer) rs)) as H2.
    cbn [choice label columns] in H2. rewrite H2. cbn [mbind result_bind].
    match goal with |- context [Ok {| columns := cols; rows := ?l |}] =>
      pose proof (filter_step (mkDataFrame cols rs) S State l (fun _ => HSt)) as H3
    end.
    cbn [choice label columns] in H3. rewrite H3. cbn [mbind result_bind].
    match goal with |- context [Ok {| columns := cols; rows := ?l |}] =>
      pose proof (filter_step (mkDataFrame cols rs) S Zip l (fun _ => HZ)) as H4
    end.
    cbn [choice label columns] in H4. rewrite H4. eauto. }
  destruct Hdim as [rs3 Hdim].
  assert (Hsearch : exists rs, search_filter (mkDataFrame (columns df) rs3) (search_text S)
                               = Ok (mkDataFrame (columns df) rs)).
  { destruct (decide (search_text S = "")) as [->|Hne]; [by exists rs3|].
    rewrite search_filter_ok by done. eauto. }
  destruct Hsearch as [rs4 Hsearch].
  eexists. split.
  - unfold run, state_vals, zip_vals, filtered.
    rewrite Hcs, Hss, Hsub, Hzsub, Hdim. cbn [mbind result_bind].
    rewrite (getitem_ok (mkDataFrame (columns df) rs1) _ _ Hst).
    rewrite (getitem_ok (mkDataFrame (columns df) rs2) _ _ Hz).
    cbn [mbind result_bind]. rewrite Hsearch. done.
  - done.
Qed.

Lemma X5_customer_and_sam_are_optional_witness :
  NoDup (columns (mkDataFrame ["State"; "Zip"] [[Str "WI"; Str "54401"]])) /\
  has_col "State" (mkDataFrame ["State"; "Zip"] [[Str "WI"; Str "54401"]]) = true /\
  has_col "Zip" (mkDataFrame ["State"; "Zip"] [[Str "WI"; Str "54401"]]) = true /\
  (customer_choice wisconsin <> [] ->
   has_col "Customer" (mkDataFrame ["State"; "Zip"] [[Str "WI"; Str "54401"]]) = true) /\
  exists sb,
    run (mkDataFrame ["State"; "Zip"] [[Str "WI"; Str "54401"]]) wisconsin = Ok sb /\
    columns (result_rows sb) = ["State"; "Zip"] /\
    (has_col "Customer" (mkDataFrame ["State"; "Zip"] [[Str "WI"; Str "54401"]]) = false ->
     customer_options sb = []) /\
    (has_col "WSC_SAM" (mkDataFrame ["State"; "Zip"] [[Str "WI"; Str "54401"]]) = false ->
     sam_options sb = []).
Proof.
  assert (HC : customer_choice wisconsin <> [] ->
               has_col "Customer" (mkDataFrame ["State"; "Zip"] [[Str "WI"; Str "54401"]]) = true).
  { intros Hne. by destruct Hne. }
  assert (Hnd : NoDup (columns (mkDataFrame ["State"; "Zip"] [[Str "WI"; Str "54401"]]))).
  { apply (bool_decide_unpack _). by vm_compute. }
  split; [exact Hnd|].
  split; [reflexivity|]. split; [reflexivity|]. split; [exact HC|].
  exact (X5_customer_and_sam_are_optional
           (mkDataFrame ["State"; "Zip"] [[Str "WI"; Str "54401"]]) wisconsin
           Hnd eq_refl eq_refl HC).
Defined.

(** The columns it cannot do without.  A frame with distinct column
    labels that lacks the State column stops the script at line 110 with
    [KeyError('State')], and one that has State but lacks Zip stops it at
    line 116 with [KeyError('Zip')], for every selection that names no
    absent Customer column. *)
Theorem X6_state_and_zip_are_required (df : DataFrame) (S : selection) :
  NoDup (columns df) ->
  (customer_choice S <> [] -> has_col "Customer" df = true) ->
  (has_col "State" df = false -> run df S = Raise (KeyError "State")) /\
  (has_col "State" df = true -> has_col "Zip" df = false ->
   run df S = Raise (KeyError "Zip")).
Proof.
  intros _ HC.
  destruct (customers_total df) as (cs & Hcs & _).
  destruct (sam_vals_total df S) as (ss & Hss & _).
  destruct (state_subset_total df S HC) as [rs1 Hsub].
  split.
  - intros HSt. unfold run, state_vals. rewrite Hcs, Hss, Hsub. cbn [mbind result_bind].
    by rewrite (getitem_missing (mkDataFrame (columns df) rs1) "State").
  - intros HSt HZ. destruct (has_col_pos _ _ HSt) as [st Hst].
    destruct (zip_subset_total df S HC HSt) as [rs2 Hzsub].
    unfold run, state_vals, zip_vals. rewrite Hcs, Hss, Hsub, Hzsub.
    cbn [mbind result_bind].
    rewrite (getitem_ok (mkDataFrame (columns df) rs1) _ _ Hst). cbn [mbind result_bind].
    by rewrite (getitem_missing (mkDataFrame (columns df) rs2) "Zip").
Qed.

Lemma X6_state_and_zip_are_required_witness :
  NoDup (columns stateless) /\
  (customer_choice acme <> [] -> has_col "Customer" stateless = true) /\
  (has_col "State" stateless = false -> run stateless acme = Raise (KeyError "State")) /\
  (has_col "State" stateless = true -> has_col "Zip" stateless = false ->
   run stateless acme = Raise (KeyError "Zip")).
Proof.
  assert (HC : customer_choice acme <> [] -> has_col "Customer" stateless = true)
    by (intros _; reflexivity).
  assert (Hnd : NoDup (columns stateless)).
  { apply (bool_decide_unpack _). by vm_compute. }
  split; [exact Hnd|]. split; [exact HC|].
  exact (X6_state_and_zip_are_required stateless acme Hnd HC).
Defined.

End selection_properties.

(** * Further properties of the search *)
Section search_properties.
Import App Spec Scenario.

Lemma lower_nil_inv (t : string) : PyStr.lower t = "" -> t = "".
Proof. by destruct t. Qed.

Lemma substring_of_trans (a b c : string) :
  Re.substring_of a b -> Re.substring_of b c -> Re.substring_of a c.
Proof.
  intros (p & q & ->) (p' & q' & ->). exists (p' +:+ p), (q +:+ q').
  by rewrite !app_assoc_s.
Qed.

Lemma icontains_trans (t1 t2 s : string) :
  Re.icontains t1 t2 -> Re.icontains t2 s -> Re.icontains t1 s.
Proof. rewrite !icontains_lower. apply substring_of_trans. Qed.

Lemma icontains_nonempty (t1 t2 : string) :
  Re.icontains t1 t2 -> t1 <> "" -> t2 <> "".
Proof.
  intros (pre & m & post & -> & Hm) Hne He.
  apply app_eq_nil in He as [_ He]. apply app_eq_nil in He as [-> _].
  apply Hne, lower_nil_inv. by rewrite <- Hm.
Qed.

(** The search box accepts any text.  Whatever is typed, brackets, stars
    and backslashes included, the search step returns a frame with the same
    columns whose rows are a subsequence of the rows it was given: it never
    raises and never adds or reorders rows. *)
Theorem X7_search_never_raises (f : DataFrame) (text : string) :
  exists f',
    search_filter f text = Ok f' /\
    columns f' = columns f /\
    rows f' `sublist_of` rows f.
Proof.
  destruct (decide (text = "")) as [->|Hne].
  - exists f. by rewrite search_filter_empty.
  - eexists. split; [by apply search_filter_ok|]. split; [done|].
    apply filter_sublist.
Qed.

(** Typing more narrows the result: when the text [t1] occurs in the text
    [t2] (case ignored), every row the search keeps for [t2] it also keeps
    for [t1], in the same order. *)
Theorem X8_longer_text_narrows (f : DataFrame) (t1 t2 : string) :
  t1 <> "" ->
  Re.icontains t1 t2 ->
  exists f1 f2,
    search_filter f t1 = Ok f1 /\ search_filter f t2 = Ok f2 /\
    rows f2 `sublist_of` rows f1.
Proof.
  intros Hne Hsub. pose proof (icontains_nonempty _ _ Hsub Hne) as Hne2.
  do 2 eexists. split; [by apply search_filter_ok|].
  split; [by apply search_filter_ok|]. cbn [rows].
  apply filter_sublist_impl. intros r.
  rewrite !row_matchesb_spec. intros (j & Hj & Hc). exists j. split; [done|].
  by eapply icontains_trans.
Qed.

Lemma X8_longer_text_narrows_witness :
  "acm" <> "" /\ Re.icontains "acm" "ACME" /\
  exists f1 f2,
    search_filter accounts "acm" = Ok f1 /\ search_filter accounts "ACME" = Ok f2 /\
    rows f2 `sublist_of` rows f1.
Proof.
  assert (Hsub : Re.icontains "acm" "ACME").
  { apply icontainsb_spec. reflexivity. }
  split; [discriminate|]. split; [exact Hsub|].
  exact (X8_longer_text_narrows accounts "acm" "ACME" ltac:(discriminate) Hsub).
Defined.

(** A missing cell is searched as the text "nan": line 158 converts every
    column with [astype(str)] before it looks for the text, so a row with a
    null cell is kept by every search text that occurs in "nan", and the
    [na=False] argument never comes into play. *)
Theorem X9_null_cells_match_nan (f : DataFrame) (text : string) (r : row) (j : nat) :
  text <> "" ->
  Re.icontains text "nan" ->
  r ∈ rows f ->
  j < length (columns f) ->
  cell_at j r = NaN ->
  exists f', search_filter f text = Ok f' /\ r ∈ rows f'.
Proof.
  intros Hne Hnan Hr Hj Hc. eexists. split; [by apply search_filter_ok|].
  cbn [rows]. apply elem_of_filter_bool. split; [done|].
  apply row_matchesb_spec. exists j. split; [done|]. by rewrite Hc.
Qed.

Lemma X9_null_cells_match_nan_witness :
  "NA" <> "" /\ Re.icontains "NA" "nan" /\
  [Str "Beta"; NaN] ∈ rows (mkDataFrame ["Customer"; "WSC_SAM"] [[Str "Beta"; NaN]]) /\
  1 < length (columns (mkDataFrame ["Customer"; "WSC_SAM"] [[Str "Beta"; NaN]])) /\
  cell_at 1 [Str "Beta"; NaN] = NaN /\
  exists f',
    search_filter (mkDataFrame ["Customer"; "WSC_SAM"] [[Str "Beta"; NaN]]) "NA" = Ok f' /\
    [Str "Beta"; NaN] ∈ rows f'.
Proof.
  assert (Hnan : Re.icontains "NA" "nan") by (apply icontainsb_spec; reflexivity).
  assert (Hr : [Str "Beta"; NaN]
               ∈ rows (mkDataFrame ["Customer"; "WSC_SAM"] [[Str "Beta"; NaN]]))
    by (simpl; left).
  assert (Hj : 1 < length (columns (mkDataFrame ["Customer"; "WSC_SAM"] [[Str "Beta"; NaN]])))
    by (simpl; lia).
  split; [discriminate|]. split; [exact Hnan|]. split; [exact Hr|].
  split; [exact Hj|]. split; [reflexivity|].
  exact (X9_null_cells_match_nan _ "NA" _ 1 ltac:(discriminate) Hnan Hr Hj eq_refl).
Defined.

End search_properties.

(** * Further properties of the loader *)
Section strip_facts.

Lemma lstrip_head (s : string) :
  PyStr.lstrip s = "" \/
  exists c t, PyStr.lstrip s = String c t /\ PyStr.is_space c = false.
Proof.
  induction s as [|c s IH]; [by left|]. simpl.
  destruct (PyStr.is_space c) eqn:E; [done|]. right. by exists c, s.
Qed.

Lemma rstrip_head (c : ascii) (t : string) :
  PyStr.is_space c = false -> exists t', PyStr.rstrip (String c t) = String c t'.
Proof. intros E. simpl. rewrite E. destruct (PyStr.rstrip t); eauto. Qed.

Lemma rstrip_idem (s : string) : PyStr.rstrip (PyStr.rstrip s) = PyStr.rstrip s.
Proof.
  induction s as [|c s IH]; [done|]. simpl.
  destruct (PyStr.rstrip s) as [|d r] eqn:E.
  - destruct (PyStr.is_space c) eqn:Ec; [done|]. simpl. by rewrite Ec.
  - change (PyStr.rstrip (String c (String d r)))
      with (match PyStr.rstrip (String d r) with
            | "" => if PyStr.is_space c then "" else String c ""
            | r' => String c r'
            end).
    by rewrite IH.
Qed.

Lemma strip_idem (s : string) : PyStr.strip (PyStr.strip s) = PyStr.strip s.
Proof.
  unfold PyStr.strip. destruct (lstrip_head s) as [->|(c & t & -> & Hc)]; [done|].
  destruct (rstrip_head c t Hc) as [t' Ht]. rewrite Ht.
  simpl PyStr.lstrip. rewrite Hc, <- Ht. apply rstrip_idem.
Qed.

Lemma upper_char_space (c : ascii) :
  PyStr.is_space (PyStr.upper_char c) = PyStr.is_space c.
Proof. by destruct c as [[] [] [] [] [] [] [] []]. Qed.

Lemma upper_char_idem (c : ascii) :
  PyStr.upper_char (PyStr.upper_char c) = PyStr.upper_char c.
Proof. by destruct c as [[] [] [] [] [] [] [] []]. Qed.

Lemma upper_idem (s : string) : PyStr.upper (PyStr.upper s) = PyStr.upper s.
Proof.
  unfold PyStr.upper. induction s as [|c s IH]; [done|]. simpl.
  by rewrite upper_char_idem, IH.
Qed.

Lemma lstrip_upper (s : string) :
  PyStr.lstrip (PyStr.upper s) = PyStr.upper (PyStr.lstrip s).
Proof.
  unfold PyStr.upper. induction s as [|c s IH]; [done|]. simpl.
  rewrite upper_char_space. by destruct (PyStr.is_space c).
Qed.

Lemma rstrip_upper (s : string) :
  PyStr.rstrip (PyStr.upper s) = PyStr.upper (PyStr.rstrip s).
Proof.
  unfold PyStr.upper. induction s as [|c s IH]; [done|]. simpl.
  rewrite IH, upper_char_space.
  destruct (PyStr.rstrip s); simpl; [by destruct (PyStr.is_space c)|done].
Qed.

Lemma strip_upper (s : string) :
  PyStr.strip (PyStr.upper s) = PyStr.upper (PyStr.strip s).
Proof. unfold PyStr.strip. by rewrite lstrip_upper, rstrip_upper. Qed.

End strip_facts.

(** ASCII text stays ASCII through the loader's steps. *)
Section ascii_facts.
Import Loader Spec.

Lemma ascii_lstrip (s : string) :
  PyStr.ascii_text s = true -> PyStr.ascii_text (PyStr.lstrip s) = true.
Proof.
  induction s as [|c s IH]; [done|]. simpl.
  intros [Hc Hs]%andb_true_iff. destruct (PyStr.is_space c); [auto|].
  simpl. by rewrite Hc, Hs.
Qed.

Lemma ascii_rstrip (s : string) :
  PyStr.ascii_text s = true -> PyStr.ascii_text (PyStr.rstrip s) = true.
Proof.
  induction s as [|c s IH]; [done|]. simpl.
  intros [Hc Hs]%andb_true_iff. specialize (IH Hs).
  destruct (PyStr.rstrip s) as [|c' r].
  - destruct (PyStr.is_space c); [done|]. simpl. by rewrite Hc.
  - change (PyStr.ascii_text (String c (String c' r))) with
      (PyStr.is_ascii c && PyStr.ascii_text (String c' r)).
    by rewrite Hc, IH.
Qed.

Lemma ascii_strip (s : string) :
  PyStr.ascii_text s = true -> PyStr.ascii_text (PyStr.strip s) = true.
Proof. intros H. unfold PyStr.strip. by apply ascii_rstrip, ascii_lstrip. Qed.

Lemma ascii_upper_char (c : ascii) :
  PyStr.is_ascii c = true -> PyStr.is_ascii (PyStr.upper_char c) = true.
Proof.
  unfold PyStr.upper_char, PyStr.is_lower, PyStr.is_ascii, PyStr.code.
  destruct (_ && _) eqn:E; [|done]. intros _.
  apply andb_true_iff in E as [H1 H2].
  apply N.leb_le in H1, H2. apply N.ltb_lt.
  rewrite N_ascii_embedding; lia.
Qed.

Lemma ascii_upper (s : string) :
  PyStr.ascii_text s = true -> PyStr.ascii_text (PyStr.upper s) = true.
Proof.
  unfold PyStr.upper. induction s as [|c s IH]; [done|]. simpl.
  intros [Hc Hs]%andb_true_iff. by rewrite ascii_upper_char, IH.
Qed.

Lemma ascii_digits (z : string) :
  Re.all_digits z = true -> PyStr.ascii_text z = true.
Proof.
  induction z as [|c z IH]; [done|]. simpl.
  intros [Hc Hz]%andb_true_iff. rewrite (IH Hz), andb_true_r.
  unfold PyStr.is_digit in Hc. unfold PyStr.is_ascii.
  apply andb_true_iff in Hc as [_ H2]. apply N.leb_le in H2.
  apply N.ltb_lt. lia.
Qed.

Lemma ascii_state_text (c : cell) :
  ascii_cell c = true -> ascii_cell (state_text c) = true.
Proof.
  intros Hc. unfold state_text. cbn [ascii_cell].
  apply ascii_upper, ascii_strip. by destruct c.
Qed.

Lemma ascii_zip_text (c : cell) : ascii_cell (zip_text c) = true.
Proof.
  destruct (zip_text_spec c) as (z & -> & [[-> _]|[[_ Hd] _]] & _); [done|].
  by apply ascii_digits.
Qed.

Lemma ascii_str_strip (c : cell) :
  ascii_cell c = true -> ascii_cell (str_strip c) = true.
Proof. destruct c as [|v]; [done|]. apply ascii_strip. Qed.

Lemma ascii_cell_at (i : nat) (r : row) :
  forallb ascii_cell r = true -> ascii_cell (cell_at i r) = true.
Proof.
  unfold cell_at. revert i. induction r as [|c r IH]; intros [|i]; try done; simpl.
  - by intros [? _]%andb_true_iff.
  - intros [_ ?]%andb_true_iff. by apply IH.
Qed.

Lemma ascii_set_cell (g : cell -> cell) (i : nat) (r : row) :
  ascii_cell (g (cell_at i r)) = true ->
  forallb ascii_cell r = true -> forallb ascii_cell (set_cell g i r) = true.
Proof.
  unfold set_cell. generalize (g (cell_at i r)). intros v Hv. revert i.
  induction r as [|c r IH]; intros [|i]; try done; simpl.
  - intros [_ ?]%andb_true_iff. by rewrite Hv.
  - intros [Hc ?]%andb_true_iff. rewrite Hc. by apply IH.
Qed.

Lemma ascii_fmap_strip (r : row) :
  forallb ascii_cell r = true -> forallb ascii_cell (str_strip <$> r) = true.
Proof.
  induction r as [|c r IH]; [done|]. csimpl.
  intros [Hc ?]%andb_true_iff. rewrite ascii_str_strip by done. by apply IH.
Qed.

Lemma ascii_frame_row (df : DataFrame) (r : row) :
  ascii_frame df = true -> r ∈ rows df -> forallb ascii_cell r = true.
Proof.
  intros [_ H]%andb_true_iff Hr. rewrite forallb_forall in H.
  by apply H, list_elem_of_In.
Qed.

Lemma ascii_frame_label (df : DataFrame) (l : string) :
  ascii_frame df = true -> l ∈ columns df -> PyStr.ascii_text l = true.
Proof.
  intros [H _]%andb_true_iff Hl. rewrite forallb_forall in H.
  by apply H, list_elem_of_In.
Qed.

End ascii_facts.

Section loader_properties.
Import Loader Spec Scenario.

(** The frame [load_data] returns, as a relabelling of the columns and a
    rewriting of each row. *)
Lemma zip_frame_form (df : DataFrame) :
  exists (h : string -> string) (g : row -> row),
    zip_frame df = mkDataFrame (h <$> columns df) (g <$> rows df) /\
    (forall l, h l = l \/ h l = "Zip") /\
    (forall r, length (g r) = length r) /\
    (forall r, forallb ascii_cell r = true -> forallb ascii_cell (g r) = true).
Proof.
  unfold zip_frame. destruct (zip_col df) as [zc|].
  - destruct (col_pos zc (columns df)) as [z|].
    + exists (relabel zc "Zip"), (set_cell zip_text z). split; [done|]. split.
      * intros l. unfold relabel. case_bool_decide; auto.
      * split; [intros r; apply length_set_cell|].
        intros r. apply ascii_set_cell, ascii_zip_text.
    + exists id, id. rewrite !list_fmap_id. split; [by destruct df|]. auto.
  - exists id, id. rewrite !list_fmap_id. split; [by destruct df|]. auto.
Qed.

Lemma normalize_customer_form (df : DataFrame) :
  exists h : string -> string,
    normalize_customer df = mkDataFrame (h <$> columns df) (rows df) /\
    (forall l, h l = l \/ h l = "Customer").
Proof.
  unfold normalize_customer. destruct (has_col "Customer" df).
  - exists id. rewrite list_fmap_id. split; [by destruct df|]. auto.
  - destruct (List.filter _ (columns df)) as [|c cs].
    + exists id. rewrite list_fmap_id. split; [by destruct df|]. auto.
    + exists (relabel c "Customer"). split; [done|].
      intros l. unfold relabel. case_bool_decide; auto.
Qed.

Lemma state_rows_form (df : DataFrame) :
  exists g : row -> row,
    state_rows df = g <$> rows df /\ (forall r, length (g r) = length r) /\
    (forall r, forallb ascii_cell r = true -> forallb ascii_cell (g r) = true).
Proof.
  unfold state_rows. destruct (col_pos "State" (columns df)) as [s|].
  - exists (set_cell state_text s). split; [done|].
    split; [intros r; apply length_set_cell|].
    intros r Hr. apply ascii_set_cell; [|done].
    by apply ascii_state_text, ascii_cell_at.
  - exists id. by rewrite list_fmap_id.
Qed.

Lemma load_data_form (raw : DataFrame) :
  exists (h : string -> string) (g : row -> row),
    load_data raw
    = Ok (mkDataFrame (h <$> columns raw)
            ((fun r : row => str_strip <$> g r) <$> rows raw)) /\
    (forall l, h l = PyStr.strip l \/ h l = "Zip" \/ h l = "Customer") /\
    (forall r, length (g r) = length r) /\
    (forall r, forallb ascii_cell r = true -> forallb ascii_cell (g r) = true).
Proof.
  rewrite load_data_ok.
  destruct (state_rows_form (strip_columns raw)) as (g1 & Hg1 & Hl1 & Ha1).
  rewrite Hg1. cbn [rows strip_columns].
  destruct (zip_frame_form (mkDataFrame (PyStr.strip <$> columns raw) (g1 <$> rows raw)))
    as (h2 & g2 & -> & Hh2 & Hl2 & Ha2). cbn [columns rows].
  destruct (normalize_customer_form
              (mkDataFrame (h2 <$> (PyStr.strip <$> columns raw)) (g2 <$> (g1 <$> rows raw))))
    as (h3 & -> & Hh3). cbn [columns rows].
  exists (fun l => h3 (h2 (PyStr.strip l))), (fun r => g2 (g1 r)).
  unfold strip_cells. cbn [columns rows].
  rewrite <- !list_fmap_compose. split; [done|]. split.
  - intros l. destruct (Hh3 (h2 (PyStr.strip l))) as [->| ->]; [|auto].
    destruct (Hh2 (PyStr.strip l)) as [->| ->]; auto.
  - split; [intros r; by rewrite Hl2, Hl1|]. intros r Hr. by apply Ha2, Ha1.
Qed.



(** Nothing in the loaded frame keeps surrounding white space.  For a
    sheet of ASCII text, every column label and every text cell of the
    loaded frame is ASCII text again, where [PyStr.strip] is Python's
    [strip()], and equals its own [strip()]. *)
Theorem X11_loaded_text_is_trimmed (raw : DataFrame) :
  NoDup (PyStr.strip <$> columns raw) ->
  ascii_frame raw = true ->
  exists df,
    load_data raw = Ok df /\
    (forall l, l ∈ columns df ->
       PyStr.ascii_text l = true /\ PyStr.strip l = l) /\
    (forall r v, r ∈ rows df -> Str v ∈ r ->
       PyStr.ascii_text v = true /\ PyStr.strip v = v).
Proof.
  intros _ Ha. destruct (load_data_form raw) as (h & g & Hdf & Hh & _ & Hg).
  eexists. split; [exact Hdf|]. cbn [columns rows]. split.
  - intros l (l0 & -> & Hl0)%list_elem_of_fmap.
    destruct (Hh l0) as [->|[->| ->]]; [|done..].
    split; [|apply strip_idem].
    by apply ascii_strip, (ascii_frame_label raw).
  - intros r v (r0 & -> & Hr0)%list_elem_of_fmap Hv.
    assert (Hrow : forallb ascii_cell (str_strip <$> g r0) = true).
    { by apply ascii_fmap_strip, Hg, (ascii_frame_row raw). }
    split.
    + rewrite forallb_forall in Hrow.
      by apply (Hrow (Str v)), list_elem_of_In.
    + apply list_elem_of_fmap in Hv as (c & Hc & _).
      destruct c as [|s]; [done|]. injection Hc as ->. apply strip_idem.
Qed.

Lemma X11_loaded_text_is_trimmed_witness :
  NoDup (PyStr.strip <$> columns raw) /\
  ascii_frame raw = true /\
  exists df,
    load_data raw = Ok df /\
    (forall l, l ∈ columns df ->
       PyStr.ascii_text l = true /\ PyStr.strip l = l) /\
    (forall r v, r ∈ rows df -> Str v ∈ r ->
       PyStr.ascii_text v = true /\ PyStr.strip v = v).
Proof.
  split; [exact raw_distinct_labels|]. split; [reflexivity|].
  exact (X11_loaded_text_is_trimmed raw raw_distinct_labels eq_refl).
Defined.

(** The State column ends upper-cased and trimmed: with a State column in
    a well-formed sheet of ASCII text, every State cell of the loaded frame
    is an ASCII text, where [PyStr.upper] and [PyStr.strip] are Python's
    [upper()] and [strip()], that equals its own [upper()] and its own
    [strip()]. *)
Theorem X12_state_is_upper_and_trimmed (raw : DataFrame) (s : nat) :
  NoDup (PyStr.strip <$> columns raw) ->
  well_formed raw ->
  ascii_frame raw = true ->
  col_pos "State" (PyStr.strip <$> columns raw) = Some s ->
  exists df,
    load_data raw = Ok df /\
    forall k r', rows df !! k = Some r' ->
      exists v, cell_at s r' = Str v /\ PyStr.ascii_text v = true /\
                PyStr.upper v = v /\ PyStr.strip v = v.
Proof.
  intros _ Hwf Ha Hs.
  destruct (load_data_state raw s Hwf Hs) as (df & Hdf & _ & Hlen & Hrows).
  exists df. split; [done|]. intros k r' Hk'.
  destruct (rows raw !! k) as [r|] eqn:Hk.
  - destruct (Hrows k r Hk) as (r'' & Hk'' & Hc). rewrite Hk' in Hk''.
    injection Hk'' as <-. rewrite Hc.
    assert (Hcell : ascii_cell (str_strip (state_text (cell_at s r))) = true).
    { apply ascii_str_strip, ascii_state_text, ascii_cell_at.
      apply (ascii_frame_row raw); [done|]. by eapply list_elem_of_lookup_2. }
    revert Hcell. unfold state_text. simpl. intros Hcell.
    eexists. split; [done|]. split; [exact Hcell|].
    rewrite strip_upper, strip_idem. split; [apply upper_idem|].
    by rewrite strip_upper, strip_idem.
  - apply lookup_ge_None in Hk. apply lookup_lt_Some in Hk'. lia.
Qed.

Lemma X12_state_is_upper_and_trimmed_witness :
  NoDup (PyStr.strip <$> columns raw) /\
  well_formed raw /\
  ascii_frame raw = true /\
  col_pos "State" (PyStr.strip <$> columns raw) = Some 2 /\
  exists df,
    load_data raw = Ok df /\
    forall k r', rows df !! k = Some r' ->
      exists v, cell_at 2 r' = Str v /\ PyStr.ascii_text v = true /\
                PyStr.upper v = v /\ PyStr.strip v = v.
Proof.
  split; [exact raw_distinct_labels|].
  split; [exact raw_well_formed|]. split; [reflexivity|]. split; [reflexivity|].
  exact (X12_state_is_upper_and_trimmed raw 2 raw_distinct_labels raw_well_formed
           eq_refl eq_refl).
Defined.

(** The fallback of line 57 never decides.  The column [zip_col] resolves
    always lower-cases to one of the four ZIP names and is the first such
    column, and [zip_col] is [None] exactly when no label does: a column
    named "Zip" is already found by the generator of line 56. *)
Theorem X13_zip_fallback_is_dead (df : DataFrame) :
  (forall zc, zip_col df = Some zc ->
     exists z, columns df !! z = Some zc /\ PyStr.lower zc ∈ zip_names /\
               forall j l, j < z -> columns df !! j = Some l ->
                           PyStr.lower l ∉ zip_names) /\
  (zip_col df = None <-> forall l, l ∈ columns df -> PyStr.lower l ∉ zip_names).
Proof.
  unfold zip_col, has_col.
  set (p := fun c : string => bool_decide (PyStr.lower c ∈ zip_names)).
  assert (Hfirst : forall cols c cs, List.filter p cols = c :: cs ->
            exists z, cols !! z = Some c /\ PyStr.lower c ∈ zip_names /\
                      forall j l, j < z -> cols !! j = Some l ->
                                  PyStr.lower l ∉ zip_names).
  { induction cols as [|x cols IH]; intros c cs; simpl; [done|].
    destruct (p x) eqn:Hp.
    - intros [= -> _]. exists 0. split; [done|].
      split; [by apply bool_decide_eq_true in Hp|]. intros j l Hj. lia.
    - intros Hf. destruct (IH c cs Hf) as (z & Hz & Hc & Hbefore).
      exists (S z). split; [done|]. split; [done|].
      intros [|j] l Hj Hl.
      + injection Hl as <-. by apply bool_decide_eq_false in Hp.
      + apply (Hbefore j l); [lia|done]. }
  assert (Hnil : List.filter p (columns df) = [] <->
                 forall l, l ∈ columns df -> PyStr.lower l ∉ zip_names).
  { split.
    - intros Hf l Hl Hz.
      assert (l ∈ List.filter p (columns df)) as Hin.
      { apply elem_of_filter_bool. split; [done|]. by apply bool_decide_eq_true. }
      rewrite Hf in Hin. by apply not_elem_of_nil in Hin.
    - intros Hno. destruct (List.filter p (columns df)) as [|c cs] eqn:E; [done|].
      assert (c ∈ List.filter p (columns df)) as Hin by (rewrite E; left).
      apply elem_of_filter_bool in Hin as [Hin Hc].
      apply bool_decide_eq_true in Hc. by destruct (Hno c Hin). }
  assert (HZip : "Zip" ∈ columns df -> List.filter p (columns df) <> []).
  { intros Hin Hf. apply (proj1 Hnil Hf "Zip" Hin).
    apply (bool_decide_unpack _). by vm_compute. }
  split.
  - intros zc. destruct (List.filter p (columns df)) as [|c cs] eqn:E.
    + case_bool_decide as Hz; [|done]. by destruct (HZip Hz).
    + intros [= <-]. by eapply Hfirst.
  - rewrite <- Hnil. destruct (List.filter p (columns df)) as [|c cs] eqn:E; [|done].
    case_bool_decide as Hz; [|done]. by destruct (HZip Hz).
Qed.

End loader_properties.

Section customer_properties.
Import Loader Spec Scenario.

(** A label reads as a customer column when it contains one of the three
    words of line 64, case ignored. *)
Lemma customer_match_spec (l : string) :
  is_Some (Re.search true customer_pattern l) <->
  Re.icontains "customer" l \/ Re.icontains "account" l \/ Re.icontains "company" l.
Proof.
  rewrite search_is_Some. unfold customer_pattern, Re.icontains. split.
  - intros (pre & m & post & Hl & Hm).
    inversion Hm as [| | | | |? ? ? H1|? ? ? H1| |]; subst.
    + left. exists pre, m, post. split; [done|]. by apply matches_lits.
    + inversion H1 as [| | | | |? ? ? H2|? ? ? H2| |]; subst.
      * right; left. exists pre, m, post. split; [done|]. by apply matches_lits.
      * right; right. exists pre, m, post. split; [done|]. by apply matches_lits.
  - intros [H|[H|H]]; destruct H as (pre & m & post & Hl & Hm%matches_lits);
      exists pre, m, post; (split; [done|]).
    + by apply Re.matches_alt_l.
    + by apply Re.matches_alt_r, Re.matches_alt_l.
    + by apply Re.matches_alt_r, Re.matches_alt_r.
Qed.

(** No ZIP name reads as a customer column, and neither name is
    "Customer". *)
Lemma zip_like_not_customer (l : string) :
  PyStr.lower l ∈ zip_names \/ l = "Zip" ->
  l <> "Customer" /\ Re.search true customer_pattern l = None.
Proof.
  intros Hl. split.
  - intros ->. destruct Hl as [Hl|Hl]; [|done].
    revert Hl. by apply (bool_decide_unpack _).
  - destruct (Re.search true customer_pattern l) as [m|] eqn:E; [|done]. exfalso.
    assert (Hs : is_Some (Re.search true customer_pattern l)) by (by rewrite E).
    apply customer_match_spec in Hs.
    assert (Hlow : PyStr.lower l ∈ zip_names).
    { destruct Hl as [Hl| ->]; [done|]. apply (bool_decide_unpack _). by vm_compute. }
    rewrite !icontains_lower, <- !occurs_spec in Hs.
    unfold zip_names in Hlow. rewrite !elem_of_cons, elem_of_nil in Hlow.
    destruct Hlow as [H|[H|[H|[H|[]]]]]; rewrite H in Hs; vm_compute in Hs;
      destruct Hs as [Hs|[Hs|Hs]]; discriminate Hs.
Qed.

Lemma has_col_normalize_customer (df : DataFrame) :
  has_col "Customer" (normalize_customer df) = true <->
  exists l, l ∈ columns df /\
            (l = "Customer" \/ is_Some (Re.search true customer_pattern l)).
Proof.
  unfold normalize_customer. destruct (has_col "Customer" df) eqn:E.
  - split; [|done]. intros _. exists "Customer". split; [|by left].
    by apply bool_decide_eq_true in E.
  - assert (Hno : "Customer" ∉ columns df) by (by apply bool_decide_eq_false in E).
    destruct (List.filter _ (columns df)) as [|c cs] eqn:Ef.
    + rewrite E. split; [done|]. intros (l & Hl & [->|Hm]); [done|].
      assert (l ∈ List.filter
                (fun c => bool_decide (is_Some (Re.search true customer_pattern c)))
                (columns df)) as Hin.
      { apply elem_of_filter_bool. split; [done|]. by apply bool_decide_eq_true. }
      rewrite Ef in Hin. by apply not_elem_of_nil in Hin.
    + assert (c ∈ List.filter
                (fun c => bool_decide (is_Some (Re.search true customer_pattern c)))
                (columns df)) as Hin by (rewrite Ef; left).
      apply elem_of_filter_bool in Hin as [Hin Hc]. apply bool_decide_eq_true in Hc.
      split.
      * intros _. exists c. auto.
      * intros _. unfold has_col, rename. cbn [columns]. apply bool_decide_eq_true.
        apply list_elem_of_fmap. exists c. split; [|done].
        unfold relabel. by rewrite bool_decide_eq_true_2.
Qed.



End customer_properties.

(** * Further properties of the map and the table *)
Section geo_properties.
Import Geo Scenario.
Context {coord : Type}.
Implicit Types (zm : gmap string (place coord)) (r : row).

Lemma with_coords_fmap_in (h : row -> option coord * option coord)
    (rs : list row) (r : row) (x y : coord) :
  r ∈ rs -> h r = (Some x, Some y) ->
  (r, x, y) ∈ with_coords rs (fst <$> (h <$> rs)) (snd <$> (h <$> rs)).
Proof.
  intros Hr Hh. induction rs as [|r0 rs IH]; [by apply not_elem_of_nil in Hr|].
  csimpl. apply elem_of_cons in Hr as [<-|Hr].
  - rewrite Hh. simpl. by left.
  - destruct (h r0) as [[x0|] [y0|]]; simpl; auto. right. auto.
Qed.

Lemma with_coords_sublist (rs : list row) (lats lons : list (option coord)) :
  (fun p : row * coord * coord => p.1.1) <$> with_coords rs lats lons `sublist_of` rs.
Proof.
  revert lats lons. induction rs as [|r rs IH]; intros lats lons; [constructor|].
  destruct lats as [|la lats], lons as [|lo lons]; simpl;
    try apply sublist_nil_l.
  destruct la as [x|], lo as [y|]; csimpl;
    first [by apply sublist_skip | by apply sublist_cons].
Qed.

Lemma coords_of_record zm (z : string) (x y : coord) :
  coords_of zm z = (Some x, Some y) <->
  exists p, zm !! z = Some p /\ latitude p = Some x /\ longitude p = Some y.
Proof.
  unfold coords_of. destruct (zm !! z) as [p|] eqn:Hp.
  - destruct (latitude p) as [x'|] eqn:Hx.
    + split.
      * intros [= -> Hy]. by exists p.
      * intros (p' & [= <-] & Hx' & Hy). congruence.
    + split; [done|]. intros (p' & [= <-] & Hx' & _). congruence.
  - split; [done|]. by intros (p' & ? & _).
Qed.

Lemma attach_coords_zip zm (f : DataFrame) (z : nat) :
  col_pos "Zip" (columns f) = Some z ->
  rows f <> [] ->
  attach_coords zm f
  = Ok (mkGeo f (fst <$> ((fun r => coords_of zm (astype_str (cell_at z r))) <$> rows f))
              (snd <$> ((fun r => coords_of zm (astype_str (cell_at z r))) <$> rows f))).
Proof.
  intros Hz Hne. unfold attach_coords, empty.
  rewrite bool_decide_eq_false_2 by done.
  rewrite bool_decide_eq_false_2.
  2:{ intros Hc. by rewrite Hc in Hz. }
  simpl. rewrite (getitem_ok _ _ _ Hz). cbn [mbind result_bind].
  by rewrite <- !list_fmap_compose.
Qed.

(** What the map plots.  For a frame with its Zip column, every point of
    the map layer is a row of the frame together with exactly the latitude
    and longitude the geocoder's dictionary holds for that row's ZIP; the
    points follow the order of the rows, so the map never shows more points
    than the table has rows. *)
Theorem X15_map_points_are_geocoder_records zm (f : DataFrame) (z : nat) :
  col_pos "Zip" (columns f) = Some z ->
  exists geo,
    attach_coords zm f = Ok geo /\
    (fun p : row * coord * coord => p.1.1) <$> map_layer geo `sublist_of` rows f /\
    forall r x y, (r, x, y) ∈ map_layer geo ->
      exists p, zm !! astype_str (cell_at z r) = Some p /\
                latitude p = Some x /\ longitude p = Some y.
Proof.
  intros Hz. destruct (decide (rows f = [])) as [Hrows|Hne].
  - exists (mkGeo f [] []). split.
    + unfold attach_coords, empty. rewrite Hrows. by rewrite bool_decide_eq_true_2.
    + unfold map_layer. cbn [base lat lon]. rewrite Hrows. simpl.
      split; [constructor|]. by intros r x y ?%not_elem_of_nil.
  - eexists. split; [by apply (attach_coords_zip zm f z Hz)|].
    unfold map_layer. cbn [base lat lon]. split; [apply with_coords_sublist|].
    intros r x y Hin.
    apply with_coords_fmap in Hin as [_ Hh]. by apply coords_of_record.
Qed.

(** A row the geocoder located is plotted.  When the dictionary holds a
    latitude and a longitude for the ZIP of some row, that row is a point of
    the map layer with those coordinates, and the map section is a figure
    rather than the notice. *)
Theorem X16_located_rows_are_plotted zm (f : DataFrame) (view : map_view)
    (z : nat) (r : row) (p : place coord) (x y : coord) :
  col_pos "Zip" (columns f) = Some z ->
  r ∈ rows f ->
  zm !! astype_str (cell_at z r) = Some p ->
  latitude p = Some x ->
  longitude p = Some y ->
  exists geo,
    attach_coords zm f = Ok geo /\
    (r, x, y) ∈ map_layer geo /\
    map_section view geo = Figure view (map_layer geo).
Proof.
  intros Hz Hr Hp Hx Hy.
  assert (Hne : rows f <> []) by (intros E; rewrite E in Hr; by apply not_elem_of_nil in Hr).
  eexists. split; [by apply (attach_coords_zip zm f z Hz)|].
  assert (Hin : (r, x, y) ∈ map_layer
            (mkGeo f (fst <$> ((fun r => coords_of zm (astype_str (cell_at z r))) <$> rows f))
                     (snd <$> ((fun r => coords_of zm (astype_str (cell_at z r))) <$> rows f)))).
  { unfold map_layer. cbn [base lat lon].
    apply with_coords_fmap_in; [done|]. apply coords_of_record. by exists p. }
  split; [exact Hin|]. unfold map_section.
  rewrite bool_decide_eq_true_2; [done|].
  destruct (map_layer _) as [|pt pts]; [by apply not_elem_of_nil in Hin|simpl; lia].
Qed.

End geo_properties.

Section geo_properties_witnesses.
Import Geo Scenario.

Lemma X15_map_points_are_geocoder_records_witness :
  col_pos "Zip" (columns accounts) = Some 3 /\
  exists geo,
    attach_coords (one_zip []) accounts = Ok geo /\
    (fun p : row * nat * nat => p.1.1) <$> map_layer geo `sublist_of` rows accounts /\
    forall r x y, (r, x, y) ∈ map_layer geo ->
      exists p, one_zip [] !! astype_str (cell_at 3 r) = Some p /\
                latitude p = Some x /\ longitude p = Some y.
Proof.
  split; [reflexivity|].
  exact (X15_map_points_are_geocoder_records (one_zip []) accounts 3 eq_refl).
Defined.

Lemma X16_located_rows_are_plotted_witness :
  col_pos "Zip" (columns accounts) = Some 3 /\
  [Str "Acme"; Str "Ann"; Str "WI"; Str "54401"] ∈ rows accounts /\
  one_zip [] !! astype_str (cell_at 3 [Str "Acme"; Str "Ann"; Str "WI"; Str "54401"])
  = Some (mkPlace (Some 44) (Some 89)) /\
  latitude (mkPlace (Some 44) (Some 89)) = Some 44 /\
  longitude (mkPlace (Some 44) (Some 89)) = Some 89 /\
  exists geo,
    attach_coords (one_zip []) accounts = Ok geo /\
    ([Str "Acme"; Str "Ann"; Str "WI"; Str "54401"], 44, 89) ∈ map_layer geo /\
    map_section PinMap geo = Figure PinMap (map_layer geo).
Proof.
  assert (Hr : [Str "Acme"; Str "Ann"; Str "WI"; Str "54401"] ∈ rows accounts)
    by (simpl; left).
  split; [reflexivity|]. split; [exact Hr|]. split; [reflexivity|].
  split; [reflexivity|]. split; [reflexivity|].
  exact (X16_located_rows_are_plotted (one_zip []) accounts PinMap 3 _
           (mkPlace (Some 44) (Some 89)) 44 89 eq_refl Hr eq_refl eq_refl eq_refl).
Defined.

End geo_properties_witnesses.

Section table_properties.
Import Geo Spec Scenario.

Lemma add_present_spec (df : DataFrame) (names cols : list string) :
  cols `prefix_of` add_present df names cols /\
  (NoDup cols -> NoDup (add_present df names cols)) /\
  (forall c, c ∈ add_present df names cols <->
             c ∈ cols \/ (c ∈ names /\ has_col c df = true)).
Proof.
  unfold add_present. revert cols.
  induction names as [|n ns IH]; intros cols; simpl.
  - split; [done|]. split; [done|]. intros c. rewrite elem_of_nil. tauto.
  - set (cols' := if has_col n df && negb (bool_decide (n ∈ cols))
                  then cols ++ [n] else cols).
    destruct (IH cols') as (Hpre & Hnd & Hmem).
    assert (Hp : cols `prefix_of` cols').
    { unfold cols'. destruct (_ && _); [by apply prefix_app_r|done]. }
    assert (Hn : NoDup cols -> NoDup cols').
    { intros Hc. unfold cols'.
      destruct (has_col n df && negb (bool_decide (n ∈ cols))) eqn:E; [|done].
      apply andb_true_iff in E as [_ E]. apply negb_true_iff, bool_decide_eq_false in E.
      apply NoDup_app. split; [done|]. split; [|apply NoDup_singleton].
      intros x Hx ->%list_elem_of_singleton. done. }
    assert (Hm : forall c, c ∈ cols' <-> c ∈ cols \/ (c = n /\ has_col n df = true)).
    { intros c. unfold cols'.
      destruct (has_col n df) eqn:Eh; simpl.
      - case_bool_decide as Hin; simpl.
        + split; [tauto|]. intros [?|[-> _]]; done.
        + rewrite elem_of_app, list_elem_of_singleton. tauto.
      - split; [tauto|]. intros [?|[_ ?]]; done. }
    split; [by etrans|]. split; [auto|].
    intros c. rewrite Hmem, Hm, elem_of_cons. split.
    + intros [[?|[-> ?]]|[? ?]]; auto.
    + intros [?|[[->|?] ?]]; auto.
Qed.

Lemma cols_to_show_elem (df : DataFrame) (checked : string -> bool) (c : string) :
  c ∈ cols_to_show df checked <->
  c ∈ ["Customer"; "WSC_SAM"; "State"; "Zip"] \/
  (has_col c df = true /\
   ((c ∈ stakeholder_columns /\ checked c = true) \/
    c ∈ ["City"; "Address"; "Branch"; "Region"; "Division"])).
Proof.
  unfold cols_to_show.
  rewrite (proj2 (proj2 (add_present_spec df _ _))).
  rewrite (proj2 (proj2 (add_present_spec df _ _))).
  unfold selected_stakeholders.
  rewrite elem_of_filter_bool, andb_true_iff. tauto.
Qed.

(** The columns of the table.  [cols_to_show] starts with Customer,
    WSC_SAM, State, Zip, in this order and whether or not they exist, lists no
    column twice, and beyond those four holds exactly the columns present in
    the Dataset that are a ticked stakeholder column or one of City, Address,
    Branch, Region, Division. *)
Theorem X17_table_columns (df : DataFrame) (checked : string -> bool) :
  ["Customer"; "WSC_SAM"; "State"; "Zip"] `prefix_of` cols_to_show df checked /\
  NoDup (cols_to_show df checked) /\
  forall c, c ∈ cols_to_show df checked <->
    c ∈ ["Customer"; "WSC_SAM"; "State"; "Zip"] \/
    (has_col c df = true /\
     ((c ∈ stakeholder_columns /\ checked c = true) \/
      c ∈ ["City"; "Address"; "Branch"; "Region"; "Division"])).
Proof.
  unfold cols_to_show.
  set (four := ["Customer"; "WSC_SAM"; "State"; "Zip"]).
  set (extras := ["City"; "Address"; "Branch"; "Region"; "Division"]).
  destruct (add_present_spec df (selected_stakeholders df checked) four)
    as (Hp1 & Hn1 & Hm1).
  destruct (add_present_spec df extras
              (add_present df (selected_stakeholders df checked) four))
    as (Hp2 & Hn2 & Hm2).
  split; [by etrans|]. split.
  - apply Hn2, Hn1. apply (bool_decide_unpack _). by vm_compute.
  - intros c. apply cols_to_show_elem.
Qed.

Lemma select_columns_cells (f : DataFrame) (cols : list string) :
  forallb (fun c => has_col c f) cols = true ->
  exists t,
    select_columns f cols = Ok t /\ columns t = cols /\
    forall k r, rows f !! k = Some r ->
      exists r', rows t !! k = Some r' /\
        forall j c i, cols !! j = Some c -> col_pos c (columns f) = Some i ->
                      cell_at j r' = cell_at i r.
Proof.
  intros Hall. unfold select_columns.
  assert (Hps : exists ps,
            mapM (fun c => match col_pos c (columns f) with
                           | Some i => Ok i
                           | None => Raise (KeyError c)
                           end) cols = Ok ps /\
            forall j c i, cols !! j = Some c -> col_pos c (columns f) = Some i ->
                          ps !! j = Some i).
  { induction cols as [|c cols IH]; [by exists []|]. simpl in Hall.
    apply andb_true_iff in Hall as [Hc Hall]. destruct (IH Hall) as (ps & Hps & Hlk).
    destruct (has_col_pos _ _ Hc) as [i Hi].
    exists (i :: ps). split; [simpl; rewrite Hi; simpl; by rewrite Hps|].
    intros [|j] c' i' Hj Hp; simpl in *.
    - injection Hj as <-. congruence.
    - by eapply Hlk. }
  destruct Hps as (ps & -> & Hlk). simpl.
  eexists. split; [done|]. split; [done|]. cbn [rows].
  intros k r Hk. eexists. rewrite list_lookup_fmap, Hk. split; [done|].
  intros j c i Hj Hp. unfold cell_at at 1.
  by rewrite list_lookup_fmap, (Hlk j c i Hj Hp).
Qed.

(** The table with all four dimension columns present.  On a frame with
    distinct column labels, the table has exactly the columns of
    [cols_to_show], one row per filtered row in the same order, and each of
    its cells is the filtered row's cell in the column of that name. *)
Theorem X18_table_cells (df f : DataFrame) (checked : string -> bool) :
  NoDup (columns f) ->
  columns f = columns df ->
  has_dimensions f ->
  exists t,
    filtered_to_display df f checked = Ok t /\
    columns t = cols_to_show df checked /\
    length (rows t) = length (rows f) /\
    forall k r, rows f !! k = Some r ->
      exists r', rows t !! k = Some r' /\
        forall j c i, columns t !! j = Some c -> col_pos c (columns f) = Some i ->
                      cell_at j r' = cell_at i r.
Proof.
  intros _ Hcols Hd. unfold filtered_to_display.
  assert (Hall : forallb (fun c => has_col c f) (cols_to_show df checked) = true).
  { apply forallb_forall. intros c Hc%list_elem_of_In.
    apply cols_to_show_elem in Hc.
    destruct Hc as [Hc|[Hc _]].
    - rewrite !elem_of_cons, elem_of_nil in Hc.
      destruct Hc as [->|[->|[->|[->|[]]]]];
        [apply (Hd Customer)|apply (Hd SAM)|apply (Hd State)|apply (Hd Zip)].
    - unfold has_col in *. by rewrite Hcols. }
  rewrite Hall.
  destruct (select_columns_cells f _ Hall) as (t & Ht & Hc & Hr).
  exists t. split; [done|]. split; [done|]. split.
  - destruct (select_columns_rows f _ Hall) as (t' & proj & Ht' & _ & Hrows).
    rewrite Ht in Ht'. injection Ht' as <-. by rewrite Hrows, length_fmap.
  - intros k r Hk. destruct (Hr k r Hk) as (r' & Hk' & Hcell).
    exists r'. split; [done|]. intros j c i Hj. rewrite Hc in Hj. by apply Hcell.
Qed.

End table_properties.

Section table_facts.
Import Geo.

Lemma col_pos_NoDup (cols : list string) (j : nat) (c : string) :
  NoDup cols -> cols !! j = Some c -> col_pos c cols = Some j.
Proof.
  intros Hnd Hj.
  destruct (has_col_pos c (mkDataFrame cols [])) as [i Hi].
  { apply bool_decide_eq_true. by eapply list_elem_of_lookup_2. }
  cbn [columns] in Hi. rewrite Hi. f_equal.
  apply col_pos_Some in Hi as [Hi _].
  by eapply NoDup_lookup.
Qed.

(** The table of line 227 on a frame with distinct labels: it shows the
    Zip column, has one row per filtered row, and each of its cells is the
    filtered row's cell under the same label. *)
Lemma filtered_to_display_cells (df f : DataFrame) (checked : string -> bool) :
  NoDup (columns f) ->
  has_col "Zip" f = true ->
  exists t,
    filtered_to_display df f checked = Ok t /\
    "Zip" ∈ columns t /\
    length (rows t) = length (rows f) /\
    forall k r, rows f !! k = Some r ->
      exists r', rows t !! k = Some r' /\
        forall j c, columns t !! j = Some c ->
          exists i, col_pos c (columns f) = Some i /\ cell_at j r' = cell_at i r.
Proof.
  intros Hnd HZ. unfold filtered_to_display.
  destruct (forallb _ (cols_to_show df checked)) eqn:Hall.
  - destruct (select_columns_cells f _ Hall) as (t & Ht & Hc & Hr).
    exists t. split; [done|]. split; [|split].
    + rewrite Hc. apply cols_to_show_elem. left. rewrite !elem_of_cons. tauto.
    + destruct (select_columns_rows f _ Hall) as (t' & proj & Ht' & _ & Hrows).
      rewrite Ht in Ht'. injection Ht' as <-. by rewrite Hrows, length_fmap.
    + intros k r Hk. destruct (Hr k r Hk) as (r' & Hk' & Hcell).
      exists r'. split; [done|]. intros j c Hj. rewrite Hc in Hj.
      rewrite forallb_forall in Hall.
      destruct (has_col_pos c f) as [i Hi].
      { apply Hall, list_elem_of_In. by eapply list_elem_of_lookup_2. }
      exists i. split; [done|]. by eapply Hcell.
  - exists f. split; [done|]. split; [by apply bool_decide_eq_true in HZ|].
    split; [done|]. intros k r Hk. exists r. split; [done|].
    intros j c Hj. exists j. split; [by apply col_pos_NoDup|done].
Qed.

End table_facts.

Section geo_theorems.
Import Geo.
Context {coord : Type}.
Variable geocode_zips : list cell -> gmap string (place coord).
Variable to_csv : DataFrame -> string.


End geo_theorems.

Section geo_witness.
Import Geo Scenario.


End geo_witness.

Section table_edge_cases.
Import Geo Spec Scenario.

Lemma X18_table_cells_witness :
  NoDup (columns accounts) /\
  columns accounts = columns accounts /\
  has_dimensions accounts /\
  exists t,
    filtered_to_display accounts accounts (fun _ => false) = Ok t /\
    columns t = cols_to_show accounts (fun _ => false) /\
    length (rows t) = length (rows accounts) /\
    forall k r, rows accounts !! k = Some r ->
      exists r', rows t !! k = Some r' /\
        forall j c i, columns t !! j = Some c -> col_pos c (columns accounts) = Some i ->
                      cell_at j r' = cell_at i r.
Proof.
  split; [exact accounts_distinct_labels|].
  split; [reflexivity|]. split; [exact accounts_has_dimensions|].
  exact (X18_table_cells accounts accounts (fun _ => false)
           accounts_distinct_labels eq_refl accounts_has_dimensions).
Defined.

(** Without one of the four dimension columns the column choice is
    dropped.  When the filtered frame lacks Customer, WSC_SAM, State or Zip,
    line 227 shows the whole filtered frame, every column of it, whatever
    the checkboxes say. *)
Theorem X19_table_falls_back_to_all_columns (df f : DataFrame)
    (checked : string -> bool) (d : dimension) :
  has_col (label d) f = false ->
  filtered_to_display df f checked = Ok f.
Proof.
  intros Hd. unfold filtered_to_display.
  destruct (forallb _ (cols_to_show df checked)) eqn:Hall; [|done]. exfalso.
  rewrite forallb_forall in Hall.
  assert (Hin : label d ∈ cols_to_show df checked).
  { apply cols_to_show_elem. left. destruct d; simpl; rewrite !elem_of_cons; tauto. }
  apply list_elem_of_In in Hin. rewrite (Hall _ Hin) in Hd. discriminate.
Qed.

Lemma X19_table_falls_back_to_all_columns_witness :
  has_col (label State) stateless = false /\
  filtered_to_display stateless stateless (fun _ => true) = Ok stateless.
Proof.
  split; [reflexivity|].
  exact (X19_table_falls_back_to_all_columns stateless stateless (fun _ => true)
           State eq_refl).
Defined.

End table_edge_cases.

Section empty_result.
Import Geo.
Context {coord : Type}.
Variable geocode_zips : list cell -> gmap string (place coord).
Variable to_csv : DataFrame -> string.

(** An empty result.  When the filters leave no row, the page is rendered
    without a geocoder call or a look-up of the Zip column: the count is 0,
    the map section is the notice "No mappable locations for current
    filters.", and the table has no row. *)
Theorem X20_empty_result_page (df f : DataFrame) (view : map_view)
    (checked : string -> bool) :
  rows f = [] ->
  exists pg,
    zip_map geocode_zips f = Ok ∅ /\
    render geocode_zips to_csv df f view checked = Ok pg /\
    shown pg = 0 /\
    map_widget pg = Info "No mappable locations for current filters." /\
    rows (table pg) = [].
Proof.
  intros Hrows.
  assert (He : empty f = true) by (unfold empty; by rewrite Hrows).
  destruct (filtered_to_display_rows df f checked) as (t & proj & Ht & Hr).
  rewrite Hrows in Hr. simpl in Hr.
  exists (mkPage 0 (Info "No mappable locations for current filters.") t (to_csv t)).
  assert (Hzm : zip_map geocode_zips f = Ok ∅) by (unfold zip_map; by rewrite He).
  split; [done|]. split; [|done].
  unfold render. rewrite Hzm. cbn [mbind result_bind].
  unfold attach_coords. rewrite He. cbn [mbind result_bind]. rewrite Ht.
  cbn [mbind result_bind]. unfold map_section, map_layer. cbn [base lat lon].
  by rewrite Hrows.
Qed.

End empty_result.

Section empty_result_witness.
Import Geo Scenario.

Lemma X20_empty_result_page_witness :
  rows (mkDataFrame ["Customer"] []) = [] /\
  exists pg,
    zip_map one_zip (mkDataFrame ["Customer"] []) = Ok ∅ /\
    render one_zip (fun _ => "") accounts (mkDataFrame ["Customer"] []) Heatmap
      (fun _ => false) = Ok pg /\
    shown pg = 0 /\
    map_widget pg = Info "No mappable locations for current filters." /\
    rows (table pg) = [].
Proof.
  split; [reflexivity|].
  exact (X20_empty_result_page one_zip (fun _ => "") accounts
           (mkDataFrame ["Customer"] []) Heatmap (fun _ => false) eq_refl).
Defined.

End empty_result_witness.

(** * Loading a loaded frame again *)
Section reload_facts.
Import Loader Spec Scenario.

Lemma zip_frame_columns (cols : list string) (rs rs' : list row) :
  columns (zip_frame (mkDataFrame cols rs)) = columns (zip_frame (mkDataFrame cols rs')).
Proof.
  unfold zip_frame.
  rewrite (zip_col_same_columns (mkDataFrame cols rs) (mkDataFrame cols rs')) by done.
  destruct (zip_col _) as [zc|]; [|done]. cbn [columns].
  by destruct (col_pos zc cols).
Qed.

Lemma normalize_customer_columns_only (a b : DataFrame) :
  columns a = columns b ->
  columns (normalize_customer a) = columns (normalize_customer b).
Proof.
  intros H. unfold normalize_customer, has_col. rewrite H.
  case_bool_decide; [done|].
  destruct (List.filter _ (columns b)); [done|].
  unfold rename. cbn [columns]. by rewrite H.
Qed.

Lemma zip_frame_rows (cols : list string) (rs : list row) :
  rows (zip_frame (mkDataFrame cols rs))
  = (fun r => match zip_pos cols with
              | Some z => set_cell zip_text z r
              | None => r
              end) <$> rs.
Proof.
  unfold zip_frame, zip_pos.
  rewrite (zip_col_same_columns (mkDataFrame cols rs) (mkDataFrame cols [])) by done.
  destruct (zip_col _) as [zc|]; simpl; [|symmetry; apply list_fmap_id].
  destruct (col_pos zc cols); simpl; [done|symmetry; apply list_fmap_id].
Qed.

(** [load_data] in its row-wise form. *)
Lemma load_data_rowwise (raw : DataFrame) :
  load_data raw
  = Ok (mkDataFrame (load_columns (PyStr.strip <$> columns raw))
          (load_row (PyStr.strip <$> columns raw) <$> rows raw)).
Proof.
  rewrite load_data_ok. unfold strip_cells, load_columns. f_equal. f_equal.
  - apply normalize_customer_columns_only, zip_frame_columns.
  - rewrite normalize_customer_rows, zip_frame_rows.
    unfold state_rows, load_row. cbn [columns rows strip_columns].
    destruct (col_pos "State" (PyStr.strip <$> columns raw));
      by rewrite <- !list_fmap_compose.
Qed.

End reload_facts.

Section reload_cells.
Import Loader Spec.

Lemma set_cell_lookup (g : cell -> cell) (i j : nat) (r : row) :
  set_cell g i r !! j = if decide (i = j) then g <$> (r !! j) else r !! j.
Proof.
  unfold set_cell, cell_at. destruct (decide (i = j)) as [->|Hne].
  - destruct (r !! j) as [c|] eqn:E; simpl.
    + apply list_lookup_insert_eq. by eapply lookup_lt_Some.
    + rewrite list_insert_ge; [done|]. by apply lookup_ge_None.
  - by apply list_lookup_insert_ne.
Qed.

Lemma state_text_fixed (c : cell) :
  str_strip (state_text (str_strip (state_text c))) = str_strip (state_text c).
Proof.
  unfold state_text. simpl. f_equal.
  by rewrite !strip_upper, !strip_idem, upper_idem.
Qed.

Lemma search_five_digits (zv : string) :
  Re.five_digits zv -> Re.search false zip_pattern zv = Some zv.
Proof.
  intros Hz. unfold zip_pattern.
  destruct (Re.search false (Re.rep 5 Re.Digit) zv) as [m|] eqn:E.
  - apply search_Some in E as (pre & post & Hs & Hm & _).
    apply matches_rep_digit in Hm as [Hm _].
    assert (Hlen : String.length pre + (5 + String.length post) = 5).
    { destruct Hz as [Hz _]. rewrite Hs, !length_app_s, Hm in Hz. lia. }
    destruct pre; [|simpl in Hlen; lia]. destruct post; [|simpl in Hlen; lia].
    rewrite app_nil_l, app_nil_r in Hs. by subst.
  - exfalso. eapply (search_None false _ zv E "" zv "").
    + by rewrite app_nil_l, app_nil_r.
    + by apply matches_rep_digit.
Qed.

Lemma zip_text_fixed (c : cell) :
  str_strip (zip_text (str_strip (zip_text c))) = str_strip (zip_text c).
Proof.
  destruct (zip_text_spec c) as (zv & -> & Hfirst & Hstrip).
  simpl. rewrite Hstrip. unfold zip_text, str_extract. simpl.
  destruct Hfirst as [[-> _]|[Hz _]]; [done|].
  rewrite (search_five_digits zv Hz). simpl. by rewrite Hstrip.
Qed.

Lemma str_strip_idem (c : cell) : str_strip (str_strip c) = str_strip c.
Proof. destruct c; [done|]. simpl. by rewrite strip_idem. Qed.

(** Rewriting a row twice, with State and ZIP at the same two distinct
    positions, is rewriting it once. *)
Lemma load_row_twice (so zo : option nat) (r : row) :
  (forall s z, so = Some s -> zo = Some z -> s <> z) ->
  let step := fun r0 : row =>
    str_strip <$>
      (match zo with Some z => set_cell zip_text z | None => id end)
        ((match so with Some s => set_cell state_text s | None => id end) r0) in
  step (step r) = step r.
Proof.
  intros Hne step. apply list_eq. intros i.
  assert (Hstep : forall r0 : row,
            step r0 !! i
            = str_strip <$>
                ((if bool_decide (zo = Some i) then fmap zip_text else id)
                   ((if bool_decide (so = Some i) then fmap state_text else id)
                      (r0 !! i)))).
  { intros r0. unfold step. rewrite list_lookup_fmap. f_equal.
    destruct zo as [z|], so as [s|]; simpl; rewrite ?set_cell_lookup;
      repeat case_decide; repeat case_bool_decide; simplify_eq; try done;
      rewrite ?set_cell_lookup; repeat case_decide; simplify_eq; done. }
  rewrite !Hstep.
  destruct (r !! i) as [c|]; [|by repeat case_bool_decide].
  case_bool_decide as Hz; case_bool_decide as Hs;
    cbn -[zip_text state_text str_strip]; f_equal.
  - exfalso. by eapply Hne.
  - apply zip_text_fixed.
  - apply state_text_fixed.
  - apply str_strip_idem.
Qed.

End reload_cells.

Section reload_columns.
Import Loader Spec Scenario.

Lemma zip_col_head (df : DataFrame) :
  zip_col df = head (List.filter zip_like (columns df)).
Proof.
  unfold zip_col. fold zip_like.
  destruct (List.filter zip_like (columns df)) as [|c cs] eqn:E; [|done].
  unfold has_col. case_bool_decide as Hz; [|done]. exfalso.
  assert ("Zip" ∈ List.filter zip_like (columns df)) as Hin.
  { apply elem_of_filter_bool. split; [done|]. by vm_compute. }
  rewrite E in Hin. by apply not_elem_of_nil in Hin.
Qed.

Lemma filter_fmap_inv {A} (p : A -> bool) (h : A -> A) (l : list A) :
  (forall x, x ∈ l -> p (h x) = p x) ->
  List.filter p (h <$> l) = h <$> List.filter p l.
Proof.
  induction l as [|x l IH]; intros H; [done|]. csimpl.
  rewrite (H x) by (by left). rewrite IH by (intros y Hy; apply H; by right).
  by destruct (p x).
Qed.

Lemma col_pos_fmap_inv (x : string) (h : string -> string) (cols : list string) :
  (forall l, l ∈ cols -> (h l = x <-> l = x)) ->
  col_pos x (h <$> cols) = col_pos x cols.
Proof.
  induction cols as [|c cols IH]; intros H; [done|]. csimpl.
  rewrite !col_pos_cons, IH by (intros l Hl; apply H; by right).
  pose proof (H c ltac:(by left)) as Hc.
  repeat case_decide; tauto.
Qed.

Lemma relabel_same (x l : string) : relabel x x l = l.
Proof. unfold relabel. by case_bool_decide. Qed.

Lemma zip_like_true (l : string) :
  zip_like l = true -> PyStr.lower l ∈ zip_names \/ l = "Zip".
Proof. intros H. left. by apply bool_decide_eq_true in H. Qed.

Lemma zip_like_of (l : string) :
  PyStr.lower l ∈ zip_names \/ l = "Zip" -> zip_like l = true.
Proof. intros [H| ->]; [by apply bool_decide_eq_true|by vm_compute]. Qed.

Lemma customer_match_not_zip_like (c : string) :
  bool_decide (is_Some (Re.search true customer_pattern c)) = true ->
  zip_like c = false /\ c <> "Zip" /\ c <> "State".
Proof.
  intros Hc%bool_decide_eq_true. split; [|split].
  - destruct (zip_like c) eqn:E; [|done]. exfalso.
    destruct (zip_like_not_customer c (zip_like_true c E)) as [_ Hn].
    rewrite Hn in Hc. by destruct Hc.
  - intros ->. by vm_compute in Hc; destruct Hc.
  - intros ->. by vm_compute in Hc; destruct Hc.
Qed.

(** The relabelling [load_data] applies to the stripped labels. *)
Lemma load_columns_form (cols : list string) :
  exists h : string -> string,
    load_columns cols = h <$> cols /\
    (forall l, l ∈ cols -> zip_like (h l) = zip_like l) /\
    (forall zc, zip_col (mkDataFrame cols []) = Some zc -> h zc = "Zip") /\
    (forall l, l ∈ cols -> (h l = "State" <-> l = "State")) /\
    (forall l, h l = l \/ h l = "Zip" \/ h l = "Customer").
Proof.
  unfold load_columns.
  assert (Hz : exists hz : string -> string,
            columns (zip_frame (mkDataFrame cols [])) = hz <$> cols /\
            (forall l, zip_like (hz l) = zip_like l) /\
            (forall zc, zip_col (mkDataFrame cols []) = Some zc -> hz zc = "Zip") /\
            (forall l, hz l = "State" <-> l = "State") /\
            (forall l, hz l = l \/ hz l = "Zip")).
  { unfold zip_frame. destruct (zip_col (mkDataFrame cols [])) as [zc|] eqn:E.
    - destruct (zip_col_Some _ _ E) as [Hin Hl].
      destruct (zip_col_truthy _ _ E) as [_ HS].
      destruct (has_col_pos zc (mkDataFrame cols [])) as [z Hp];
        [by apply bool_decide_eq_true|]. cbn [columns] in *. rewrite Hp.
      exists (relabel zc "Zip"). split; [done|]. unfold relabel.
      split; [|split; [|split]].
      + intros l. case_bool_decide as Hc; [|done]. subst.
        rewrite (zip_like_of zc Hl). by vm_compute.
      + intros zc' [= <-]. by rewrite bool_decide_eq_true_2.
      + intros l. case_bool_decide; split; congruence.
      + intros l. case_bool_decide; auto.
    - exists id. cbn [columns]. rewrite list_fmap_id. split; [done|].
      split; [done|]. split; [done|]. split; [done|]. auto. }
  destruct Hz as (hz & Hcz & Hpz & Hzz & HSz & Hfz).
  destruct (normalize_customer_columns (zip_frame (mkDataFrame cols [])))
    as [Hc|(c & Hm & Hc)]; rewrite Hc, Hcz.
  - exists hz. split; [done|]. split; [auto|]. split; [done|]. split; [auto|].
    intros l. destruct (Hfz l); auto.
  - destruct (customer_match_not_zip_like c Hm) as (Hcz' & HcZ & HcS). clear Hm.
    exists (fun l => relabel c "Customer" (hz l)).
    split; [by rewrite <- list_fmap_compose|]. unfold relabel.
    split; [|split; [|split]].
    + intros l _. rewrite <- (Hpz l). case_bool_decide as E; [|done].
      rewrite E, Hcz'. by vm_compute.
    + intros zc Hzc. rewrite (Hzz zc Hzc). by rewrite bool_decide_eq_false_2.
    + intros l _. rewrite <- (HSz l). case_bool_decide; split; congruence.
    + intros l. case_bool_decide; [auto|]. destruct (Hfz l); auto.
Qed.

Lemma normalize_customer_idem (df : DataFrame) :
  normalize_customer (normalize_customer df) = normalize_customer df.
Proof.
  destruct (has_col "Customer" df) eqn:E.
  - assert (normalize_customer df = df) as Hn
      by (unfold normalize_customer; by rewrite E).
    by rewrite !Hn.
  - destruct (List.filter
                (fun c => bool_decide (is_Some (Re.search true customer_pattern c)))
                (columns df)) as [|c cs] eqn:Ef.
    + assert (normalize_customer df = df) as Hn
        by (unfold normalize_customer; by rewrite E, Ef).
      by rewrite !Hn.
    + assert (normalize_customer df = rename c "Customer" df) as Hn
        by (unfold normalize_customer; by rewrite E, Ef).
      rewrite Hn.
      assert (Hin : c ∈ columns df).
      { assert (c ∈ List.filter
                  (fun c => bool_decide (is_Some (Re.search true customer_pattern c)))
                  (columns df)) as H by (rewrite Ef; left).
        by apply elem_of_filter_bool in H as [H _]. }
      assert (Hc : has_col "Customer" (rename c "Customer" df) = true).
      { unfold has_col, rename. cbn [columns]. apply bool_decide_eq_true.
        apply list_elem_of_fmap. exists c. split; [|done].
        unfold relabel. by rewrite bool_decide_eq_true_2. }
      unfold normalize_customer at 1. by rewrite Hc.
Qed.

End reload_columns.

Section reload_theorem.
Import Loader Spec Scenario.

Lemma zip_pos_reload (cols : list string) :
  NoDup (load_columns cols) ->
  zip_pos (load_columns cols) = zip_pos cols.
Proof.
  intros Hnd.
  destruct (load_columns_form cols) as (h & Hcols & Hp & Hz & _ & _).
  unfold zip_pos. rewrite (zip_col_head (mkDataFrame (load_columns cols) [])).
  cbn [columns]. rewrite Hcols, (filter_fmap_inv zip_like h cols Hp).
  rewrite (zip_col_head (mkDataFrame cols [])) in Hz |- *. cbn [columns] in *.
  destruct (List.filter zip_like cols) as [|zc cs] eqn:E; [done|]. csimpl.
  rewrite (Hz zc eq_refl).
  assert (Hin : zc ∈ cols).
  { assert (zc ∈ List.filter zip_like cols) as H by (rewrite E; left).
    by apply elem_of_filter_bool in H as [H _]. }
  destruct (has_col_pos zc (mkDataFrame cols [])) as [z Hpz];
    [by apply bool_decide_eq_true|]. cbn [columns] in Hpz. rewrite Hpz.
  destruct (col_pos_Some _ _ _ Hpz) as [Hlz _].
  assert (Hlz' : (h <$> cols) !! z = Some "Zip").
  { by rewrite list_lookup_fmap, Hlz; simpl; rewrite (Hz zc eq_refl). }
  destruct (has_col_pos "Zip" (mkDataFrame (h <$> cols) [])) as [z' Hpz'].
  { apply bool_decide_eq_true. by eapply list_elem_of_lookup_2. }
  cbn [columns] in Hpz'. rewrite Hpz'. f_equal.
  destruct (col_pos_Some _ _ _ Hpz') as [Hlz'' _].
  rewrite Hcols in Hnd. by eapply NoDup_lookup.
Qed.

Lemma load_columns_reload (cols : list string) :
  load_columns (load_columns cols) = load_columns cols.
Proof.
  destruct (load_columns_form cols) as (h & Hcols & Hp & Hz & _ & _).
  unfold load_columns at 1.
  assert (Hzf : columns (zip_frame (mkDataFrame (load_columns cols) []))
                = load_columns cols).
  { unfold zip_frame. rewrite (zip_col_head (mkDataFrame (load_columns cols) [])).
    cbn [columns]. rewrite Hcols at 1. rewrite (filter_fmap_inv zip_like h cols Hp).
    rewrite (zip_col_head (mkDataFrame cols [])) in Hz. cbn [columns] in Hz.
    destruct (List.filter zip_like cols) as [|zc cs]; [done|]. csimpl.
    rewrite (Hz zc eq_refl).
    destruct (col_pos "Zip" (load_columns cols)); [|done].
    unfold rename. cbn [columns]. erewrite list_fmap_ext; [apply list_fmap_id|].
    intros i l _. apply relabel_same. }
  rewrite (normalize_customer_columns_only _
             (normalize_customer (zip_frame (mkDataFrame cols [])))) by done.
  by rewrite normalize_customer_idem.
Qed.

(** Loading is idempotent.  When the frame [load_data] returned has
    distinct labels, giving it to [load_data] again returns it unchanged:
    labels, State values, ZIP values and every other cell are already in
    the form the loader produces. *)
Theorem X21_load_data_idempotent (raw df : DataFrame) :
  load_data raw = Ok df ->
  NoDup (columns df) ->
  load_data df = Ok df.
Proof.
  rewrite load_data_rowwise. intros [= <-]. cbn [columns]. intros Hnd.
  set (cols := PyStr.strip <$> columns raw) in *.
  rewrite load_data_rowwise. cbn [columns rows].
  destruct (load_columns_form cols) as (h & Hcols & Hp & Hz & HS & Hform).
  assert (Hstrip : PyStr.strip <$> load_columns cols = load_columns cols).
  { rewrite Hcols, <- list_fmap_compose. apply list_fmap_ext. intros i l Hl. simpl.
    destruct (Hform l) as [->|[->| ->]]; [|done..].
    apply list_elem_of_lookup_2 in Hl. unfold cols in Hl.
    apply list_elem_of_fmap in Hl as (l0 & -> & _). apply strip_idem. }
  rewrite Hstrip, load_columns_reload. f_equal. f_equal.
  rewrite <- list_fmap_compose. apply list_fmap_ext. intros i r _. simpl.
  assert (HSt : col_pos "State" (load_columns cols) = col_pos "State" cols).
  { rewrite Hcols. by apply col_pos_fmap_inv. }
  assert (HZ : zip_pos (load_columns cols) = zip_pos cols).
  { by apply zip_pos_reload. }
  unfold load_row at 1. rewrite HSt, HZ.
  assert (Hne : forall s z, col_pos "State" cols = Some s -> zip_pos cols = Some z ->
                            s <> z).
  { intros s z Hs Hzp ->. unfold zip_pos in Hzp.
    destruct (zip_col (mkDataFrame cols [])) as [zc|] eqn:E; [|done]. simpl in Hzp.
    destruct (zip_col_truthy _ _ E) as [_ HzS].
    apply col_pos_Some in Hs as [Hs _]. apply col_pos_Some in Hzp as [Hzp _].
    congruence. }
  pose proof (load_row_twice (col_pos "State" cols) (zip_pos cols) r Hne) as H2.
  cbv zeta in H2. unfold load_row.
  destruct (col_pos "State" cols), (zip_pos cols); exact H2.
Qed.

Lemma X21_load_data_idempotent_witness :
  load_data raw = Ok (mkDataFrame ["Customer"; "WSC_SAM"; "State"; "Zip"]
                        [[Str "Acme"; Str "Ann"; Str "WI"; Str "54401"];
                         [Str "Acme"; Str "Bob"; Str "WI"; Str "54402"];
                         [Str "Beta"; Str "Cy"; Str "NAN"; Str "55401"]]) /\
  NoDup ["Customer"; "WSC_SAM"; "State"; "Zip"] /\
  load_data (mkDataFrame ["Customer"; "WSC_SAM"; "State"; "Zip"]
               [[Str "Acme"; Str "Ann"; Str "WI"; Str "54401"];
                [Str "Acme"; Str "Bob"; Str "WI"; Str "54402"];
                [Str "Beta"; Str "Cy"; Str "NAN"; Str "55401"]])
  = Ok (mkDataFrame ["Customer"; "WSC_SAM"; "State"; "Zip"]
          [[Str "Acme"; Str "Ann"; Str "WI"; Str "54401"];
           [Str "Acme"; Str "Bob"; Str "WI"; Str "54402"];
           [Str "Beta"; Str "Cy"; Str "NAN"; Str "55401"]]).
Proof.
  assert (Hnd : NoDup ["Customer"; "WSC_SAM"; "State"; "Zip"]).
  { apply (bool_decide_unpack _). by vm_compute. }
  split; [reflexivity|]. split; [exact Hnd|].
  exact (X21_load_data_idempotent raw _ eq_refl Hnd).
Defined.

End reload_theorem.
